(** * Terminal-ScreenTime: the sampling and aggregation pipeline

    A shallow embedding of the sampler loops ([screentime_tracker.py],
    [Mac/screentime_tracker.py], [screentime_standalone.py]) and of the
    report functions of [screentime_cli.py], with the properties the
    specification states about them.

    Conventions of the embedding.
    - A Python [str] is a [string]; its characters are code points below 256.
      Comparison of strings is comparison of code points, as in Python.
    - A naive [datetime] is an integer number of microseconds counted from
      the start of proleptic day 0 (day 1 is 0001-01-01, Python's
      [toordinal]); a [date] is its ordinal.
    - The value of [time.time()] is an integer number of milliseconds.
    - What a function prints is returned as a list of structured messages. *)

From Stdlib Require Import ZArith List String Ascii Bool Lia Permutation Sorted.
From Stdlib.Strings Require Import Byte.
Import ListNotations.

Local Open Scope string_scope.
Local Open Scope Z_scope.

(** ** Text *)

Module Text.

(** [s.encode('ascii', 'ignore').decode('ascii')]: characters outside
    ASCII are dropped, the others are kept in order. *)
Definition is_ascii (c : ascii) : bool := (N_of_ascii c <? 128)%N.

Fixpoint ascii_ignore (s : string) : string :=
  match s with
  | EmptyString => EmptyString
  | String c s' =>
      if is_ascii c then String c (ascii_ignore s') else ascii_ignore s'
  end.

(** [str.lower()] on the letters A-Z. The capital letters of
    0xC0-0xDE are lowered by Python to characters that are not ASCII
    either, so a comparison with an ASCII keyword is not affected. *)
Definition lower_char (c : ascii) : ascii :=
  let n := N_of_ascii c in
  if ((65 <=? n) && (n <=? 90))%N then ascii_of_N (n + 32) else c.

Fixpoint lower (s : string) : string :=
  match s with
  | EmptyString => EmptyString
  | String c s' => String (lower_char c) (lower s')
  end.

(** [x in l] for a list of strings. *)
Fixpoint isin (x : string) (l : list string) : bool :=
  match l with
  | [] => false
  | y :: l' => String.eqb x y || isin x l'
  end.

(** [sub in s] for two strings: [sub] occurs in [s] as a contiguous
    run of characters. *)
Fixpoint contains (sub s : string) : bool :=
  String.prefix sub s ||
  match s with
  | EmptyString => false
  | String _ s' => contains sub s'
  end.

Lemma isin_In x l : isin x l = true <-> In x l.
Proof.
  induction l as [|y l IH]; simpl.
  - split; [discriminate | tauto].
  - rewrite orb_true_iff, IH, String.eqb_eq. split; intros [H|H]; auto.
Qed.

End Text.

(** ** Calendar arithmetic of [datetime] *)

Module Clock.

Definition us_per_second : Z := 1000000.
Definition us_per_day : Z := 86400 * us_per_second.

Definition is_leap (y : Z) : bool :=
  (y mod 4 =? 0) && (negb (y mod 100 =? 0) || (y mod 400 =? 0)).

Definition days_in_month (y m : Z) : Z :=
  if m =? 2 then (if is_leap y then 29 else 28)
  else if (m =? 4) || (m =? 6) || (m =? 9) || (m =? 11) then 30
  else 31.

Definition days_before_year (y : Z) : Z :=
  let y' := y - 1 in y' * 365 + y' / 4 - y' / 100 + y' / 400.

Fixpoint days_before_month_aux (y : Z) (k : nat) : Z :=
  match k with
  | O => 0
  | S k' => days_before_month_aux y k' + days_in_month y (Z.of_nat k)
  end.

(** Days of year [y] that precede the first day of month [m]. *)
Definition days_before_month (y m : Z) : Z :=
  days_before_month_aux y (Z.to_nat (m - 1)).

(** [date(y, m, d).toordinal()]. *)
Definition ymd2ord (y m d : Z) : Z :=
  days_before_year y + days_before_month y m + d.

(** [datetime(y, m, d)], midnight at the start of the day of ordinal [o]. *)
Definition midnight (o : Z) : Z := o * us_per_day.

(** [datetime(y, mo, d, h, mi, s, us)]. *)
Definition mk_datetime (y mo d h mi s us : Z) : Z :=
  midnight (ymd2ord y mo d) + ((h * 60 + mi) * 60 + s) * us_per_second + us.

(** [dt.date()], as an ordinal. *)
Definition date_of (dt : Z) : Z := dt / us_per_day.

(** [dt + timedelta(days=n)]. *)
Definition add_days (dt n : Z) : Z := dt + n * us_per_day.

(** [(b - a).days] of a [timedelta]: whole days, rounded down. *)
Definition delta_days (b a : Z) : Z := (b - a) / us_per_day.

Lemma us_per_day_pos : 0 < us_per_day.
Proof. reflexivity. Qed.

Lemma date_of_midnight o : date_of (midnight o) = o.
Proof.
  unfold date_of, midnight. apply Z.div_mul.
  pose proof us_per_day_pos. lia.
Qed.

(** A datetime falls on day [o] exactly when it lies between the two
    midnights that bound the day. *)
Lemma date_of_bounds dt o :
  date_of dt = o <-> midnight o <= dt < midnight (o + 1).
Proof.
  unfold date_of, midnight. pose proof us_per_day_pos as Hp.
  pose proof (Z.div_mod dt us_per_day ltac:(lia)) as Hdm.
  pose proof (Z.mod_pos_bound dt us_per_day Hp) as Hb.
  split.
  - intros <-. nia.
  - intros [H1 H2]. symmetry. apply (Z.div_unique _ _ o (dt - o * us_per_day)); lia.
Qed.

Lemma date_of_mono a b : a <= b -> date_of a <= date_of b.
Proof.
  intros H. unfold date_of. apply Z.div_le_mono; [apply us_per_day_pos | exact H].
Qed.

End Clock.

(** ** The log *)

(** One line of the log: the four columns of the CSV header
    [timestamp,idle_seconds,app_name,window_title]. *)
Record Row : Type := mkRow {
  timestamp : Z;
  idle_seconds : Z;
  app_name : string;
  window_title : string
}.

Definition IDLE_THRESHOLD : Z := 300.

(** What the Activity Probe answers on one tick: [get_idle_time()],
    [is_screensaver_active()] / [is_screen_locked()] and
    [get_foreground_app()]. *)
Record Probe : Type := mkProbe {
  idle_time : Z;
  locked : bool;
  fg_app : string;
  fg_title : string
}.

(** ** The low-fidelity sampler: [screentime_tracker.py] *)

Module Tracker.

Definition LOG_INTERVAL : Z := 60.

(** The body of the [while True] loop of [log_activity]: the row that is
    appended on a tick whose probe answers are [p], at wall-clock [now].
    [encode('ascii', 'ignore')] does not raise on a [str], so the
    ["Unknown Window"] handler is never entered. *)
Definition tick (p : Probe) (now : Z) : Row :=
  let active := (idle_time p <? IDLE_THRESHOLD) && negb (locked p) in
  let '(name, title) :=
    if active then (fg_app p, fg_title p) else ("Idle", "System Idle") in
  mkRow now (idle_time p) name (Text.ascii_ignore title).

(** The loop: one row is appended to the log on every tick. *)
Fixpoint log_activity (log : list Row) (ticks : list (Probe * Z)) : list Row :=
  match ticks with
  | [] => log
  | (p, now) :: rest => log_activity (log ++ [tick p now]) rest
  end.

End Tracker.

(** ** The high-fidelity sampler: [Mac/screentime_tracker.py] and
       [ScreenTimeTracker.log_activity] of [screentime_standalone.py] *)

Module HiFi.

(** One pass of the loop reads the probe, the clock for the row
    ([datetime.now()]), the clock for the heartbeat test ([time.time()],
    in milliseconds), and finds out whether the append succeeds and
    whether the console takes the line that reports a change of window
    ([print] raises when the console cannot encode the title, or is
    closed). *)
Record Tick : Type := mkTick {
  probe : Probe;
  now : Z;
  clock_ms : Z;
  write_ok : bool;
  print_ok : bool
}.

(** The loop variables [last_app] and [last_window]. *)
Record State : Type := mkState {
  last_app : string;
  last_window : string
}.

Definition init : State := mkState "" "".

(** The row the loop is about to write: lines 236 to 243. *)
Definition candidate (tk : Tick) : Row :=
  let p := probe tk in
  if locked p
  then mkRow (now tk) 0 "Screen Locked" "Screen Saver"
  else mkRow (now tk) (idle_time p) (fg_app p) (fg_title p).

(** [time.time() % 30 < 1]. *)
Definition heartbeat (tk : Tick) : bool := clock_ms tk mod 30000 <? 1000.

(** The write test of line 246. *)
Definition should_log (st : State) (tk : Tick) : bool :=
  let r := candidate tk in
  negb (String.eqb (app_name r) (last_app st))
  || negb (String.eqb (window_title r) (last_window st))
  || heartbeat tk.

(** The test of line 253: the window differs from the one the loop
    variables hold. *)
Definition changed (st : State) (tk : Tick) : bool :=
  let r := candidate tk in
  negb (String.eqb (app_name r) (last_app st))
  || negb (String.eqb (window_title r) (last_window st)).

(** One pass of the loop: the row appended, if any, and the loop
    variables afterwards. The append, the report of a change on the
    console and the update of the loop variables are in one [try], in
    this order: a failed append leaves no row and the variables as they
    were; a report that raises comes after the append, so the row is in
    the file and the variables are as they were. *)
Definition step (st : State) (tk : Tick) : State * option Row :=
  let r := candidate tk in
  if should_log st tk then
    if write_ok tk then
      if changed st tk && negb (print_ok tk)
      then (st, Some r)
      else (mkState (app_name r) (window_title r), Some r)
    else (st, None)
  else (st, None).

(** The rows appended by a run of passes. The handler of the [try]
    prints as well; if that raises too the run ends, and the pass is the
    last of [ticks]. *)
Fixpoint log_activity (st : State) (ticks : list Tick) : list Row :=
  match ticks with
  | [] => []
  | tk :: rest =>
      let '(st', w) := step st tk in
      match w with
      | Some r => r :: log_activity st' rest
      | None => log_activity st' rest
      end
  end.

(** The [datetime.now()] of a pass, cut to whole seconds as
    [strftime] does, when [time.time()] reads [ms] milliseconds: the Unix
    epoch is the midnight of ordinal 719163. *)
Definition wall (ms : Z) : Z :=
  Clock.midnight 719163 + (ms / 1000) * Clock.us_per_second.

(** A steady state: the same unlocked foreground window on every pass,
    the first pass at [time.time() = 2.5] and one pass every 5 seconds,
    as [time.sleep(5)] schedules them. *)
Definition steady_tick (app title : string) (k : nat) : Tick :=
  let t := 2500 + 5000 * Z.of_nat k in
  mkTick (mkProbe 0 false app title) (wall t) t true true.

Definition steady_ticks (app title : string) (first n : nat) : list Tick :=
  map (steady_tick app title) (seq first n).

Lemma heartbeat_off_phase app title k :
  heartbeat (steady_tick app title k) = false.
Proof.
  unfold heartbeat, steady_tick; cbn [clock_ms].
  apply Z.ltb_ge.
  set (t := 2500 + 5000 * Z.of_nat k).
  pose proof (Z.div_mod t 30000 ltac:(lia)) as E.
  pose proof (Z.mod_pos_bound t 30000 ltac:(lia)) as B.
  assert (Hj : t mod 30000 = 5000 * (Z.of_nat k - 6 * (t / 30000)) + 2500)
    by (subst t; lia).
  lia.
Qed.

Lemma steady_no_write app title first n :
  log_activity (mkState app title) (steady_ticks app title first n) = [].
Proof.
  revert first. induction n as [|n IH]; intros first; [reflexivity|].
  unfold steady_ticks in *. simpl seq. simpl map.
  simpl log_activity. unfold step, should_log.
  rewrite heartbeat_off_phase.
  unfold candidate. simpl.
  rewrite !String.eqb_refl. simpl. apply IH.
Qed.

End HiFi.

(** ** The sampler as the specification words it *)

Module SamplerSpec.

(** The three-way case split of section 4.1. *)
Definition tick_record (p : Probe) (now : Z) : Row :=
  if locked p then mkRow now 0 "Screen Locked" "Screen Saver"
  else if IDLE_THRESHOLD <=? idle_time p
       then mkRow now (idle_time p) "Idle" "System Idle"
       else mkRow now (idle_time p) (fg_app p) (fg_title p).

(** The change-or-heartbeat policy: write when the window differs from
    the one last written, or when 30 seconds have passed since the last
    write at [last_write_ms]. *)
Definition should_log (st : HiFi.State) (last_write_ms : Z) (tk : HiFi.Tick) : bool :=
  let r := HiFi.candidate tk in
  negb (String.eqb (app_name r) (HiFi.last_app st))
  || negb (String.eqb (window_title r) (HiFi.last_window st))
  || (last_write_ms + 30000 <=? HiFi.clock_ms tk).

End SamplerSpec.

(** ** [pandas] and built-in operations used by the reports *)

Module Pandas.

(** A data frame is the list of its rows, in file order. A row keeps
    the text of its [app_name] field; pandas holds the field as a missing
    value (NaN) when the text is one of [na_values]. A row without a
    timestamp passes none of the date filters of the reports and is left
    out of the frame; a row without [idle_seconds] is never active and is
    a row with 300 idle seconds. *)
Definition Frame : Type := list Row.

(** The texts that [pd.read_csv] reads as a missing value when it is
    called without [na_values] and [keep_default_na], as [load_data]
    calls it: the empty field and the markers of pandas 2 (earlier
    versions lack "None"). *)
Definition na_values : list string :=
  [""; "#N/A"; "#N/A N/A"; "#NA"; "-1.#IND"; "-1.#QNAN"; "-NaN"; "-nan";
   "1.#IND"; "1.#QNAN"; "<NA>"; "N/A"; "NA"; "NULL"; "NaN"; "None"; "n/a";
   "nan"; "null"].

(** [Series.isna()] and [Series.notna()] on the [app_name] column. *)
Definition isna (s : string) : bool := Text.isin s na_values.

Definition notna (s : string) : bool := negb (isna s).

(** [Series.dropna()]. *)
Definition dropna (col : list string) : list string := filter notna col.

(** [df.empty]. *)
Definition empty {A} (df : list A) : bool :=
  match df with [] => true | _ => false end.

(** [Series.nunique()] of a column of strings: the number of distinct
    values, missing values not counted ([dropna=True] is the default). *)
Definition nunique (col : list string) : nat :=
  List.length (nodup string_dec (dropna col)).

Section Groupby.
Context {K : Type} (cmp : K -> K -> comparison).

Fixpoint insert_key (k : K) (keys : list K) : list K :=
  match keys with
  | [] => [k]
  | k' :: rest =>
      match cmp k k' with
      | Lt => k :: keys
      | Eq => keys
      | Gt => k' :: insert_key k rest
      end
  end.

(** The group keys of [groupby(col)]: the distinct values of the
    column, in ascending order ([sort=True] is the default). *)
Definition group_keys (col : list K) : list K :=
  fold_right insert_key [] col.
End Groupby.

(** Python's [sorted(items, key=..., reverse=True)], which is stable:
    items are in descending order of key and items of equal key keep
    the order they had. *)
Section Sorted.
Context {A : Type} (key : A -> nat).

Fixpoint insert_desc (x : A) (l : list A) : list A :=
  match l with
  | [] => [x]
  | y :: l' =>
      if (key y <=? key x)%nat then x :: l else y :: insert_desc x l'
  end.

Definition sorted_desc (l : list A) : list A :=
  fold_right insert_desc [] l.
End Sorted.

End Pandas.

(** ** The reports of [screentime_cli.py] *)

Inductive Category : Type := Productive | Social | Entertainment | Other.

(** What the reports print, one constructor per message. *)
Inductive Label : Type := Excellent | Good | Average | NeedsImprovement.

Record AppStat : Type := mkAppStat {
  stat_app : string;
  usage_minutes : nat;
  last_used : Z;
  sessions : nat
}.

Inductive Message : Type :=
| NoDataFound
| EncodingIssues
| ErrorLoadingData
| NoActivityToday (today : Z)
| TodaySummary (today : Z) (active_minutes unique_apps : nat)
| MostUsedApps (top_apps : list (string * nat))
| NoActivityLast7Days
| WeeklyReport (daily : list (Z * nat * nat)) (total_time : nat)
| NoRecentActivity
| AppUsageStatistics (table : list AppStat)
| ProductivityAnalysis (productive social entertainment other total : Z)
                       (score : Label)
| NoActiveTime
| NoDataForPeriod (start_date end_date : string)
| Analysis (start_date end_date : string)
           (total_minutes unique_apps : nat) (days_span : Z)
| TopAppsInPeriod (top_apps : list (string * nat))
| InvalidDateFormat
| ErrorMessage.

(** A report either calls [load_data()] or prints. *)
Inductive Event : Type :=
| Call_load_data
| Print (m : Message).

Module Cli.
Import Pandas.

(** [df['active'] = df['idle_seconds'] < 300] of [load_data]. *)
Definition active (r : Row) : bool := idle_seconds r <? 300.

(** What a call of [load_data()] printed and returned; [None] is
    Python's [None]. *)
Definition Loaded : Type := (list Message * option Frame)%type.

(** [df['active'].sum()]. *)
Definition active_sum (df : Frame) : nat := List.length (filter active df).

(** [df[df['active']]['app_name'].nunique()]. *)
Definition unique_apps_of (df : Frame) : nat :=
  nunique (map app_name (filter active df)).

(** [df['active'].any()]. *)
Definition any_active (df : Frame) : bool := existsb active df.

Definition count_app (app : string) (df : Frame) : nat :=
  List.length (filter (fun r => String.eqb (app_name r) app) df).

(** The keys of [df.groupby('app_name')]: the distinct app names in
    ascending order; rows whose app name is missing are in no group
    ([dropna=True] is the default). *)
Definition app_keys (df : Frame) : list string :=
  group_keys String.compare (dropna (map app_name df)).

(** [df.groupby('app_name').size()]: one entry per app, in ascending
    order of the app name. *)
Definition groupby_size (df : Frame) : list (string * nat) :=
  map (fun app => (app, count_app app df)) (app_keys df).

(** [strptime(s, '%Y-%m-%d')]: the pattern
    [(\d\d\d\d)-(1[0-2]|0[1-9]|[1-9])-(3[0-1]|[1-2]\d|0[1-9]|[1-9]| [1-9])]
    has to match at the start of [s] and nothing may remain; the
    alternatives are tried in order. The date must exist. The result is
    the ordinal of the date, [None] stands for [ValueError]. *)
Definition digit_between (lo hi : N) (c : ascii) : option Z :=
  let n := N_of_ascii c in
  if ((48 + lo <=? n) && (n <=? 48 + hi))%N then Some (Z.of_N (n - 48)) else None.

Definition digit : ascii -> option Z := digit_between 0 9.

Definition is_char (a c : ascii) : bool := Ascii.eqb a c.

Definition match_year (s : string) : option (Z * string) :=
  match s with
  | String a (String b (String c (String d rest))) =>
      match digit a, digit b, digit c, digit d with
      | Some x, Some y, Some z, Some w =>
          Some (((x * 10 + y) * 10 + z) * 10 + w, rest)
      | _, _, _, _ => None
      end
  | _ => None
  end.

Definition match_month (s : string) : option (Z * string) :=
  match s with
  | EmptyString => None
  | String a r1 =>
      let two :=
        match r1 with
        | EmptyString => None
        | String b r2 =>
            if is_char a "1" then
              option_map (fun y => (10 + y, r2)) (digit_between 0 2 b)
            else if is_char a "0" then
              option_map (fun y => (y, r2)) (digit_between 1 9 b)
            else None
        end in
      match two with
      | Some res => Some res
      | None => option_map (fun x => (x, r1)) (digit_between 1 9 a)
      end
  end.

Definition match_day (s : string) : option (Z * string) :=
  match s with
  | EmptyString => None
  | String a r1 =>
      let two :=
        match r1 with
        | EmptyString => None
        | String b r2 =>
            if is_char a "3" then
              option_map (fun y => (30 + y, r2)) (digit_between 0 1 b)
            else
              match digit_between 1 2 a with
              | Some x => option_map (fun y => (x * 10 + y, r2)) (digit b)
              | None =>
                  if is_char a "0"
                  then option_map (fun y => (y, r2)) (digit_between 1 9 b)
                  else None
              end
        end in
      match two with
      | Some res => Some res
      | None =>
          match digit_between 1 9 a with
          | Some x => Some (x, r1)
          | None =>
              if is_char a " " then
                match r1 with
                | String b r2 => option_map (fun y => (y, r2)) (digit_between 1 9 b)
                | EmptyString => None
                end
              else None
          end
      end
  end.

Definition expect_dash (s : string) : option string :=
  match s with
  | String c rest => if is_char c "-" then Some rest else None
  | EmptyString => None
  end.

Definition strptime_ymd (s : string) : option Z :=
  match match_year s with
  | None => None
  | Some (y, s1) =>
  match expect_dash s1 with
  | None => None
  | Some s2 =>
  match match_month s2 with
  | None => None
  | Some (m, s3) =>
  match expect_dash s3 with
  | None => None
  | Some s4 =>
  match match_day s4 with
  | None => None
  | Some (d, s5) =>
      if String.eqb s5 "" && (1 <=? y) && (d <=? Clock.days_in_month y m)
      then Some (Clock.ymd2ord y m d)
      else None
  end end end end end.

(** [datetime.max.toordinal()], the ordinal of 9999-12-31: adding a day
    to a datetime on that day raises [OverflowError]. *)
Definition MAXORDINAL : Z := 3652059.

Definition in_range (start_dt end_dt : Z) (r : Row) : bool :=
  (start_dt <=? timestamp r) && (timestamp r <? end_dt).

Definition on_day (day : Z) (r : Row) : bool :=
  Clock.date_of (timestamp r) =? day.

Definition after (t : Z) (r : Row) : bool := t <? timestamp r.

(** [max] of the timestamps of a group; a group is never empty. *)
Definition max_timestamp (g : Frame) : Z :=
  match g with
  | [] => 0
  | r :: g' => fold_left Z.max (map timestamp g') (timestamp r)
  end.

(** [groupby('app_name').agg(usage_minutes=('active', 'sum'),
    last_used=('timestamp', 'max'), sessions=('timestamp', 'count'))]. *)
Definition agg_app_stats (df : Frame) : list AppStat :=
  map (fun app =>
         let g := filter (fun r => String.eqb (app_name r) app) df in
         mkAppStat app (active_sum g) (max_timestamp g) (List.length g))
      (app_keys df).

(** [groupby(timestamp.dt.date).agg(active_minutes=('active', 'sum'),
    unique_apps=...)] of [weekly_report]. *)
Definition daily_stats (df : Frame) : list (Z * nat * nat) :=
  map (fun day =>
         let g := filter (on_day day) df in
         (day, active_sum g, unique_apps_of g))
      (group_keys Z.compare (map (fun r => Clock.date_of (timestamp r)) df)).

Definition productive_apps : list string :=
  ["code.exe"; "notepad++.exe"; "sublime_text.exe"; "atom.exe";
   "pycharm64.exe"; "devenv.exe"; "git.exe"].
Definition social_apps : list string :=
  ["chrome.exe"; "firefox.exe"; "discord.exe"; "telegram.exe";
   "whatsapp.exe"; "slack.exe"].
Definition entertainment_apps : list string :=
  ["spotify.exe"; "vlc.exe"; "netflix.exe"; "youtube.exe";
   "steam.exe"; "epicgameslauncher.exe"].

(** [app_name.str.lower().isin([app.lower() for app in apps])]. *)
Definition listed (apps : list string) (r : Row) : bool :=
  Text.isin (Text.lower (app_name r)) (map Text.lower apps).

(** [active_data[listed]['active'].sum()]. *)
Definition time_in (apps : list string) (active_data : Frame) : Z :=
  Z.of_nat (active_sum (filter (listed apps) active_data)).

(** The band of [productive_time / total_time * 100], compared without
    rounding. *)
Definition score_label (productive_time total_time : Z) : Label :=
  if 70 * total_time <=? 100 * productive_time then Excellent
  else if 50 * total_time <=? 100 * productive_time then Good
  else if 30 * total_time <=? 100 * productive_time then Average
  else NeedsImprovement.

Definition seven_days : Z := 7 * Clock.us_per_day.

Section Reports.

(** [sort_values(ascending=False)] of pandas, by a column of counts.
    The reports call it with the default [kind='quicksort'], for
    which pandas fixes no order among rows of equal count; it is a
    parameter of the reports. *)
Variable sort_values_desc : forall A : Type, (A -> nat) -> list A -> list A.

(** [df[df['active']].groupby('app_name').size()
      .sort_values(ascending=False).head(n)]. *)
Definition top_apps (n : nat) (df : Frame) : list (string * nat) :=
  firstn n (sort_values_desc _ snd (groupby_size (filter active df))).

Definition today_summary (loaded : Loaded) (today : Z) : list Event :=
  Call_load_data :: map Print (fst loaded) ++
  match snd loaded with
  | None => []
  | Some df =>
      let today_data := filter (on_day today) df in
      if empty today_data then [Print (NoActivityToday today)]
      else
        Print (TodaySummary today (active_sum today_data)
                            (unique_apps_of today_data))
        :: (if any_active today_data
            then [Print (MostUsedApps (top_apps 5 today_data))]
            else [])
  end.

Definition weekly_report (loaded : Loaded) (now : Z) : list Event :=
  Call_load_data :: map Print (fst loaded) ++
  match snd loaded with
  | None => []
  | Some df =>
      let week_data := filter (after (now - seven_days)) df in
      if empty week_data then [Print NoActivityLast7Days]
      else [Print (WeeklyReport (daily_stats week_data)
                                (active_sum week_data))]
  end.

Definition app_usage_stats (loaded : Loaded) (now : Z) : list Event :=
  Call_load_data :: map Print (fst loaded) ++
  match snd loaded with
  | None => []
  | Some df =>
      let recent_data := filter (after (now - seven_days)) df in
      if empty recent_data then [Print NoRecentActivity]
      else
        let app_stats :=
          sort_values_desc _ usage_minutes
                           (agg_app_stats (filter active recent_data)) in
        [Print (AppUsageStatistics (firstn 15 app_stats))]
  end.

Definition productivity_analysis (loaded : Loaded) (now : Z) : list Event :=
  Call_load_data :: map Print (fst loaded) ++
  match snd loaded with
  | None => []
  | Some df =>
      let recent_data := filter (after (now - seven_days)) df in
      if empty recent_data then [Print NoRecentActivity]
      else
        let active_data := filter active recent_data in
        let productive_time := time_in productive_apps active_data in
        let social_time := time_in social_apps active_data in
        let entertainment_time := time_in entertainment_apps active_data in
        let total_time := Z.of_nat (active_sum active_data) in
        let other_time :=
          total_time - productive_time - social_time - entertainment_time in
        if 0 <? total_time
        then [Print (ProductivityAnalysis
                       productive_time social_time entertainment_time
                       other_time total_time
                       (score_label productive_time total_time))]
        else [Print NoActiveTime]
  end.

(** The part of [custom_date_range] that follows the filter. The
    "Daily Average" line is computed from [total_minutes] and
    [days_span], which the message carries. *)
Definition range_report (start_date end_date : string)
           (start_dt end_dt : Z) (filtered_data : Frame) : list Event :=
  if empty filtered_data
  then [Print (NoDataForPeriod start_date end_date)]
  else
    Print (Analysis start_date end_date
                    (active_sum filtered_data)
                    (unique_apps_of filtered_data)
                    (Clock.delta_days end_dt start_dt))
    :: (if any_active filtered_data
        then [Print (TopAppsInPeriod (top_apps 10 filtered_data))]
        else []).

(** [custom_date_range], given the two lines the user types. Both
    dates are parsed before [load_data] is called; [ValueError] from
    [strptime] is answered by the "Invalid date format" message and
    [OverflowError] from the addition of a day by the generic one. *)
Definition custom_date_range (start_date end_date : string)
           (loaded : Loaded) : list Event :=
  match strptime_ymd start_date with
  | None => [Print InvalidDateFormat]
  | Some d1 =>
      match strptime_ymd end_date with
      | None => [Print InvalidDateFormat]
      | Some d2 =>
          if MAXORDINAL <=? d2 then [Print ErrorMessage]
          else
            let start_dt := Clock.midnight d1 in
            let end_dt := Clock.add_days (Clock.midnight d2) 1 in
            Call_load_data :: map Print (fst loaded) ++
            match snd loaded with
            | None => []
            | Some df =>
                range_report start_date end_date start_dt end_dt
                             (filter (in_range start_dt end_dt) df)
            end
      end
  end.

End Reports.

End Cli.


(** ** The filter of [Mac/screentime_cli.py] *)

Module MacCli.

(** [(idle_seconds < 300) & (app_name != 'Screen Locked') &
    (app_name != 'Unknown')], commented "Filter out idle time and screen
    lock" in [get_today_summary]. *)
Definition active (r : Row) : bool :=
  (idle_seconds r <? 300)
  && negb (String.eqb (app_name r) "Screen Locked")
  && negb (String.eqb (app_name r) "Unknown").

End MacCli.

(** ** [ScreenTimeCLI._today_summary_simple] of [screentime_standalone.py] *)

Module Standalone.
Import Pandas.

(** [app_counts[app] = app_counts.get(app, 0) + 1] on a [dict], which
    keeps its keys in the order of their first insertion. *)
Fixpoint dict_incr (app : string) (d : list (string * nat)) : list (string * nat) :=
  match d with
  | [] => [(app, 1%nat)]
  | (k, v) :: d' =>
      if String.eqb k app then (k, S v) :: d' else (k, v) :: dict_incr app d'
  end.

Definition app_counts (active_data : Frame) : list (string * nat) :=
  fold_left (fun d r => dict_incr (app_name r) d) active_data [].

(** [len(set(...))] of a list of strings. The rows come from
    [csv.DictReader], which has no missing values: an empty field is the
    empty string. *)
Definition len_set (l : list string) : nat :=
  List.length (nodup string_dec l).

(** [sorted(app_counts.items(), key=lambda x: x[1], reverse=True)[:5]]. *)
Definition sorted_apps (active_data : Frame) : list (string * nat) :=
  firstn 5 (sorted_desc snd (app_counts active_data)).

(** [data] is what [load_data_simple()] returned. *)
Definition today_summary_simple (data : Frame) (today : Z) : list Message :=
  if empty data then [NoActivityToday today]
  else
    let today_data := filter (Cli.on_day today) data in
    if empty today_data then [NoActivityToday today]
    else
      let active_data := filter (fun r => idle_seconds r <? 300) today_data in
      TodaySummary today (List.length active_data)
                   (len_set (map app_name active_data))
      :: (if empty active_data then []
          else [MostUsedApps (sorted_apps active_data)]).

(** The distinct elements of a list in the order of their first
    occurrence. *)
Fixpoint first_seen (l : list string) : list string :=
  match l with
  | [] => []
  | x :: l' => x :: filter (fun y => negb (String.eqb y x)) (first_seen l')
  end.

End Standalone.

(** ** Text encodings *)

Module Codec.

Inductive Encoding : Type := utf_8 | latin_1 | cp1252 | utf_8_sig.

(** A continuation byte [10xxxxxx] and its six bits. *)
Definition continuation (b : byte) : option N :=
  let n := Byte.to_N b in
  if ((128 <=? n) && (n <? 192))%N then Some (n - 128)%N else None.

(** Strict UTF-8: shortest form only, no surrogates, nothing above
    U+10FFFF. [None] stands for [UnicodeDecodeError]. *)
Fixpoint utf8_decode (bs : list byte) : option (list N) :=
  match bs with
  | [] => Some []
  | b0 :: r0 =>
      let n0 := Byte.to_N b0 in
      if (n0 <? 128)%N then option_map (cons n0) (utf8_decode r0)
      else if ((194 <=? n0) && (n0 <? 224))%N then
        match r0 with
        | b1 :: r1 =>
            match continuation b1 with
            | Some c1 =>
                option_map (cons ((n0 - 192) * 64 + c1)%N) (utf8_decode r1)
            | None => None
            end
        | _ => None
        end
      else if ((224 <=? n0) && (n0 <? 240))%N then
        match r0 with
        | b1 :: b2 :: r2 =>
            match continuation b1, continuation b2 with
            | Some c1, Some c2 =>
                let cp := (((n0 - 224) * 64 + c1) * 64 + c2)%N in
                if ((2048 <=? cp) && negb ((55296 <=? cp) && (cp <=? 57343)))%N
                then option_map (cons cp) (utf8_decode r2)
                else None
            | _, _ => None
            end
        | _ => None
        end
      else if ((240 <=? n0) && (n0 <? 245))%N then
        match r0 with
        | b1 :: b2 :: b3 :: r3 =>
            match continuation b1, continuation b2, continuation b3 with
            | Some c1, Some c2, Some c3 =>
                let cp := ((((n0 - 240) * 64 + c1) * 64 + c2) * 64 + c3)%N in
                if ((65536 <=? cp) && (cp <=? 1114111))%N
                then option_map (cons cp) (utf8_decode r3)
                else None
            | _, _, _ => None
            end
        | _ => None
        end
      else None
  end.

(** A single-byte encoding decodes byte by byte through its table; a
    byte the table leaves undefined raises [UnicodeDecodeError]. *)
Fixpoint charmap_decode (table : N -> option N) (bs : list byte) : option (list N) :=
  match bs with
  | [] => Some []
  | b :: rest =>
      match table (Byte.to_N b) with
      | Some cp => option_map (cons cp) (charmap_decode table rest)
      | None => None
      end
  end.

Definition latin_1_table (n : N) : option N := Some n.

Definition cp1252_high : list (N * option N) :=
  [(128, Some 8364); (129, None); (130, Some 8218); (131, Some 402);
   (132, Some 8222); (133, Some 8230); (134, Some 8224); (135, Some 8225);
   (136, Some 710); (137, Some 8240); (138, Some 352); (139, Some 8249);
   (140, Some 338); (141, None); (142, Some 381); (143, None);
   (144, None); (145, Some 8216); (146, Some 8217); (147, Some 8220);
   (148, Some 8221); (149, Some 8226); (150, Some 8211); (151, Some 8212);
   (152, Some 732); (153, Some 8482); (154, Some 353); (155, Some 8250);
   (156, Some 339); (157, None); (158, Some 382); (159, Some 376)]%N.

Definition cp1252_table (n : N) : option N :=
  match find (fun e => (fst e =? n)%N) cp1252_high with
  | Some (_, cp) => cp
  | None => Some n
  end.

(** [utf-8-sig]: a leading byte order mark EF BB BF is skipped. *)
Definition strip_bom (bs : list byte) : list byte :=
  match bs with
  | b0 :: b1 :: b2 :: rest =>
      if ((Byte.to_N b0 =? 239) && (Byte.to_N b1 =? 187) && (Byte.to_N b2 =? 191))%N
      then rest else bs
  | _ => bs
  end.

Definition decode (e : Encoding) (bs : list byte) : option (list N) :=
  match e with
  | utf_8 => utf8_decode bs
  | latin_1 => charmap_decode latin_1_table bs
  | cp1252 => charmap_decode cp1252_table bs
  | utf_8_sig => utf8_decode (strip_bom bs)
  end.

End Codec.

(** ** [load_data] of [screentime_cli.py] *)

Module Loader.
Import Codec Pandas.

Definition encodings : list Encoding := [utf_8; latin_1; cp1252; utf_8_sig].

Inductive ReadCsv : Type :=
| UnicodeDecodeError
| OtherException
| Read (df : Frame).

(** How the [for encoding in encodings] loop ends. *)
Inductive Attempt : Type :=
| Exhausted            (* [df is None] after the loop *)
| Raised               (* an exception left the loop *)
| Got (df : Frame).    (* [break] *)

Section Load.

(** The parser of [pd.read_csv] on decoded text, followed by the two
    column conversions of [load_data] ([pd.to_datetime] and the
    comparison of [idle_seconds]): [None] when any of them raises.
    Every such exception is answered by the same handler. *)
Variable parse_frame : Encoding -> list N -> option Frame.

Definition read_csv (e : Encoding) (bs : list byte) : ReadCsv :=
  match decode e bs with
  | None => UnicodeDecodeError
  | Some text =>
      match parse_frame e text with
      | None => OtherException
      | Some df => Read df
      end
  end.

Fixpoint try_encodings (encs : list Encoding) (bs : list byte) : Attempt :=
  match encs with
  | [] => Exhausted
  | e :: rest =>
      match read_csv e bs with
      | UnicodeDecodeError => try_encodings rest bs
      | OtherException => Raised
      | Read df => Got df
      end
  end.

(** [file] is the content of [LOG_FILE], [None] when it does not
    exist. *)
Definition load_data (file : option (list byte)) : Cli.Loaded :=
  match file with
  | None => ([NoDataFound], None)
  | Some bs =>
      match try_encodings encodings bs with
      | Exhausted => ([EncodingIssues], None)
      | Raised => ([ErrorLoadingData], None)
      | Got df => ([], Some df)
      end
  end.

End Load.

End Loader.

(** ** The columns [load_data] asks for *)

Module Columns.
Import Codec Pandas.

(** What [pd.read_csv] returns: the names of the columns, which it
    reads off the first line of the file, and the lines below it. *)
Record Table : Type := mkTable {
  columns : list string;
  records : list (list string)
}.

Section Conversions.

(** [pd.read_csv] on decoded text; [None] when the parser raises. *)
Variable read_table : Encoding -> list N -> option Table.

(** [pd.to_datetime] on the [timestamp] column and the comparison of
    the [idle_seconds] column with 300, on a table that has both
    columns; [None] when one of them raises. *)
Variable convert : Table -> option Frame.

(** [df[name]] raises [KeyError] when the table has no such column. *)
Definition has_column (name : string) (t : Table) : bool :=
  Text.isin name (columns t).

(** Lines 124, 133 and 134 of [load_data] on decoded text: the parser,
    then the two columns and their conversions. *)
Definition parse_frame (e : Encoding) (text : list N) : option Frame :=
  match read_table e text with
  | None => None
  | Some t =>
      if has_column "timestamp" t && has_column "idle_seconds" t
      then convert t
      else None
  end.

(** The file is valid CSV under an encoding: it decodes, and the
    parser accepts the text. *)
Definition valid_csv (e : Encoding) (bs : list byte) : Prop :=
  exists text t, decode e bs = Some text /\ read_table e text = Some t.

End Conversions.

End Columns.

(** ** The aggregator as the specification words it *)

Module SummarySpec.

Definition sentinel (app : string) : bool :=
  String.eqb app "Idle" || String.eqb app "Screen Locked".

(** Section 3: Active iff under the idle threshold, not locked, and
    not a sentinel name. [was_locked] is the lock state at the tick
    that wrote the row. *)
Definition active (was_locked : bool) (r : Row) : bool :=
  (idle_seconds r <? IDLE_THRESHOLD) && negb was_locked
  && negb (sentinel (app_name r)).

(** Section 4.2, per-app rollup: a session is a maximal run of
    consecutive rows of one app in timestamp order; it ends when the app
    changes or when the gap to the next row exceeds the sampling
    interval. *)
Fixpoint insert_by_time (r : Row) (l : list Row) : list Row :=
  match l with
  | [] => [r]
  | q :: l' =>
      if timestamp r <=? timestamp q then r :: l else q :: insert_by_time r l'
  end.

Definition by_time (l : list Row) : list Row := fold_right insert_by_time [] l.

Fixpoint runs (interval : Z) (app : string) (prev : option Row)
         (rows : list Row) : nat :=
  match rows with
  | [] => 0%nat
  | r :: rest =>
      let starts :=
        String.eqb (app_name r) app
        && match prev with
           | None => true
           | Some q => negb (String.eqb (app_name q) app)
                       || (interval <? timestamp r - timestamp q)
           end in
      ((if starts then 1 else 0) + runs interval app (Some r) rest)%nat
  end.

Definition sessions (interval : Z) (app : string) (active_rows : list Row) : nat :=
  runs interval app None (by_time active_rows).

(** Section 4.2, category rollup: case-insensitive substring match
    against the keyword lists, the first category that matches wins. *)
Definition matches (keywords : list string) (app : string) : bool :=
  existsb (fun k => Text.contains (Text.lower k) (Text.lower app)) keywords.

Definition category (app : string) : Category :=
  if matches Cli.productive_apps app then Productive
  else if matches Cli.social_apps app then Social
  else if matches Cli.entertainment_apps app then Entertainment
  else Other.

(** Section 4.2, determinism: descending usage, ties in ascending
    order of the app name. *)
Definition ranked_before (a b : string * nat) : Prop :=
  (snd b < snd a)%nat \/ (snd a = snd b /\ String.ltb (fst a) (fst b) = true).

Definition ranked (l : list (string * nat)) : Prop :=
  StronglySorted ranked_before l.

(** Section 7, InvalidDateRange: the validation message and nothing
    else, the log is not touched. *)
Definition validation_abort (out : list Event) : Prop :=
  out = [Print InvalidDateFormat].

End SummarySpec.

(** * Properties *)

(** ** The sampler *)

(** C1. The aggregator of [screentime_cli.py] looks at [idle_seconds]
    only. A tick taken while the screen saver runs, less than 300 seconds
    after the last input, is written by the low-fidelity sampler under the
    sentinel name "Idle" and is then counted as active; a locked tick of the
    high-fidelity sampler is written as "Screen Locked" with idle 0 and is
    counted as active as well, although the filter of [Mac/screentime_cli.py]
    leaves it out and the specification calls neither row Active. *)
Theorem locked_tick_counted_active (p : Probe) (now : Z) :
  locked p = true -> idle_time p < IDLE_THRESHOLD ->
  let low := Tracker.tick p now in
  let high := HiFi.candidate (HiFi.mkTick p now 0 true true) in
  (app_name low = "Idle" /\ Cli.active low = true
   /\ SummarySpec.active true low = false)
  /\ (app_name high = "Screen Locked" /\ Cli.active high = true
      /\ MacCli.active high = false
      /\ SummarySpec.active true high = false).
Proof.
  intros Hl Hi. unfold Tracker.tick, HiFi.candidate, Cli.active; cbn [HiFi.probe HiFi.now].
  rewrite Hl, andb_false_r. cbn.
  unfold IDLE_THRESHOLD in Hi.
  assert ((idle_time p <? 300) = true) as -> by (apply Z.ltb_lt; exact Hi).
  repeat split; unfold SummarySpec.active; cbn;
    rewrite ?andb_false_r; reflexivity.
Qed.

Lemma locked_tick_counted_active_witness :
  Cli.active (Tracker.tick (mkProbe 10 true "Code.exe" "main.py") 0) = true.
Proof.
  apply (locked_tick_counted_active (mkProbe 10 true "Code.exe" "main.py") 0).
  - reflexivity.
  - reflexivity.
Defined.

(** C2, as stated, fails for both samplers: the low-fidelity one has no
    "Screen Locked" record, the high-fidelity one has no "Idle" record. *)
Lemma three_way_split_fails :
  Tracker.tick (mkProbe 10 true "Code.exe" "main.py") 0
    <> SamplerSpec.tick_record (mkProbe 10 true "Code.exe" "main.py") 0
  /\ HiFi.candidate
       (HiFi.mkTick (mkProbe 400 false "Code.exe" "main.py") 0 0 true true)
       <> SamplerSpec.tick_record (mkProbe 400 false "Code.exe" "main.py") 0.
Proof. split; discriminate. Qed.

(** C2, amended. The low-fidelity sampler writes the foreground window
    (its title without the characters outside ASCII) when the idle time is
    under 300 seconds and the screen saver is off, and ("Idle", "System
    Idle") otherwise, always with the measured idle time. The
    high-fidelity sampler prepares ("Screen Locked", "Screen Saver") with
    idle 0 when the screen is locked, and the foreground window with the
    measured idle time otherwise, whatever that idle time is. *)
Theorem sampler_record_cases (p : Probe) (now : Z) :
  (idle_time p < 300 -> locked p = false ->
   Tracker.tick p now
   = mkRow now (idle_time p) (fg_app p) (Text.ascii_ignore (fg_title p)))
  /\ (300 <= idle_time p \/ locked p = true ->
      Tracker.tick p now = mkRow now (idle_time p) "Idle" "System Idle")
  /\ (forall clock ok printed,
        locked p = true ->
        HiFi.candidate (HiFi.mkTick p now clock ok printed)
        = mkRow now 0 "Screen Locked" "Screen Saver")
  /\ (forall clock ok printed,
        locked p = false ->
        HiFi.candidate (HiFi.mkTick p now clock ok printed)
        = mkRow now (idle_time p) (fg_app p) (fg_title p)).
Proof.
  unfold Tracker.tick, HiFi.candidate, IDLE_THRESHOLD; cbn [HiFi.probe HiFi.now].
  repeat split.
  - intros Hi Hl. rewrite Hl.
    assert ((idle_time p <? 300) = true) as -> by (apply Z.ltb_lt; exact Hi).
    reflexivity.
  - intros [Hi | Hl].
    + assert ((idle_time p <? 300) = false) as -> by (apply Z.ltb_ge; exact Hi).
      reflexivity.
    + rewrite Hl, andb_false_r. reflexivity.
  - intros _ _ _ Hl. rewrite Hl. reflexivity.
  - intros _ _ _ Hl. rewrite Hl. reflexivity.
Qed.

Lemma sampler_record_cases_witness :
  Tracker.tick (mkProbe 10 false "Code.exe" "main.py") 7
  = mkRow 7 10 "Code.exe" "main.py"
  /\ Tracker.tick (mkProbe 10 true "Code.exe" "main.py") 7
     = mkRow 7 10 "Idle" "System Idle".
Proof.
  split.
  - apply (sampler_record_cases (mkProbe 10 false "Code.exe" "main.py") 7).
    + reflexivity.
    + reflexivity.
  - apply (sampler_record_cases (mkProbe 10 true "Code.exe" "main.py") 7).
    right. reflexivity.
Defined.

(** C3. The heartbeat test is [time.time() % 30 < 1], a test on the
    wall clock and not on the time since the last write. In a steady state
    whose passes fall 2.5 seconds after the multiples of 5 seconds, no pass
    after the first ever writes; with passes 5.3 seconds apart the second
    row comes 58.3 seconds after the first; and a pass that falls in the
    first second of a half minute writes although the last write was 5.3
    seconds earlier. *)
Theorem heartbeat_is_wall_clock_phase :
  (forall app title first n,
      HiFi.log_activity (HiFi.mkState app title)
                        (HiFi.steady_ticks app title first n) = [])
  /\ HiFi.log_activity HiFi.init (HiFi.steady_ticks "Code.exe" "main.py" 0 13)
     = [mkRow (HiFi.wall 2500) 0 "Code.exe" "main.py"]
  /\ (HiFi.should_log (HiFi.mkState "Code.exe" "main.py")
                      (HiFi.steady_tick "Code.exe" "main.py" 7) = false
      /\ SamplerSpec.should_log (HiFi.mkState "Code.exe" "main.py") 2500
                                (HiFi.steady_tick "Code.exe" "main.py" 7) = true)
  /\ map timestamp
         (HiFi.log_activity HiFi.init
            (map (fun k => HiFi.mkTick (mkProbe 0 false "Code.exe" "main.py")
                                       (HiFi.wall (2500 + 5300 * Z.of_nat k))
                                       (2500 + 5300 * Z.of_nat k) true true)
                 (seq 0 12)))
     = [HiFi.wall 2500; HiFi.wall 60800]
  /\ (let tk := HiFi.mkTick (mkProbe 0 false "Code.exe" "main.py")
                            (HiFi.wall 30800) 30800 true true in
      HiFi.should_log (HiFi.mkState "Code.exe" "main.py") tk = true
      /\ SamplerSpec.should_log (HiFi.mkState "Code.exe" "main.py") 25500 tk = false).
Proof.
  split; [exact HiFi.steady_no_write|].
  vm_compute. repeat split.
Qed.

(** ** Facts about the library operations *)

Section GroupKeysFacts.
Context {K : Type} (cmp : K -> K -> comparison).
Hypothesis cmp_eq : forall a b, cmp a b = Eq -> a = b.

Lemma insert_key_In k x keys :
  In k (Pandas.insert_key cmp x keys) <-> k = x \/ In k keys.
Proof.
  induction keys as [|k' rest IH]; simpl.
  - intuition.
  - destruct (cmp x k') eqn:E; simpl.
    + apply cmp_eq in E. subst k'. intuition.
    + intuition.
    + rewrite IH. intuition.
Qed.

Lemma group_keys_In k col : In k (Pandas.group_keys cmp col) <-> In k col.
Proof.
  induction col as [|x col IH]; simpl.
  - tauto.
  - rewrite insert_key_In, IH. intuition.
Qed.

End GroupKeysFacts.

Section SortedFacts.
Context {A : Type} (key : A -> nat).

(** Descending order of the key. *)
Definition desc (a b : A) : Prop := (key b <= key a)%nat.

Lemma insert_desc_perm x l : Permutation (Pandas.insert_desc key x l) (x :: l).
Proof.
  induction l as [|y l IH]; simpl.
  - apply Permutation_refl.
  - destruct (key y <=? key x)%nat.
    + apply Permutation_refl.
    + apply perm_trans with (y :: x :: l).
      * apply perm_skip, IH.
      * apply perm_swap.
Qed.

Lemma sorted_desc_perm l : Permutation (Pandas.sorted_desc key l) l.
Proof.
  induction l as [|x l IH]; simpl.
  - apply perm_nil.
  - apply perm_trans with (x :: Pandas.sorted_desc key l).
    + apply insert_desc_perm.
    + apply perm_skip, IH.
Qed.

Lemma insert_desc_sorted x l :
  StronglySorted desc l -> StronglySorted desc (Pandas.insert_desc key x l).
Proof.
  induction 1 as [|y l Hs IH Hall]; simpl.
  - constructor; constructor.
  - destruct (key y <=? key x)%nat eqn:E.
    + apply Nat.leb_le in E. constructor.
      * constructor; assumption.
      * constructor; [exact E|].
        eapply Forall_impl; [|exact Hall].
        intros z Hz. unfold desc in *. lia.
    + apply Nat.leb_gt in E. constructor; [exact IH|].
      apply (Permutation_Forall (Permutation_sym (insert_desc_perm x l))).
      constructor; [unfold desc; lia | exact Hall].
Qed.

Lemma sorted_desc_sorted l : StronglySorted desc (Pandas.sorted_desc key l).
Proof.
  induction l as [|x l IH]; simpl.
  - constructor.
  - apply insert_desc_sorted, IH.
Qed.

(** Stability: an item is inserted in front of the items of the same key
    that followed it. *)
Lemma insert_desc_filter c x l :
  filter (fun y => (key y =? c)%nat) (Pandas.insert_desc key x l)
  = filter (fun y => (key y =? c)%nat) (x :: l).
Proof.
  induction l as [|y l IH]; [reflexivity|].
  cbn [Pandas.insert_desc].
  destruct (key y <=? key x)%nat eqn:E; [reflexivity|].
  apply Nat.leb_gt in E.
  cbn [filter] in *. rewrite IH.
  destruct (key x =? c)%nat eqn:Ex; [|reflexivity].
  apply Nat.eqb_eq in Ex.
  assert ((key y =? c)%nat = false) as -> by (apply Nat.eqb_neq; lia).
  reflexivity.
Qed.

Lemma sorted_desc_stable c l :
  filter (fun y => (key y =? c)%nat) (Pandas.sorted_desc key l)
  = filter (fun y => (key y =? c)%nat) l.
Proof.
  induction l as [|x l IH]; [reflexivity|].
  cbn [Pandas.sorted_desc fold_right].
  rewrite insert_desc_filter. cbn [filter].
  fold (Pandas.sorted_desc key l). rewrite IH. reflexivity.
Qed.

End SortedFacts.

Lemma In_firstn {A} (x : A) n l : In x (firstn n l) -> In x l.
Proof.
  revert l. induction n as [|n IH]; intros [|y l]; simpl; try tauto.
  intros [H|H]; auto.
Qed.

Lemma filter_nil_iff {A} (f : A -> bool) l :
  filter f l = [] <-> forall x, In x l -> f x = false.
Proof.
  induction l as [|y l IH]; simpl.
  - split; [tauto | reflexivity].
  - destruct (f y) eqn:E.
    + split; [discriminate|]. intros H. specialize (H y (or_introl eq_refl)). congruence.
    + rewrite IH. split.
      * intros H x [<-|Hx]; auto.
      * intros H x Hx. apply H. auto.
Qed.

Lemma filter_true {A} (f : A -> bool) l :
  (forall x, In x l -> f x = true) -> filter f l = l.
Proof.
  induction l as [|y l IH]; simpl; intros H; [reflexivity|].
  rewrite (H y (or_introl eq_refl)). f_equal. apply IH. intros x Hx. apply H. auto.
Qed.

(** ** The per-app table *)

Lemma string_compare_eq a b : String.compare a b = Eq -> a = b.
Proof. apply String.compare_eq_iff. Qed.

Lemma filter_active_idem (df : Pandas.Frame) f :
  filter Cli.active (filter f (filter Cli.active df)) = filter f (filter Cli.active df).
Proof.
  apply filter_true. intros x Hx.
  apply filter_In in Hx. destruct Hx as [Hx _].
  apply filter_In in Hx. tauto.
Qed.

(** ** Grouping *)

Section GroupKeysSorted.
Context {K : Type} (cmp : K -> K -> comparison).
Hypothesis cmp_eq : forall a b, cmp a b = Eq -> a = b.
Hypothesis cmp_antisym : forall a b, cmp a b = CompOpp (cmp b a).
Hypothesis cmp_trans : forall a b c, cmp a b = Lt -> cmp b c = Lt -> cmp a c = Lt.

Definition before (a b : K) : Prop := cmp a b = Lt.

Lemma insert_key_sorted k keys :
  StronglySorted before keys ->
  StronglySorted before (Pandas.insert_key cmp k keys).
Proof.
  induction 1 as [|k' rest Hs IH Hall]; cbn [Pandas.insert_key].
  - constructor; constructor.
  - destruct (cmp k k') eqn:E.
    + constructor; assumption.
    + constructor; [constructor; assumption|].
      constructor; [exact E|].
      eapply Forall_impl; [|exact Hall]. intros x Hx. apply (cmp_trans _ _ _ E Hx).
    + constructor; [exact IH|].
      rewrite Forall_forall in *. intros x Hx.
      apply (insert_key_In cmp cmp_eq) in Hx. destruct Hx as [->|Hx].
      * unfold before. rewrite cmp_antisym, E. reflexivity.
      * apply Hall, Hx.
Qed.

Lemma group_keys_sorted col : StronglySorted before (Pandas.group_keys cmp col).
Proof.
  induction col as [|x col IH]; cbn; [constructor | apply insert_key_sorted, IH].
Qed.

Lemma before_irrefl a : ~ before a a.
Proof.
  unfold before. intros H. pose proof (cmp_antisym a a) as Ha.
  rewrite H in Ha. discriminate.
Qed.

Lemma sorted_NoDup keys : StronglySorted before keys -> NoDup keys.
Proof.
  induction 1 as [|k rest Hs IH Hall]; constructor; [|exact IH].
  intros Hin. rewrite Forall_forall in Hall.
  apply (before_irrefl k), Hall, Hin.
Qed.

Lemma group_keys_NoDup col : NoDup (Pandas.group_keys cmp col).
Proof. apply sorted_NoDup, group_keys_sorted. Qed.

End GroupKeysSorted.

Lemma ascii_compare_refl a : Ascii.compare a a = Eq.
Proof. unfold Ascii.compare. apply N.compare_refl. Qed.

Lemma ascii_compare_lt_trans a b c :
  Ascii.compare a b = Lt -> Ascii.compare b c = Lt -> Ascii.compare a c = Lt.
Proof.
  unfold Ascii.compare. rewrite !N.compare_lt_iff. apply N.lt_trans.
Qed.

Lemma string_compare_lt_trans a b c :
  String.compare a b = Lt -> String.compare b c = Lt -> String.compare a c = Lt.
Proof.
  revert b c. induction a as [|x a IH]; intros [|y b] [|z c]; cbn;
    try discriminate; try reflexivity.
  destruct (Ascii.compare x y) eqn:Exy; try discriminate;
    destruct (Ascii.compare y z) eqn:Eyz; try discriminate; intros H1 H2.
  - apply Ascii.compare_eq_iff in Exy, Eyz. subst.
    rewrite ascii_compare_refl. apply (IH _ _ H1 H2).
  - apply Ascii.compare_eq_iff in Exy. subst. rewrite Eyz. reflexivity.
  - apply Ascii.compare_eq_iff in Eyz. subst. rewrite Exy. reflexivity.
  - rewrite (ascii_compare_lt_trans _ _ _ Exy Eyz). reflexivity.
Qed.

Lemma z_compare_eq a b : Z.compare a b = Eq -> a = b.
Proof. apply Z.compare_eq. Qed.

Lemma z_compare_antisym a b : Z.compare a b = CompOpp (Z.compare b a).
Proof. apply Z.compare_antisym. Qed.

Lemma z_compare_lt_trans a b c :
  Z.compare a b = Lt -> Z.compare b c = Lt -> Z.compare a c = Lt.
Proof. rewrite !Z.compare_lt_iff. apply Z.lt_trans. Qed.

(** The sizes of the groups of a partition add up to the whole. *)
Lemma group_sizes_add_up {A K} (key : A -> K) (eqb : K -> K -> bool)
      (keys : list K) (rows : list A) :
  (forall a b, eqb a b = true <-> a = b) ->
  NoDup keys ->
  (forall r, In r rows -> In (key r) keys) ->
  list_sum (map (fun k => List.length (filter (fun r => eqb (key r) k) rows)) keys)
  = List.length rows.
Proof.
  intros Heqb Hnd. induction rows as [|r rows IH]; intros Hcov.
  - cbn [filter List.length]. clear Hnd Hcov.
    induction keys as [|k keys IHk]; [reflexivity | exact IHk].
  - cbn [List.length]. rewrite <- IH by (intros x Hx; apply Hcov; right; exact Hx).
    assert (In (key r) keys) as Hin by (apply Hcov; left; reflexivity).
    clear IH Hcov. induction keys as [|k keys IHk]; [destruct Hin|].
    inversion Hnd as [|? ? Hk Hnd']; subst. cbn [map list_sum filter].
    destruct (eqb (key r) k) eqn:E.
    + apply Heqb in E. subst k. cbn [List.length].
      assert (forall ks, ~ In (key r) ks ->
                map (fun k => List.length
                      (if eqb (key r) k
                       then r :: filter (fun r0 => eqb (key r0) k) rows
                       else filter (fun r0 => eqb (key r0) k) rows)) ks
                = map (fun k => List.length (filter (fun r0 => eqb (key r0) k) rows)) ks)
        as Hother.
      { intros ks Hn. apply map_ext_in. intros k Hk'.
        destruct (eqb (key r) k) eqn:E'; [|reflexivity].
        apply Heqb in E'. subst k. contradiction. }
      rewrite (Hother keys Hk). reflexivity.
    + destruct Hin as [->|Hin].
      * assert (eqb (key r) (key r) = true) by (apply Heqb; reflexivity). congruence.
      * specialize (IHk Hnd' Hin). cbn [map filter] in IHk.
        unfold list_sum in *. cbn [fold_right]. rewrite IHk. lia.
Qed.

Lemma filter_filter {A} (f g : A -> bool) l :
  filter f (filter g l) = filter (fun x => g x && f x) l.
Proof.
  induction l as [|x l IH]; [reflexivity|]. simpl.
  destruct (g x); simpl; [destruct (f x)|]; rewrite IH; reflexivity.
Qed.

Lemma filter_comm {A} (f g : A -> bool) l :
  filter f (filter g l) = filter g (filter f l).
Proof.
  rewrite !filter_filter. apply filter_ext. intros x. apply andb_comm.
Qed.

Lemma list_sum_perm l1 l2 : Permutation l1 l2 -> list_sum l1 = list_sum l2.
Proof.
  induction 1; cbn [list_sum fold_right] in *; unfold list_sum in *;
    cbn [fold_right]; lia.
Qed.

Lemma string_keys_NoDup col : NoDup (Pandas.group_keys String.compare col).
Proof.
  apply group_keys_NoDup.
  - apply string_compare_eq.
  - apply String.compare_antisym.
  - apply string_compare_lt_trans.
Qed.

Lemma day_keys_sorted col :
  StronglySorted Z.lt (Pandas.group_keys Z.compare col).
Proof.
  apply (group_keys_sorted Z.compare z_compare_eq z_compare_antisym
                           z_compare_lt_trans).
Qed.


(** ** The groups of [groupby('app_name')] *)

(** The rows whose app name is not a missing value. *)
Definition named (r : Row) : bool := Pandas.notna (app_name r).

(** The groups of [groupby('app_name')]: the app names of the rows
    that are not missing. *)
Lemma app_keys_In (df : Pandas.Frame) a :
  In a (Cli.app_keys df)
  <-> (exists r, In r df /\ app_name r = a) /\ Pandas.isna a = false.
Proof.
  unfold Cli.app_keys, Pandas.dropna.
  rewrite (group_keys_In _ string_compare_eq), filter_In, in_map_iff.
  unfold Pandas.notna. rewrite negb_true_iff.
  split; intros [[r [H1 H2]] H3]; (split; [exists r; auto | exact H3]).
Qed.

(** The row of the table for an app that has active rows. *)
Lemma agg_app_stats_entry (df : Pandas.Frame) st :
  In st (Cli.agg_app_stats (filter Cli.active df)) ->
  sessions st = Cli.count_app (stat_app st) (filter Cli.active df)
  /\ usage_minutes st = sessions st
  /\ (0 < sessions st)%nat.
Proof.
  unfold Cli.agg_app_stats. rewrite in_map_iff.
  intros [app [<- Hin]]. cbn [sessions usage_minutes stat_app].
  unfold Cli.count_app, Cli.active_sum.
  rewrite filter_active_idem. repeat split.
  apply app_keys_In in Hin. destruct Hin as [[r [Hin Hr]] _].
  assert (In r (filter (fun r0 => String.eqb (app_name r0) app) (filter Cli.active df))) as H.
  { apply filter_In. split; [exact Hin|]. apply String.eqb_eq. exact Hr. }
  destruct (filter _ (filter Cli.active df)); [destruct H | simpl; lia].
Qed.

Lemma filter_split_length {A} (f : A -> bool) l :
  (List.length (filter f l) + List.length (filter (fun x => negb (f x)) l)
   = List.length l)%nat.
Proof.
  induction l as [|x l IH]; [reflexivity|].
  cbn [filter]. destruct (f x); cbn [negb List.length]; lia.
Qed.

Lemma app_keys_NoDup (df : Pandas.Frame) : NoDup (Cli.app_keys df).
Proof. apply string_keys_NoDup. Qed.

Lemma app_keys_sorted (df : Pandas.Frame) :
  StronglySorted (fun a b => String.compare a b = Lt) (Cli.app_keys df).
Proof.
  apply (group_keys_sorted String.compare string_compare_eq
                           String.compare_antisym string_compare_lt_trans).
Qed.

Lemma groupby_size_fst (df : Pandas.Frame) :
  map fst (Cli.groupby_size df) = Cli.app_keys df.
Proof.
  unfold Cli.groupby_size. rewrite map_map. cbn [fst]. apply map_id.
Qed.

Lemma groupby_size_In (df : Pandas.Frame) a c :
  In (a, c) (Cli.groupby_size df)
  <-> In a (Cli.app_keys df) /\ c = Cli.count_app a df.
Proof.
  unfold Cli.groupby_size. rewrite in_map_iff. split.
  - intros [a' [[= -> <-] Hin]]. auto.
  - intros [Hin ->]. exists a. auto.
Qed.

Lemma count_app_pos (df : Pandas.Frame) r :
  In r df -> (0 < Cli.count_app (app_name r) df)%nat.
Proof.
  intros Hr. unfold Cli.count_app.
  assert (In r (filter (fun r0 => String.eqb (app_name r0) (app_name r)) df))
    as H by (apply filter_In; split; [exact Hr | apply String.eqb_refl]).
  destruct (filter _ df); [destruct H | cbn; lia].
Qed.

(** The sizes of the groups add up to the rows that have an app name. *)
Lemma group_counts_add_up (df : Pandas.Frame) :
  list_sum (map (fun a => Cli.count_app a df) (Cli.app_keys df))
  = List.length (filter named df).
Proof.
  rewrite <- (group_sizes_add_up app_name String.eqb
                (Cli.app_keys df) (filter named df)).
  - f_equal. apply map_ext_in. intros a Ha. unfold Cli.count_app.
    rewrite filter_filter. f_equal. apply filter_ext_in. intros r _.
    destruct (String.eqb (app_name r) a) eqn:E;
      [|symmetry; apply andb_false_r].
    apply String.eqb_eq in E. apply app_keys_In in Ha.
    unfold named, Pandas.notna. rewrite E, (proj2 Ha). reflexivity.
  - apply String.eqb_eq.
  - apply app_keys_NoDup.
  - intros r Hr. apply filter_In in Hr. destruct Hr as [Hr Hn].
    apply app_keys_In. split; [exists r; auto|].
    unfold named, Pandas.notna in Hn. apply negb_true_iff in Hn. exact Hn.
Qed.

Lemma groupby_size_sum (df : Pandas.Frame) :
  list_sum (map snd (Cli.groupby_size df)) = List.length (filter named df).
Proof.
  unfold Cli.groupby_size. rewrite map_map. cbn [snd].
  apply group_counts_add_up.
Qed.

Lemma unique_apps_groups (df : Pandas.Frame) :
  Cli.unique_apps_of df
  = List.length (Cli.groupby_size (filter Cli.active df)).
Proof.
  unfold Cli.unique_apps_of, Cli.groupby_size, Cli.app_keys, Pandas.nunique.
  rewrite length_map. apply Permutation_length, NoDup_Permutation.
  - apply NoDup_nodup.
  - apply string_keys_NoDup.
  - intros x. rewrite nodup_In, (group_keys_In String.compare string_compare_eq).
    tauto.
Qed.

(** *** The first rows of a sorted table *)

Lemma StronglySorted_firstn {A} (R : A -> A -> Prop) n l :
  StronglySorted R l -> StronglySorted R (firstn n l).
Proof.
  revert l. induction n as [|n IH]; intros l Hs; [constructor|].
  destruct Hs as [|x l Hs Hall]; cbn [firstn]; constructor.
  - apply IH, Hs.
  - rewrite Forall_forall in *. intros y Hy. apply Hall.
    apply In_firstn in Hy. exact Hy.
Qed.

Lemma StronglySorted_app_inv {A} (R : A -> A -> Prop) l1 l2 :
  StronglySorted R (l1 ++ l2)%list ->
  forall x y, In x l1 -> In y l2 -> R x y.
Proof.
  induction l1 as [|a l1 IH]; intros Hs x y Hx Hy; [destruct Hx|].
  cbn [app] in Hs. inversion Hs as [|? ? Hs' Hall]; subst.
  destruct Hx as [->|Hx].
  - rewrite Forall_forall in Hall. apply Hall, in_or_app. right. exact Hy.
  - apply (IH Hs' x y Hx Hy).
Qed.

(** [head(n)] of a table sorted in descending order: [n] rows, or all
    of them, and no row left out has a larger key than a row taken. *)
Lemma head_of_sorted {A} (key : A -> nat) n (l sorted : list A) :
  Permutation sorted l ->
  StronglySorted (desc key) sorted ->
  List.length (firstn n sorted) = Nat.min n (List.length l)
  /\ (forall x, In x (firstn n sorted) -> In x l)
  /\ (forall x y, In x l -> ~ In x (firstn n sorted) ->
                  In y (firstn n sorted) -> (key x <= key y)%nat).
Proof.
  intros Hp Hs. split; [|split].
  - rewrite length_firstn, (Permutation_length Hp). reflexivity.
  - intros x Hx. apply (Permutation_in _ Hp), (In_firstn _ _ _ Hx).
  - intros x y Hx Hnot Hy.
    apply (Permutation_in _ (Permutation_sym Hp)) in Hx.
    rewrite <- (firstn_skipn n sorted) in Hx, Hs.
    apply in_app_or in Hx. destruct Hx as [Hx|Hx]; [contradiction|].
    apply (StronglySorted_app_inv _ _ _ Hs y x Hy Hx).
Qed.

Lemma StronglySorted_filter {A} (R : A -> A -> Prop) (f : A -> bool) l :
  StronglySorted R l -> StronglySorted R (filter f l).
Proof.
  induction 1 as [|x l Hs IH Hall]; cbn [filter]; [constructor|].
  destruct (f x); [|exact IH]. constructor; [exact IH|].
  rewrite Forall_forall in *. intros y Hy. apply filter_In in Hy.
  apply Hall, Hy.
Qed.

Lemma StronglySorted_map_inv {A B} (R : B -> B -> Prop) (f : A -> B) l :
  StronglySorted R (map f l) ->
  StronglySorted (fun a b => R (f a) (f b)) l.
Proof.
  induction l as [|x l IH]; intros H; [constructor|].
  cbn [map] in H. inversion H as [|? ? Hs Hall]; subst.
  constructor; [apply IH, Hs|].
  rewrite Forall_forall in *. intros y Hy. apply Hall, in_map, Hy.
Qed.

(** Descending order of the key, rows of equal key in ascending order
    of the name: the order the specification asks of a ranking. *)
Definition by_key_then_name {A} (key : A -> nat) (name : A -> string)
           (a b : A) : Prop :=
  (key b < key a)%nat
  \/ (key a = key b /\ String.ltb (name a) (name b) = true).

(** A table sorted in descending order of the key in which the rows of
    equal key are in ascending order of the name is ranked as the
    specification has it. *)
Lemma ranked_of_sorted_ties {A} (key : A -> nat) (name : A -> string)
      (sorted : list A) :
  StronglySorted (desc key) sorted ->
  (forall c, StronglySorted
               (fun a b => String.compare (name a) (name b) = Lt)
               (filter (fun e => (key e =? c)%nat) sorted)) ->
  StronglySorted (by_key_then_name key name) sorted.
Proof.
  induction 1 as [|x l Hs IH Hall]; intros Hties; [constructor|].
  constructor.
  - apply IH. intros c. specialize (Hties c). cbn [filter] in Hties.
    destruct (key x =? c)%nat; [|exact Hties].
    inversion Hties; assumption.
  - rewrite Forall_forall in *. intros y Hy.
    specialize (Hall y Hy). unfold desc in Hall.
    destruct (Nat.eq_dec (key x) (key y)) as [E|E];
      [right | left; lia].
    split; [exact E|].
    specialize (Hties (key x)). cbn [filter] in Hties.
    rewrite Nat.eqb_refl in Hties.
    inversion Hties as [|? ? _ Hfirst]; subst.
    rewrite Forall_forall in Hfirst.
    assert (In y (filter (fun e => (key e =? key x)%nat) l)) as Hin.
    { apply filter_In. split; [exact Hy|]. apply Nat.eqb_eq. auto. }
    specialize (Hfirst y Hin). unfold String.ltb. rewrite Hfirst. reflexivity.
Qed.

(** [sort_values] keeps the rows of equal key in the order they had. *)
Definition stable
           (sort_values_desc : forall A : Type, (A -> nat) -> list A -> list A)
  : Prop :=
  forall A key l c,
    filter (fun e => (key e =? c)%nat) (sort_values_desc A key l)
    = filter (fun e => (key e =? c)%nat) l.

(** What the pandas ranking is, for a [sort_values] that reorders its
    input in descending order of the count. *)
Lemma top_apps_spec
      (sort_values_desc : forall A : Type, (A -> nat) -> list A -> list A)
      (n : nat) (df : Pandas.Frame) :
  (forall A key l, Permutation (sort_values_desc A key l) l) ->
  (forall A key l, StronglySorted (desc key) (sort_values_desc A key l)) ->
  let act := filter Cli.active df in
  let top := Cli.top_apps sort_values_desc n df in
  StronglySorted (desc snd) top
  /\ (forall a c, In (a, c) top -> c = Cli.count_app a act)
  /\ List.length top = Nat.min n (Cli.unique_apps_of df)
  /\ NoDup (map fst top)
  /\ (forall a c, In (a, c) top -> Pandas.isna a = false /\ (0 < c)%nat)
  /\ (forall r, In r act -> Pandas.isna (app_name r) = false ->
                ~ In (app_name r) (map fst top) ->
                forall a c, In (a, c) top ->
                            (Cli.count_app (app_name r) act <= c)%nat)
  /\ (stable sort_values_desc -> SummarySpec.ranked top).
Proof.
  intros Hperm Hsorted act top.
  set (groups := Cli.groupby_size act).
  set (sorted := sort_values_desc _ snd groups).
  assert (top = firstn n sorted) as Etop by reflexivity.
  destruct (head_of_sorted snd n groups sorted (Hperm _ _ _) (Hsorted _ _ _))
    as (Hlen & Hincl & Hhead).
  assert (forall a c, In (a, c) top ->
                      In a (Cli.app_keys act) /\ c = Cli.count_app a act) as Hin.
  { intros a c H. rewrite Etop in H. apply Hincl in H.
    apply groupby_size_In in H. exact H. }
  split; [|split; [|split; [|split; [|split; [|split]]]]].
  - rewrite Etop. apply StronglySorted_firstn, Hsorted.
  - intros a c H. apply (Hin a c H).
  - rewrite Etop, Hlen. f_equal. symmetry. apply unique_apps_groups.
  - rewrite Etop.
    assert (NoDup (map fst sorted)) as Hnd.
    { apply (Permutation_NoDup
               (Permutation_sym (Permutation_map fst (Hperm _ snd groups)))).
      unfold groups. rewrite groupby_size_fst. apply app_keys_NoDup. }
    rewrite <- (firstn_skipn n sorted), map_app in Hnd.
    apply NoDup_app_remove_r in Hnd. exact Hnd.
  - intros a c H. destruct (Hin a c H) as [Ha ->].
    apply app_keys_In in Ha. destruct Ha as [[r [Hr <-]] Hna].
    split; [exact Hna | apply count_app_pos, Hr].
  - intros r Hr Hna Hnot a c H.
    assert (In (app_name r, Cli.count_app (app_name r) act) groups) as Hg.
    { apply groupby_size_In. split; [|reflexivity].
      apply app_keys_In. split; [exists r; auto | exact Hna]. }
    apply (Hhead _ (a, c) Hg); [|rewrite <- Etop; exact H].
    intros Hx. apply Hnot. rewrite Etop.
    apply (in_map fst) in Hx. exact Hx.
  - intros Hstable. rewrite Etop.
    apply StronglySorted_firstn.
    apply (ranked_of_sorted_ties snd fst); [apply Hsorted|].
    intros c. unfold sorted. rewrite Hstable.
    apply StronglySorted_filter.
    apply (StronglySorted_map_inv
             (fun a b => String.compare a b = Lt) fst groups).
    unfold groups. rewrite groupby_size_fst. apply app_keys_sorted.
Qed.

(** The table of [app_usage_stats], likewise. *)
Lemma app_table_spec
      (sort_values_desc : forall A : Type, (A -> nat) -> list A -> list A)
      (df : Pandas.Frame) :
  (forall A key l, Permutation (sort_values_desc A key l) l) ->
  (forall A key l, StronglySorted (desc key) (sort_values_desc A key l)) ->
  let rows := Cli.agg_app_stats (filter Cli.active df) in
  let table := firstn 15 (sort_values_desc _ usage_minutes rows) in
  StronglySorted (desc usage_minutes) table
  /\ List.length table = Nat.min 15 (Cli.unique_apps_of df)
  /\ (forall st, In st table -> In st rows)
  /\ (forall st y, In st rows -> ~ In st table -> In y table ->
                   (usage_minutes st <= usage_minutes y)%nat)
  /\ (stable sort_values_desc ->
      StronglySorted (by_key_then_name usage_minutes stat_app) table).
Proof.
  intros Hperm Hsorted rows table.
  set (sorted := sort_values_desc _ usage_minutes rows).
  destruct (head_of_sorted usage_minutes 15 rows sorted
                           (Hperm _ _ _) (Hsorted _ _ _))
    as (Hlen & Hincl & Hhead).
  assert (map stat_app rows = Cli.app_keys (filter Cli.active df)) as Hkeys.
  { unfold rows, Cli.agg_app_stats. rewrite map_map. cbn [stat_app].
    apply map_id. }
  split; [|split; [|split; [|split]]].
  - apply StronglySorted_firstn, Hsorted.
  - unfold table. fold sorted. rewrite Hlen. f_equal.
    rewrite unique_apps_groups, <- (length_map stat_app rows), Hkeys.
    unfold Cli.groupby_size. rewrite length_map. reflexivity.
  - exact Hincl.
  - exact Hhead.
  - intros Hstable. apply StronglySorted_firstn.
    apply (ranked_of_sorted_ties usage_minutes stat_app); [apply Hsorted|].
    intros c. rewrite Hstable. apply StronglySorted_filter.
    apply (StronglySorted_map_inv
             (fun a b => String.compare a b = Lt) stat_app rows).
    rewrite Hkeys. apply app_keys_sorted.
Qed.

(** C4, as stated, fails: two consecutive rows of one app, one sampling
    interval apart, are one run, and the table reports two sessions. The
    table has one row, which every [sort_values] leaves as it is. *)
Lemma sessions_are_not_runs :
  let t0 := Clock.mk_datetime 2024 1 1 9 0 0 0 in
  let t1 := Clock.mk_datetime 2024 1 1 9 1 0 0 in
  let df := [mkRow t0 0 "Editor" "a.txt"; mkRow t1 0 "Editor" "a.txt"] in
  Cli.app_usage_stats (@Pandas.sorted_desc) ([], Some df)
                      (Clock.mk_datetime 2024 1 1 10 0 0 0)
  = [Call_load_data;
     Print (AppUsageStatistics [mkAppStat "Editor" 2 t1 2])]
  /\ SummarySpec.sessions (Tracker.LOG_INTERVAL * Clock.us_per_second)
                          "Editor" (filter Cli.active df) = 1%nat.
Proof. vm_compute. split; reflexivity. Qed.

(** C4, amended. The table of [app_usage_stats] has one row for every
    app name that is not missing and has an active row in the window (of
    which the first 15 in the order of [sort_values] are printed), and the
    sessions value of an app is the number of its active rows in the
    window, the same number as its usage_minutes. An active row whose app
    name is missing is in no row of the table. [sort_values] may be any
    function that permutes the rows. *)
Theorem sessions_count_active_rows
        (sort_values_desc : forall A : Type, (A -> nat) -> list A -> list A)
        (df : Pandas.Frame) (now : Z) :
  (forall A key l, Permutation (sort_values_desc A key l) l) ->
  let window := filter (Cli.after (now - Cli.seven_days)) df in
  let app_stats :=
    sort_values_desc _ usage_minutes (Cli.agg_app_stats (filter Cli.active window)) in
  (window <> [] ->
   Cli.app_usage_stats sort_values_desc ([], Some df) now
   = [Call_load_data; Print (AppUsageStatistics (firstn 15 app_stats))])
  /\ (forall st,
         In st app_stats ->
         sessions st = Cli.count_app (stat_app st) (filter Cli.active window)
         /\ usage_minutes st = sessions st
         /\ (0 < sessions st)%nat
         /\ Pandas.isna (stat_app st) = false)
  /\ (forall r,
         In r (filter Cli.active window) ->
         (exists st, In st app_stats /\ stat_app st = app_name r)
         <-> Pandas.isna (app_name r) = false).
Proof.
  intros Hperm window app_stats. split; [|split].
  - intros Hne. unfold Cli.app_usage_stats. cbn [fst snd map app].
    fold window. destruct window; [contradiction|reflexivity].
  - intros st Hst.
    apply (Permutation_in _ (Hperm _ _ _)) in Hst.
    pose proof (agg_app_stats_entry _ _ Hst) as (H1 & H2 & H3).
    repeat split; try assumption.
    unfold Cli.agg_app_stats in Hst. apply in_map_iff in Hst.
    destruct Hst as [app [<- Hin]]. cbn [stat_app].
    apply app_keys_In in Hin. tauto.
  - intros r Hr. split.
    + intros [st [Hst Hname]].
      apply (Permutation_in _ (Hperm _ _ _)) in Hst.
      unfold Cli.agg_app_stats in Hst. apply in_map_iff in Hst.
      destruct Hst as [app [<- Hin]]. cbn [stat_app] in Hname. subst app.
      apply app_keys_In in Hin. tauto.
    + intros Hna.
      set (g := filter (fun r0 => String.eqb (app_name r0) (app_name r))
                       (filter Cli.active window)).
      exists (mkAppStat (app_name r) (Cli.active_sum g) (Cli.max_timestamp g)
                        (List.length g)).
      split; [|reflexivity].
      apply (Permutation_in _ (Permutation_sym (Hperm _ _ _))).
      unfold Cli.agg_app_stats. apply in_map_iff. exists (app_name r).
      split; [reflexivity|].
      apply app_keys_In. split; [exists r; auto | exact Hna].
Qed.

Lemma sessions_count_active_rows_witness :
  let t0 := Clock.mk_datetime 2024 1 1 9 0 0 0 in
  let t1 := Clock.mk_datetime 2024 1 1 9 1 0 0 in
  let df := [mkRow t0 0 "Editor" "a.txt"; mkRow t1 0 "" "";
             mkRow t1 0 "Editor" "a.txt"] in
  let now := Clock.mk_datetime 2024 1 1 10 0 0 0 in
  Cli.app_usage_stats (@Pandas.sorted_desc) ([], Some df) now
  = [Call_load_data; Print (AppUsageStatistics [mkAppStat "Editor" 2 t1 2])].
Proof.
  intros t0 t1 df now.
  refine (eq_trans
            (proj1 (sessions_count_active_rows (@Pandas.sorted_desc) df now _) _)
            _).
  - intros A key l. apply sorted_desc_perm.
  - vm_compute. discriminate.
  - vm_compute. reflexivity.
Defined.

(** ** The category rollup *)

Definition Category_eqb (a b : Category) : bool :=
  match a, b with
  | Productive, Productive | Social, Social
  | Entertainment, Entertainment | Other, Other => true
  | _, _ => false
  end.

(** The category under which [productivity_analysis] counts a row of
    the given app: the list that holds the lower-cased name; "Other" is
    what remains of the total. *)
Definition counted_as (app : string) : Category :=
  let a := Text.lower app in
  if Text.isin a (map Text.lower Cli.productive_apps) then Productive
  else if Text.isin a (map Text.lower Cli.social_apps) then Social
  else if Text.isin a (map Text.lower Cli.entertainment_apps) then Entertainment
  else Other.

Definition rows_in (c : Category) (rows : Pandas.Frame) : Z :=
  Z.of_nat (List.length
              (filter (fun r => Category_eqb (counted_as (app_name r)) c) rows)).

Ltac each_listed H :=
  apply Text.isin_In in H; cbn in H;
  repeat (destruct H as [H|H]; [subst; reflexivity|]); destruct H.

(** No name is on two of the three lists. *)
Lemma lists_disjoint x :
  (Text.isin x (map Text.lower Cli.productive_apps) = true ->
   Text.isin x (map Text.lower Cli.social_apps) = false
   /\ Text.isin x (map Text.lower Cli.entertainment_apps) = false)
  /\ (Text.isin x (map Text.lower Cli.social_apps) = true ->
      Text.isin x (map Text.lower Cli.entertainment_apps) = false).
Proof.
  split; [intros H; split | intros H]; each_listed H.
Qed.

Lemma listed_counted_as r :
  Cli.listed Cli.productive_apps r = Category_eqb (counted_as (app_name r)) Productive
  /\ Cli.listed Cli.social_apps r = Category_eqb (counted_as (app_name r)) Social
  /\ Cli.listed Cli.entertainment_apps r
     = Category_eqb (counted_as (app_name r)) Entertainment.
Proof.
  unfold Cli.listed, counted_as.
  destruct (lists_disjoint (Text.lower (app_name r))) as [Hp Hs].
  destruct (Text.isin _ (map Text.lower Cli.productive_apps)) eqn:Ep.
  - destruct (Hp eq_refl) as [-> ->]. repeat split.
  - destruct (Text.isin _ (map Text.lower Cli.social_apps)) eqn:Es.
    + rewrite (Hs eq_refl). repeat split.
    + destruct (Text.isin _ (map Text.lower Cli.entertainment_apps));
        repeat split.
Qed.

Lemma time_in_rows_in (df : Pandas.Frame) :
  let act := filter Cli.active df in
  Cli.time_in Cli.productive_apps act = rows_in Productive act
  /\ Cli.time_in Cli.social_apps act = rows_in Social act
  /\ Cli.time_in Cli.entertainment_apps act = rows_in Entertainment act.
Proof.
  intros act. unfold Cli.time_in, Cli.active_sum, rows_in, act.
  rewrite !filter_active_idem.
  repeat split; f_equal; f_equal; apply filter_ext; intros r;
    apply (listed_counted_as r).
Qed.

Lemma rows_in_total (rows : Pandas.Frame) :
  Z.of_nat (List.length rows)
  = rows_in Productive rows + rows_in Social rows
    + rows_in Entertainment rows + rows_in Other rows.
Proof.
  unfold rows_in. induction rows as [|r rows IH]; [reflexivity|].
  cbn [filter List.length].
  destruct (counted_as (app_name r)); cbn [Category_eqb List.length]; lia.
Qed.

(** C5, as stated, fails: "VSCode.exe" contains the keyword "code.exe",
    and its row is counted under Other. *)
Lemma substring_is_not_matched :
  let now := Clock.mk_datetime 2024 1 1 10 0 0 0 in
  let df := [mkRow (Clock.mk_datetime 2024 1 1 9 0 0 0) 0 "VSCode.exe" "main.py"] in
  SummarySpec.category "VSCode.exe" = Productive
  /\ Cli.productivity_analysis ([], Some df) now
     = [Call_load_data;
        Print (ProductivityAnalysis 0 0 0 1 1 NeedsImprovement)].
Proof. vm_compute. split; reflexivity. Qed.

(** C5, amended. [productivity_analysis] counts an active row under the
    category on whose list its whole app name stands, letter case
    ignored; the lists are disjoint; a row whose name is on no list is
    counted under Other, also when the name contains a listed name.
    "Code.exe" is Productive. *)
Theorem productivity_by_whole_name
        (df : Pandas.Frame) (now : Z) (p s e o total : Z) (score : Label) :
  Cli.productivity_analysis ([], Some df) now
  = [Call_load_data; Print (ProductivityAnalysis p s e o total score)] ->
  let act := filter Cli.active (filter (Cli.after (now - Cli.seven_days)) df) in
  (p = rows_in Productive act /\ s = rows_in Social act
   /\ e = rows_in Entertainment act /\ o = rows_in Other act
   /\ total = p + s + e + o)
  /\ (forall app,
         (counted_as app = Productive <-> In (Text.lower app) Cli.productive_apps)
         /\ (counted_as app = Social <-> In (Text.lower app) Cli.social_apps)
         /\ (counted_as app = Entertainment
             <-> In (Text.lower app) Cli.entertainment_apps))
  /\ counted_as "Code.exe" = Productive
  /\ counted_as "VSCode.exe" = Other.
Proof.
  intros Hout act. split; [|split; [|split; reflexivity]].
  - unfold Cli.productivity_analysis in Hout. cbn [fst snd map app] in Hout.
    fold act in Hout.
    destruct (Pandas.empty _); [discriminate|].
    destruct (0 <? _); [|discriminate].
    injection Hout as <- <- <- <- <- _.
    destruct (time_in_rows_in (filter (Cli.after (now - Cli.seven_days)) df))
      as (Hp & Hs & He).
    fold act in Hp, Hs, He. rewrite Hp, Hs, He.
    assert (Cli.active_sum act = List.length act) as Hlen.
    { unfold Cli.active_sum, act.
      rewrite (filter_true Cli.active); [reflexivity|].
      intros x Hx. apply filter_In in Hx. tauto. }
    rewrite Hlen. pose proof (rows_in_total act). lia.
  - intros a. unfold counted_as.
    change (map Text.lower Cli.productive_apps) with Cli.productive_apps.
    change (map Text.lower Cli.social_apps) with Cli.social_apps.
    change (map Text.lower Cli.entertainment_apps) with Cli.entertainment_apps.
    pose proof (lists_disjoint (Text.lower a)) as [Hp Hs].
    change (map Text.lower Cli.productive_apps) with Cli.productive_apps in *.
    change (map Text.lower Cli.social_apps) with Cli.social_apps in *.
    change (map Text.lower Cli.entertainment_apps) with Cli.entertainment_apps in *.
    rewrite <- !Text.isin_In.
    destruct (Text.isin _ Cli.productive_apps).
    + destruct (Hp eq_refl) as [-> ->]. repeat split; congruence.
    + destruct (Text.isin _ Cli.social_apps).
      * rewrite (Hs eq_refl). repeat split; congruence.
      * destruct (Text.isin _ Cli.entertainment_apps); repeat split; congruence.
Qed.

Lemma productivity_by_whole_name_witness :
  let now := Clock.mk_datetime 2024 1 1 10 0 0 0 in
  let df := [mkRow (Clock.mk_datetime 2024 1 1 9 0 0 0) 0 "Code.exe" "main.py";
             mkRow (Clock.mk_datetime 2024 1 1 9 1 0 0) 0 "VSCode.exe" "main.py"] in
  let act := filter Cli.active (filter (Cli.after (now - Cli.seven_days)) df) in
  1 = rows_in Productive act /\ 1 = rows_in Other act.
Proof.
  intros now df act.
  destruct (productivity_by_whole_name df now 1 0 0 1 2 Good) as [H _].
  - vm_compute. reflexivity.
  - fold act in H. tauto.
Defined.

(** ** The ranking of [_today_summary_simple] *)

Lemma isin_app x l1 l2 : Text.isin x (l1 ++ l2)%list = Text.isin x l1 || Text.isin x l2.
Proof.
  induction l1 as [|y l1 IH]; [reflexivity|]. simpl.
  rewrite IH, orb_assoc. reflexivity.
Qed.

(** The keys of the [dict] after one more row. *)
Definition see (keys : list string) (app : string) : list string :=
  if Text.isin app keys then keys else (keys ++ [app])%list.

Lemma dict_incr_keys app d :
  map fst (Standalone.dict_incr app d) = see (map fst d) app.
Proof.
  unfold see. induction d as [|[k v] d IH]; [reflexivity|].
  cbn [Standalone.dict_incr map fst Text.isin].
  rewrite (String.eqb_sym app k).
  destruct (String.eqb k app); cbn [orb map fst]; [reflexivity|].
  rewrite IH. destruct (Text.isin app (map fst d)); reflexivity.
Qed.

Lemma app_counts_keys rows d :
  map fst (fold_left (fun d r => Standalone.dict_incr (app_name r) d) rows d)
  = fold_left see (map app_name rows) (map fst d).
Proof.
  revert d. induction rows as [|r rows IH]; intros d; [reflexivity|].
  cbn [fold_left map]. rewrite IH, dict_incr_keys. reflexivity.
Qed.

Lemma fold_see l acc :
  fold_left see l acc
  = (acc ++ filter (fun y => negb (Text.isin y acc)) (Standalone.first_seen l))%list.
Proof.
  revert acc. induction l as [|x l IH]; intros acc.
  - simpl. rewrite app_nil_r. reflexivity.
  - cbn [fold_left Standalone.first_seen filter]. rewrite IH. unfold see.
    destruct (Text.isin x acc) eqn:E; cbn [negb].
    + f_equal. rewrite filter_filter. apply filter_ext_in. intros y _.
      destruct (String.eqb y x) eqn:Ey; cbn [negb andb]; [|reflexivity].
      apply String.eqb_eq in Ey. subst y. rewrite E. reflexivity.
    + rewrite <- app_assoc. cbn [app]. do 2 f_equal.
      rewrite filter_filter. apply filter_ext. intros y.
      rewrite isin_app. cbn [Text.isin]. rewrite orb_false_r, negb_orb.
      apply andb_comm.
Qed.

Lemma app_counts_first_seen rows :
  map fst (Standalone.app_counts rows)
  = Standalone.first_seen (map app_name rows).
Proof.
  unfold Standalone.app_counts. rewrite app_counts_keys, fold_see.
  cbn [map app]. apply filter_true. reflexivity.
Qed.

(** The value stored under a key, 0 when the key is absent:
    [app_counts.get(app, 0)]. *)
Fixpoint dict_get (app : string) (d : list (string * nat)) : nat :=
  match d with
  | [] => 0%nat
  | (k, v) :: d' => if String.eqb k app then v else dict_get app d'
  end.

Lemma dict_get_incr a b d :
  dict_get a (Standalone.dict_incr b d)
  = if String.eqb a b then S (dict_get a d) else dict_get a d.
Proof.
  induction d as [|[k v] d IH].
  - cbn. rewrite (String.eqb_sym b a). destruct (String.eqb a b); reflexivity.
  - cbn [Standalone.dict_incr dict_get].
    destruct (String.eqb k b) eqn:Ekb; cbn [dict_get].
    + apply String.eqb_eq in Ekb. subst k. rewrite (String.eqb_sym b a).
      destruct (String.eqb a b); reflexivity.
    + rewrite IH. destruct (String.eqb k a) eqn:Eka; [|reflexivity].
      apply String.eqb_eq in Eka. subst k. rewrite Ekb. reflexivity.
Qed.

Lemma dict_get_fold a rows d :
  dict_get a (fold_left (fun d r => Standalone.dict_incr (app_name r) d) rows d)
  = (dict_get a d + Cli.count_app a rows)%nat.
Proof.
  revert d. induction rows as [|r rows IH]; intros d.
  - cbn. lia.
  - cbn [fold_left]. rewrite IH, dict_get_incr. unfold Cli.count_app.
    cbn [filter]. rewrite (String.eqb_sym (app_name r) a).
    destruct (String.eqb a (app_name r)); cbn [List.length]; lia.
Qed.

Lemma first_seen_NoDup l : NoDup (Standalone.first_seen l).
Proof.
  induction l as [|x l IH]; cbn [Standalone.first_seen]; constructor.
  - rewrite filter_In. intros [_ H]. rewrite String.eqb_refl in H. discriminate.
  - apply NoDup_filter, IH.
Qed.

Lemma dict_get_In a n d : NoDup (map fst d) -> In (a, n) d -> dict_get a d = n.
Proof.
  induction d as [|[k v] d IH]; [intros _ []|].
  cbn [map fst dict_get In]. intros Hnd [H|H].
  - injection H as -> ->. rewrite String.eqb_refl. reflexivity.
  - inversion Hnd as [|? ? Hk Hnd']; subst.
    destruct (String.eqb k a) eqn:E; [|apply IH; assumption].
    apply String.eqb_eq in E. subst k. exfalso. apply Hk.
    apply (in_map fst) in H. exact H.
Qed.

(** Every entry of the [dict] holds the number of rows of its app. *)
Lemma app_counts_entry rows a n :
  In (a, n) (Standalone.app_counts rows) -> n = Cli.count_app a rows.
Proof.
  intros H. rewrite <- (dict_get_In a n (Standalone.app_counts rows)).
  - unfold Standalone.app_counts. rewrite dict_get_fold. reflexivity.
  - rewrite app_counts_first_seen. apply first_seen_NoDup.
  - exact H.
Qed.

(** A [sort_values] that sorts as well as the stable one and leaves
    rows of equal count in the reverse of the order they had. *)
Definition reversing_sort (A : Type) (key : A -> nat) (l : list A) : list A :=
  Pandas.sorted_desc key (rev l).

Lemma reversing_sort_sorts :
  (forall A key l, Permutation (reversing_sort A key l) l)
  /\ (forall A key l, StronglySorted (desc key) (reversing_sort A key l)).
Proof.
  split; intros A key l; unfold reversing_sort.
  - etransitivity; [apply sorted_desc_perm|].
    apply Permutation_sym, Permutation_rev.
  - apply sorted_desc_sorted.
Qed.




(** ** Dates *)

Example strptime_examples :
  Cli.strptime_ymd "2024-01-01" = Some (Clock.ymd2ord 2024 1 1)
  /\ Cli.strptime_ymd "2024-1-5" = Some (Clock.ymd2ord 2024 1 5)
  /\ Cli.strptime_ymd "2024-02-30" = None
  /\ Cli.strptime_ymd "2024-13-01" = None
  /\ Cli.strptime_ymd "2024-12-32" = None
  /\ Cli.strptime_ymd "0000-01-01" = None
  /\ Cli.strptime_ymd "2024/01/01" = None
  /\ Cli.strptime_ymd "9999-12-31" = Some Cli.MAXORDINAL
  /\ Clock.ymd2ord 1970 1 1 = 719163.
Proof. vm_compute. repeat split. Qed.

Lemma digit_between_range lo hi c z :
  Cli.digit_between lo hi c = Some z -> Z.of_N lo <= z <= Z.of_N hi.
Proof.
  unfold Cli.digit_between.
  destruct (_ && _)%bool eqn:E; [|discriminate].
  intros [= <-]. apply andb_true_iff in E. destruct E as [E1 E2].
  apply N.leb_le in E1, E2. lia.
Qed.

Ltac digits_in_range :=
  repeat match goal with
         | H : Cli.digit_between _ _ _ = Some _ |- _ =>
             apply digit_between_range in H; cbn in H
         | H : Cli.digit _ = Some _ |- _ =>
             unfold Cli.digit in H
         end.

Ltac split_parse :=
  repeat match goal with
         | H : context [option_map _ ?x] |- _ =>
             destruct x eqn:?; cbn [option_map] in H; try discriminate H
         | H : context [match ?x with _ => _ end] |- _ =>
             destruct x eqn:?; try discriminate H
         end;
  repeat match goal with
         | H : Some ?x = Some ?y |- _ =>
             assert (x = y) by congruence; clear H; subst
         | H : (?a, ?b) = (?c, ?d) |- _ =>
             assert (a = c) by congruence; assert (b = d) by congruence;
             clear H; subst
         end.

Lemma match_year_range s y rest :
  Cli.match_year s = Some (y, rest) -> 0 <= y <= 9999.
Proof.
  unfold Cli.match_year. intros H. split_parse. digits_in_range. lia.
Qed.

Lemma match_month_range s m rest :
  Cli.match_month s = Some (m, rest) -> 1 <= m <= 12.
Proof.
  unfold Cli.match_month. intros H. split_parse; digits_in_range; lia.
Qed.

Lemma match_day_range s d rest :
  Cli.match_day s = Some (d, rest) -> 1 <= d.
Proof.
  unfold Cli.match_day. intros H. split_parse; digits_in_range; lia.
Qed.

(** What [strptime] accepts is an existing date of the years 1 to 9999. *)
Lemma strptime_ymd_date s o :
  Cli.strptime_ymd s = Some o ->
  exists y m d,
    1 <= y <= 9999 /\ 1 <= m <= 12 /\ 1 <= d <= Clock.days_in_month y m
    /\ o = Clock.ymd2ord y m d.
Proof.
  unfold Cli.strptime_ymd. intros H.
  destruct (Cli.match_year s) as [[y s1]|] eqn:Ey; [|discriminate].
  destruct (Cli.expect_dash s1) as [s2|]; [|discriminate].
  destruct (Cli.match_month s2) as [[m s3]|] eqn:Em; [|discriminate].
  destruct (Cli.expect_dash s3) as [s4|]; [|discriminate].
  destruct (Cli.match_day s4) as [[d s5]|] eqn:Ed; [|discriminate].
  destruct (_ && _)%bool eqn:E; [|discriminate].
  injection H as <-.
  apply andb_true_iff in E. destruct E as [E E3].
  apply andb_true_iff in E. destruct E as [_ E2].
  apply Z.leb_le in E2, E3.
  apply match_year_range in Ey. apply match_month_range in Em.
  apply match_day_range in Ed.
  exists y, m, d. repeat split; lia.
Qed.

Lemma month_in_year y m :
  1 <= m <= 12 ->
  0 <= Clock.days_before_month y m
  /\ Clock.days_before_month y m + Clock.days_in_month y m
     <= (if Clock.is_leap y then 366 else 365).
Proof.
  intros Hm.
  assert (m = 1 \/ m = 2 \/ m = 3 \/ m = 4 \/ m = 5 \/ m = 6 \/ m = 7
          \/ m = 8 \/ m = 9 \/ m = 10 \/ m = 11 \/ m = 12) as Hcases by lia.
  unfold Clock.days_before_month.
  repeat (destruct Hcases as [->|Hcases]); try subst m;
    match goal with
    | |- context [Z.to_nat ?e] =>
        let n := eval vm_compute in (Z.to_nat e) in
        change (Z.to_nat e) with n
    end;
    cbn [Clock.days_before_month_aux]; unfold Clock.days_in_month;
    generalize (Clock.is_leap y); intros leap;
    destruct leap; vm_compute; split; intros H; discriminate H.
Qed.

Lemma day_of_year_bound y m d :
  1 <= m <= 12 -> 1 <= d <= Clock.days_in_month y m ->
  1 <= Clock.days_before_month y m + d
       <= (if Clock.is_leap y then 366 else 365).
Proof.
  intros Hm Hd. pose proof (month_in_year y m Hm). lia.
Qed.

Lemma days_before_year_step y :
  Clock.days_before_year (y + 1)
  = Clock.days_before_year y + (if Clock.is_leap y then 366 else 365).
Proof.
  unfold Clock.days_before_year, Clock.is_leap.
  replace (y + 1 - 1) with (y - 1 + 1) by lia.
  set (x := y - 1). replace y with (x + 1) by (unfold x; lia).
  destruct ((x + 1) mod 4 =? 0) eqn:E4;
    destruct ((x + 1) mod 100 =? 0) eqn:E100;
    destruct ((x + 1) mod 400 =? 0) eqn:E400;
    cbn [andb orb negb];
    rewrite ?Z.eqb_eq, ?Z.eqb_neq in *;
    Z.to_euclidean_division_equations; lia.
Qed.

Lemma days_before_year_mono y y' :
  y <= y' -> Clock.days_before_year y <= Clock.days_before_year y'.
Proof.
  intros H. unfold Clock.days_before_year.
  Z.to_euclidean_division_equations. lia.
Qed.

Lemma ymd2ord_bounds y m d :
  1 <= y <= 9999 -> 1 <= m <= 12 -> 1 <= d <= Clock.days_in_month y m ->
  1 <= Clock.ymd2ord y m d <= Cli.MAXORDINAL.
Proof.
  intros Hy Hm Hd. unfold Clock.ymd2ord, Cli.MAXORDINAL.
  pose proof (day_of_year_bound y m d Hm Hd) as Hdoy.
  pose proof (days_before_year_step y) as Hstep.
  pose proof (days_before_year_mono 1 y ltac:(lia)) as Hlo.
  pose proof (days_before_year_mono (y + 1) 10000 ltac:(lia)) as Hhi.
  change (Clock.days_before_year 1) with 0 in Hlo.
  change (Clock.days_before_year 10000) with 3652059 in Hhi.
  lia.
Qed.

Lemma strptime_ymd_bounds s o :
  Cli.strptime_ymd s = Some o -> 1 <= o <= Cli.MAXORDINAL.
Proof.
  intros H. apply strptime_ymd_date in H.
  destruct H as (y & m & d & Hy & Hm & Hd & ->).
  apply ymd2ord_bounds; assumption.
Qed.

(** ** The custom date range *)

Lemma add_day_midnight d : Clock.add_days (Clock.midnight d) 1 = Clock.midnight (d + 1).
Proof. unfold Clock.add_days, Clock.midnight. lia. Qed.

Lemma in_range_spec a b r :
  Cli.in_range a b r = true <-> a <= timestamp r < b.
Proof.
  unfold Cli.in_range. rewrite andb_true_iff, Z.leb_le, Z.ltb_lt. tauto.
Qed.

Lemma between_midnights d1 d2 t :
  Clock.midnight d1 <= t < Clock.midnight (d2 + 1)
  <-> d1 <= Clock.date_of t <= d2.
Proof.
  unfold Clock.midnight, Clock.date_of, Clock.us_per_day, Clock.us_per_second.
  Z.to_euclidean_division_equations. lia.
Qed.

(** The steps of [custom_date_range] once both dates are accepted. *)
Lemma custom_date_range_parsed
      (sort_values_desc : forall A : Type, (A -> nat) -> list A -> list A)
      start_date end_date d1 d2 (loaded : Cli.Loaded) :
  Cli.strptime_ymd start_date = Some d1 ->
  Cli.strptime_ymd end_date = Some d2 ->
  d2 < Cli.MAXORDINAL ->
  Cli.custom_date_range sort_values_desc start_date end_date loaded
  = Call_load_data
    :: map Print (fst loaded)
    ++ match snd loaded with
       | None => []
       | Some df =>
           Cli.range_report sort_values_desc start_date end_date
             (Clock.midnight d1) (Clock.midnight (d2 + 1))
             (filter (Cli.in_range (Clock.midnight d1)
                                   (Clock.midnight (d2 + 1))) df)
       end.
Proof.
  intros H1 H2 Hmax. unfold Cli.custom_date_range. rewrite H1, H2.
  assert ((Cli.MAXORDINAL <=? d2) = false) as -> by (apply Z.leb_gt; exact Hmax).
  rewrite add_day_midnight. reflexivity.
Qed.

(** C7. When the two dates typed are accepted as the days [d1] and [d2]
    (and the day after [d2] exists), the report is computed from exactly
    the rows whose timestamp [t] satisfies
    [d1 00:00:00 <= t < (d2 + 1 day) 00:00:00], which are the rows dated
    from [d1] to [d2]. For 2024-01-01 to 2024-01-01 a row of the last
    microsecond of 2024-01-01 is in, a row of 2024-01-02 00:00:00 is out. *)
Theorem custom_range_is_half_open
        (sort_values_desc : forall A : Type, (A -> nat) -> list A -> list A)
        start_date end_date d1 d2 (msgs : list Message) (df : Pandas.Frame) :
  Cli.strptime_ymd start_date = Some d1 ->
  Cli.strptime_ymd end_date = Some d2 ->
  d2 < Cli.MAXORDINAL ->
  let start_dt := Clock.midnight d1 in
  let end_dt := Clock.midnight (d2 + 1) in
  Cli.custom_date_range sort_values_desc start_date end_date (msgs, Some df)
  = Call_load_data
    :: map Print msgs
    ++ Cli.range_report sort_values_desc start_date end_date start_dt end_dt
         (filter (Cli.in_range start_dt end_dt) df)
  /\ (forall r, In r (filter (Cli.in_range start_dt end_dt) df)
                <-> In r df /\ start_dt <= timestamp r < end_dt)
  /\ (forall r, start_dt <= timestamp r < end_dt
                <-> d1 <= Clock.date_of (timestamp r) <= d2)
  /\ (Cli.strptime_ymd "2024-01-01" = Some (Clock.ymd2ord 2024 1 1)
      /\ let day := Clock.ymd2ord 2024 1 1 in
         let window := Cli.in_range (Clock.midnight day) (Clock.midnight (day + 1)) in
         window (mkRow (Clock.mk_datetime 2024 1 1 0 0 0 0) 0 "a" "") = true
         /\ window (mkRow (Clock.mk_datetime 2024 1 1 23 59 59 999999) 0 "a" "") = true
         /\ window (mkRow (Clock.mk_datetime 2024 1 2 0 0 0 0) 0 "a" "") = false
         /\ window (mkRow (Clock.mk_datetime 2023 12 31 23 59 59 999999) 0 "a" "") = false).
Proof.
  intros H1 H2 Hmax start_dt end_dt. split; [|split; [|split]].
  - apply (custom_date_range_parsed _ _ _ _ _ (msgs, Some df) H1 H2 Hmax).
  - intros r. rewrite filter_In, in_range_spec. tauto.
  - intros r. apply between_midnights.
  - vm_compute. repeat split.
Qed.

Lemma custom_range_is_half_open_witness :
  let df := [mkRow (Clock.mk_datetime 2023 12 31 23 59 59 999999) 0 "a.exe" "";
             mkRow (Clock.mk_datetime 2024 1 1 0 0 0 0) 0 "b.exe" "";
             mkRow (Clock.mk_datetime 2024 1 1 23 59 59 999999) 0 "b.exe" "";
             mkRow (Clock.mk_datetime 2024 1 2 0 0 0 0) 0 "d.exe" ""] in
  Cli.custom_date_range (@Pandas.sorted_desc) "2024-01-01" "2024-01-01" ([], Some df)
  = [Call_load_data;
     Print (Analysis "2024-01-01" "2024-01-01" 2 1 1);
     Print (TopAppsInPeriod [("b.exe", 2%nat)])].
Proof.
  intros df.
  destruct (custom_range_is_half_open (@Pandas.sorted_desc)
              "2024-01-01" "2024-01-01"
              (Clock.ymd2ord 2024 1 1) (Clock.ymd2ord 2024 1 1) [] df)
    as [H _].
  - reflexivity.
  - reflexivity.
  - reflexivity.
  - refine (eq_trans H _). vm_compute. reflexivity.
Defined.

(** C8, as stated, fails: a range whose start is after its end is not
    turned down; the log is loaded and filtered, and the message is the one
    of an empty period. *)
Lemma reversed_range_is_not_validated :
  let df := [mkRow (Clock.mk_datetime 2024 1 3 9 0 0 0) 0 "Code.exe" "main.py"] in
  let out := Cli.custom_date_range (@Pandas.sorted_desc)
                                   "2024-01-05" "2024-01-01" ([], Some df) in
  out = [Call_load_data; Print (NoDataForPeriod "2024-01-05" "2024-01-01")]
  /\ ~ SummarySpec.validation_abort out.
Proof.
  split; [vm_compute; reflexivity|].
  unfold SummarySpec.validation_abort. vm_compute. discriminate.
Qed.

(** C8, amended. If one of the two dates is not accepted by [strptime],
    the only effect is the "Invalid date format" message: [load_data] is
    not called. If both are accepted and the start is after the end, no
    validation takes place: [load_data] is called, the window is empty,
    and the "No data found for the period" message is printed (when the
    log could be loaded) before any total is computed. *)
Theorem custom_range_validation
        (sort_values_desc : forall A : Type, (A -> nat) -> list A -> list A)
        start_date end_date (loaded : Cli.Loaded) :
  (Cli.strptime_ymd start_date = None \/ Cli.strptime_ymd end_date = None ->
   Cli.custom_date_range sort_values_desc start_date end_date loaded
   = [Print InvalidDateFormat])
  /\ (forall d1 d2,
         Cli.strptime_ymd start_date = Some d1 ->
         Cli.strptime_ymd end_date = Some d2 ->
         d2 < d1 ->
         Cli.custom_date_range sort_values_desc start_date end_date loaded
         = Call_load_data
           :: map Print (fst loaded)
           ++ match snd loaded with
              | None => []
              | Some _ => [Print (NoDataForPeriod start_date end_date)]
              end).
Proof.
  split.
  - intros [H|H]; unfold Cli.custom_date_range; rewrite H; [reflexivity|].
    destruct (Cli.strptime_ymd start_date); reflexivity.
  - intros d1 d2 H1 H2 Hlt.
    pose proof (strptime_ymd_bounds _ _ H1) as B1.
    rewrite (custom_date_range_parsed _ _ _ d1 d2 loaded H1 H2) by lia.
    destruct (snd loaded) as [df|]; [|reflexivity].
    do 2 f_equal. unfold Cli.range_report.
    assert (filter (Cli.in_range (Clock.midnight d1) (Clock.midnight (d2 + 1))) df
            = []) as ->; [|reflexivity].
    apply filter_nil_iff. intros r _.
    destruct (Cli.in_range _ _ r) eqn:E; [|reflexivity].
    apply in_range_spec in E. apply between_midnights in E. lia.
Qed.

Lemma custom_range_validation_witness :
  Cli.custom_date_range (@Pandas.sorted_desc) "2024-13-01" "2024-01-01"
                        ([], Some [mkRow 0 0 "Code.exe" "main.py"])
  = [Print InvalidDateFormat]
  /\ Cli.custom_date_range (@Pandas.sorted_desc) "2024-01-05" "2024-01-01"
                           ([], Some [mkRow 0 0 "Code.exe" "main.py"])
     = [Call_load_data; Print (NoDataForPeriod "2024-01-05" "2024-01-01")].
Proof.
  split.
  - apply (custom_range_validation (@Pandas.sorted_desc) "2024-13-01" "2024-01-01").
    left. reflexivity.
  - apply (proj2 (custom_range_validation (@Pandas.sorted_desc)
                    "2024-01-05" "2024-01-01"
                    ([], Some [mkRow 0 0 "Code.exe" "main.py"]))
                 (Clock.ymd2ord 2024 1 5) (Clock.ymd2ord 2024 1 1)).
    + reflexivity.
    + reflexivity.
    + reflexivity.
Defined.

(** ** Empty windows *)

(** C9. When no row of the log falls in the window of a report, every
    total of the summary is zero and every ranking and table is empty,
    and the report prints its "no data" message and nothing else. This
    holds for the window of [today_summary], for the seven-day window of
    [weekly_report], [app_usage_stats] and [productivity_analysis], and
    for the window of [custom_date_range]. *)
Theorem empty_window_reports
        (sort_values_desc : forall A : Type, (A -> nat) -> list A -> list A)
        (df : Pandas.Frame) :
  (forall A key l, Permutation (sort_values_desc A key l) l) ->
  (forall window : Pandas.Frame,
      window = [] ->
      Cli.active_sum window = 0%nat
      /\ Cli.unique_apps_of window = 0%nat
      /\ Cli.any_active window = false
      /\ (forall n, Cli.top_apps sort_values_desc n window = [])
      /\ sort_values_desc _ usage_minutes
                          (Cli.agg_app_stats (filter Cli.active window)) = []
      /\ Cli.daily_stats window = [])
  /\ (forall today,
         filter (Cli.on_day today) df = [] ->
         Cli.today_summary sort_values_desc ([], Some df) today
         = [Call_load_data; Print (NoActivityToday today)])
  /\ (forall now,
         filter (Cli.after (now - Cli.seven_days)) df = [] ->
         Cli.weekly_report ([], Some df) now
         = [Call_load_data; Print NoActivityLast7Days]
         /\ Cli.app_usage_stats sort_values_desc ([], Some df) now
            = [Call_load_data; Print NoRecentActivity]
         /\ Cli.productivity_analysis ([], Some df) now
            = [Call_load_data; Print NoRecentActivity])
  /\ (forall start_date end_date d1 d2,
         Cli.strptime_ymd start_date = Some d1 ->
         Cli.strptime_ymd end_date = Some d2 ->
         d2 < Cli.MAXORDINAL ->
         filter (Cli.in_range (Clock.midnight d1) (Clock.midnight (d2 + 1))) df = [] ->
         Cli.custom_date_range sort_values_desc start_date end_date ([], Some df)
         = [Call_load_data; Print (NoDataForPeriod start_date end_date)]).
Proof.
  intros Hperm. split; [|split; [|split]].
  - intros window ->.
    assert (forall A key, sort_values_desc A key [] = []) as Hnil.
    { intros A key. apply Permutation_nil, Permutation_sym, Hperm. }
    repeat split.
    + intros n. unfold Cli.top_apps. cbn [filter Cli.groupby_size].
      unfold Cli.groupby_size. cbn. rewrite Hnil. apply firstn_nil.
    + cbn. apply Hnil.
  - intros today H. unfold Cli.today_summary. cbn [fst snd map app].
    rewrite H. reflexivity.
  - intros now H. unfold Cli.weekly_report, Cli.app_usage_stats,
      Cli.productivity_analysis. cbn [fst snd map app].
    rewrite H. repeat split.
  - intros start_date end_date d1 d2 H1 H2 Hmax H.
    rewrite (custom_date_range_parsed _ _ _ d1 d2 _ H1 H2 Hmax).
    cbn [fst snd map app]. rewrite H. reflexivity.
Qed.

Lemma empty_window_reports_witness :
  Cli.today_summary (@Pandas.sorted_desc)
    ([], Some [mkRow (Clock.mk_datetime 2024 1 1 9 0 0 0) 0 "Code.exe" "main.py"])
    (Clock.ymd2ord 2024 1 2)
  = [Call_load_data; Print (NoActivityToday (Clock.ymd2ord 2024 1 2))].
Proof.
  apply (empty_window_reports (@Pandas.sorted_desc)
           [mkRow (Clock.mk_datetime 2024 1 1 9 0 0 0) 0 "Code.exe" "main.py"]).
  - intros A key l. apply sorted_desc_perm.
  - reflexivity.
Defined.

(** ** The encoding fallback of [load_data] *)

Lemma latin_1_total bs : exists text, Codec.decode Codec.latin_1 bs = Some text.
Proof.
  cbn [Codec.decode]. induction bs as [|b bs [text IH]].
  - exists []. reflexivity.
  - exists (Byte.to_N b :: text). cbn. rewrite IH. reflexivity.
Qed.

Example decode_examples :
  Codec.decode Codec.utf_8 [xe9] = None
  /\ Codec.decode Codec.latin_1 [xe9] = Some [233%N]
  /\ Codec.decode Codec.cp1252 [x81] = None
  /\ Codec.decode Codec.cp1252 [x80] = Some [8364%N]
  /\ Codec.decode Codec.utf_8 [xe2; x82; xac] = Some [8364%N]
  /\ Codec.decode Codec.utf_8 [xc0; x80] = None
  /\ Codec.decode Codec.utf_8 [xed; xa0; x80] = None
  /\ Codec.decode Codec.utf_8_sig [xef; xbb; xbf; x41] = Some [65%N]
  /\ Codec.decode Codec.utf_8 [xef; xbb; xbf; x41] = Some [65279%N; 65%N].
Proof. vm_compute. repeat split. Qed.

(** The loop ends at the first encoding, or at the second. *)
Lemma try_encodings_first_two
      (parse_frame : Codec.Encoding -> list N -> option Pandas.Frame) bs :
  Loader.try_encodings parse_frame Loader.encodings bs
  = match Codec.decode Codec.utf_8 bs with
    | Some text =>
        match parse_frame Codec.utf_8 text with
        | Some df => Loader.Got df
        | None => Loader.Raised
        end
    | None =>
        match Codec.decode Codec.latin_1 bs with
        | Some text =>
            match parse_frame Codec.latin_1 text with
            | Some df => Loader.Got df
            | None => Loader.Raised
            end
        | None => Loader.Exhausted
        end
    end.
Proof.
  destruct (latin_1_total bs) as [text Hl].
  unfold Loader.encodings. cbn [Loader.try_encodings]. unfold Loader.read_csv.
  rewrite Hl.
  destruct (Codec.decode Codec.utf_8 bs) as [t|].
  - destruct (parse_frame Codec.utf_8 t); reflexivity.
  - destruct (parse_frame Codec.latin_1 text); reflexivity.
Qed.

(** The encoding and the text at which the loop stops. *)
Definition reached (bs : list byte) (e : Codec.Encoding) (text : list N) : Prop :=
  (e = Codec.utf_8 /\ Codec.decode Codec.utf_8 bs = Some text)
  \/ (e = Codec.latin_1 /\ Codec.decode Codec.utf_8 bs = None
      /\ Codec.decode Codec.latin_1 bs = Some text).

(** The first line of a log that the low-fidelity sampler began in a
    file that existed and was empty: a row, where the header would be. *)
Definition headless_log : list byte :=
  (list_byte_of_string "2024-01-05T07:05:09.123456,10,Code.exe,main.py"
   ++ [x0d; x0a])%list.

(** What [pd.read_csv] makes of [headless_log]: the first line gives the
    names of the columns, and no line is left. *)
Definition headless_table : Columns.Table :=
  Columns.mkTable ["2024-01-05T07:05:09.123456"; "10"; "Code.exe"; "main.py"] [].

Definition read_headless (e : Codec.Encoding) (text : list N)
  : option Columns.Table :=
  if list_eq_dec N.eq_dec text (map Byte.to_N headless_log)
  then Some headless_table
  else None.

(** C10, as stated, fails: a file can be valid CSV under every listed
    encoding and not be loaded. [headless_log] decodes under each of
    them and the parser accepts it, and [load_data] prints "Error loading
    data" and returns [None], since the table has no [timestamp]
    column. *)
Lemma valid_csv_is_not_always_loaded :
  Forall (fun e => Columns.valid_csv read_headless e headless_log)
         Loader.encodings
  /\ Columns.has_column "timestamp" headless_table = false
  /\ Loader.load_data (Columns.parse_frame read_headless (fun _ => Some []))
                      (Some headless_log)
     = ([ErrorLoadingData], None).
Proof.
  split; [|split; vm_compute; reflexivity].
  repeat constructor;
    exists (map Byte.to_N headless_log), headless_table;
    split; vm_compute; reflexivity.
Qed.

(** C10, amended. Decoding as latin-1 succeeds on every sequence of
    bytes, so the loop over the encodings never runs out and [load_data]
    never prints the "encoding issues" message for a file that exists. The
    loop stops at utf-8, or at latin-1 when the bytes are not UTF-8, and
    [load_data] returns a data set exactly when, for the text read there,
    the parser accepts it, the table has the columns [timestamp] and
    [idle_seconds], and their conversions succeed; in every other case,
    also for a file that is valid CSV, it prints "Error loading data" and
    returns [None]. *)
Theorem encoding_issues_unreachable
        (parse_frame : Codec.Encoding -> list N -> option Pandas.Frame)
        (read_table : Codec.Encoding -> list N -> option Columns.Table)
        (convert : Columns.Table -> option Pandas.Frame)
        (bs : list byte) :
  let load := Loader.load_data (Columns.parse_frame read_table convert) in
  (exists text, Codec.decode Codec.latin_1 bs = Some text)
  /\ Loader.try_encodings parse_frame Loader.encodings bs <> Loader.Exhausted
  /\ ~ In EncodingIssues (fst (Loader.load_data parse_frame (Some bs)))
  /\ (forall text df,
         Codec.decode Codec.utf_8 bs = Some text ->
         parse_frame Codec.utf_8 text = Some df ->
         Loader.load_data parse_frame (Some bs) = ([], Some df))
  /\ (forall text df,
         Codec.decode Codec.utf_8 bs = None ->
         Codec.decode Codec.latin_1 bs = Some text ->
         parse_frame Codec.latin_1 text = Some df ->
         Loader.load_data parse_frame (Some bs) = ([], Some df))
  /\ (exists e text, reached bs e text)
  /\ (forall df,
         load (Some bs) = ([], Some df)
         <-> exists e text t,
               reached bs e text /\ read_table e text = Some t
               /\ Columns.has_column "timestamp" t = true
               /\ Columns.has_column "idle_seconds" t = true
               /\ convert t = Some df)
  /\ ((forall df, load (Some bs) <> ([], Some df)) ->
      load (Some bs) = ([ErrorLoadingData], None)).
Proof.
  intros load.
  pose proof (try_encodings_first_two parse_frame bs) as Hloop.
  destruct (latin_1_total bs) as [tl Hl].
  assert (Loader.try_encodings parse_frame Loader.encodings bs <> Loader.Exhausted)
    as Hne.
  { rewrite Hloop, Hl.
    destruct (Codec.decode Codec.utf_8 bs) as [t|];
      [destruct (parse_frame Codec.utf_8 t) | destruct (parse_frame Codec.latin_1 tl)];
      discriminate. }
  assert (exists e text, reached bs e text) as Hreached.
  { unfold reached. destruct (Codec.decode Codec.utf_8 bs) as [t|] eqn:Hu.
    - exists Codec.utf_8, t. left. auto.
    - exists Codec.latin_1, tl. right. auto. }
  assert (forall e text,
             reached bs e text ->
             load (Some bs)
             = match Columns.parse_frame read_table convert e text with
               | Some df => ([], Some df)
               | None => ([ErrorLoadingData], None)
               end) as Hload.
  { intros e text Hr. unfold load, Loader.load_data.
    rewrite try_encodings_first_two.
    destruct Hr as [[-> Hd] | [-> [Hu Hd]]].
    - rewrite Hd.
      destruct (Columns.parse_frame read_table convert Codec.utf_8 text);
        reflexivity.
    - rewrite Hu, Hd.
      destruct (Columns.parse_frame read_table convert Codec.latin_1 text);
        reflexivity. }
  split; [exists tl; exact Hl|]. split; [exact Hne|].
  split; [|split; [|split; [|split; [|split]]]].
  - unfold Loader.load_data.
    destruct (Loader.try_encodings parse_frame Loader.encodings bs);
      [contradiction | |]; cbn; intuition discriminate.
  - intros text df Hd Hp. unfold Loader.load_data.
    rewrite Hloop, Hd, Hp. reflexivity.
  - intros text df Hu Hd Hp. unfold Loader.load_data.
    rewrite Hloop, Hu, Hd, Hp. reflexivity.
  - exact Hreached.
  - intros df. split.
    + intros H. destruct Hreached as (e & text & Hr).
      exists e, text. rewrite (Hload e text Hr) in H.
      unfold Columns.parse_frame in H.
      destruct (read_table e text) as [tb|]; [|discriminate H].
      exists tb.
      destruct (Columns.has_column "timestamp" tb); [|discriminate H].
      destruct (Columns.has_column "idle_seconds" tb); [|discriminate H].
      cbn [andb] in H.
      destruct (convert tb) as [df'|]; [|discriminate H].
      assert (df' = df) as -> by congruence. repeat split; auto.
    + intros (e & text & tb & Hr & Ht & Hts & Hi & Hc).
      rewrite (Hload e text Hr). unfold Columns.parse_frame.
      rewrite Ht, Hts, Hi. cbn [andb]. rewrite Hc. reflexivity.
  - intros Hnone. destruct Hreached as (e & text & Hr).
    rewrite (Hload e text Hr) in *.
    destruct (Columns.parse_frame read_table convert e text) as [df|];
      [destruct (Hnone df); reflexivity | reflexivity].
Qed.

Lemma encoding_issues_unreachable_witness :
  let parse_frame :=
    fun (_ : Codec.Encoding) (text : list N) =>
      match text with
      | [] => None
      | _ => Some [mkRow 0 0 "Code.exe" "main.py"]
      end in
  Loader.load_data parse_frame (Some [xe9])
  = ([], Some [mkRow 0 0 "Code.exe" "main.py"]).
Proof.
  intros parse_frame.
  apply (proj1 (proj2 (proj2 (proj2 (proj2
           (encoding_issues_unreachable parse_frame read_headless
                                        (fun _ => Some []) [xe9])))))
           [233%N]).
  - reflexivity.
  - reflexivity.
  - reflexivity.
Defined.

(** * More of the code *)

(** ** The loop of the high-fidelity sampler *)

(** The loop variables after a run of passes. *)
Definition final_state (st : HiFi.State) (ticks : list HiFi.Tick) : HiFi.State :=
  fold_left (fun s tk => fst (HiFi.step s tk)) ticks st.

(** The passes of a run that appended their row. *)
Fixpoint logged (st : HiFi.State) (ticks : list HiFi.Tick) : list HiFi.Tick :=
  match ticks with
  | [] => []
  | tk :: rest =>
      match HiFi.step st tk with
      | (st', Some _) => tk :: logged st' rest
      | (st', None) => logged st' rest
      end
  end.

Definition window_of (r : Row) : string * string := (app_name r, window_title r).

Definition state_window (st : HiFi.State) : string * string :=
  (HiFi.last_app st, HiFi.last_window st).

(** [l1] is [l2] with some elements left out. *)
Inductive subseq {A : Type} : list A -> list A -> Prop :=
| subseq_nil : subseq [] []
| subseq_skip x l1 l2 : subseq l1 l2 -> subseq l1 (x :: l2)
| subseq_keep x l1 l2 : subseq l1 l2 -> subseq (x :: l1) (x :: l2).

(** The three ways a pass can end. *)
Lemma step_cases st tk :
  (HiFi.step st tk
   = (HiFi.mkState (app_name (HiFi.candidate tk))
                   (window_title (HiFi.candidate tk)),
      Some (HiFi.candidate tk))
   /\ HiFi.should_log st tk = true /\ HiFi.write_ok tk = true
   /\ (HiFi.changed st tk = false \/ HiFi.print_ok tk = true))
  \/ (HiFi.step st tk = (st, Some (HiFi.candidate tk))
      /\ HiFi.should_log st tk = true /\ HiFi.write_ok tk = true
      /\ HiFi.changed st tk = true /\ HiFi.print_ok tk = false)
  \/ (HiFi.step st tk = (st, None)
      /\ (HiFi.should_log st tk = false \/ HiFi.write_ok tk = false)).
Proof.
  unfold HiFi.step.
  destruct (HiFi.should_log st tk); [|right; right; auto].
  destruct (HiFi.write_ok tk); [|right; right; auto].
  destruct (HiFi.changed st tk); [|left; auto].
  destruct (HiFi.print_ok tk); cbn [negb andb];
    [left; auto | right; left; auto].
Qed.

Lemma changed_spec st tk :
  HiFi.changed st tk = false
  <-> window_of (HiFi.candidate tk) = state_window st.
Proof.
  unfold HiFi.changed, window_of, state_window. cbv zeta.
  rewrite orb_false_iff, !negb_false_iff, !String.eqb_eq.
  split; [intros [-> ->]; reflexivity | intros [= -> ->]; auto].
Qed.

Lemma should_log_changed st tk :
  HiFi.should_log st tk = HiFi.changed st tk || HiFi.heartbeat tk.
Proof. reflexivity. Qed.

Lemma log_activity_logged st ticks :
  HiFi.log_activity st ticks = map HiFi.candidate (logged st ticks).
Proof.
  revert st. induction ticks as [|tk rest IH]; intros st; [reflexivity|].
  cbn [HiFi.log_activity logged].
  destruct (step_cases st tk) as [(-> & _) | [(-> & _) | (-> & _)]]; cbn [map];
    rewrite IH; reflexivity.
Qed.

Lemma logged_subseq st ticks : subseq (logged st ticks) ticks.
Proof.
  revert st. induction ticks as [|tk rest IH]; intros st; [constructor|].
  cbn [logged].
  destruct (step_cases st tk) as [(-> & _) | [(-> & _) | (-> & _)]];
    constructor; apply IH.
Qed.

Lemma subseq_map {A B} (f : A -> B) l1 l2 :
  subseq l1 l2 -> subseq (map f l1) (map f l2).
Proof. induction 1; cbn [map]; constructor; assumption. Qed.

Lemma subseq_length {A} (l1 l2 : list A) :
  subseq l1 l2 -> (List.length l1 <= List.length l2)%nat.
Proof. induction 1; cbn [List.length]; lia. Qed.

(** A pass appends at most one row, the one it prepared: the rows of a
    run are rows prepared by its passes, in the order of the passes, no
    pass contributing twice. A pass whose append fails leaves no trace:
    the run goes on as if the pass had not taken place. *)
Theorem hifi_log_is_subsequence (st : HiFi.State) (ticks : list HiFi.Tick) :
  subseq (HiFi.log_activity st ticks) (map HiFi.candidate ticks)
  /\ (List.length (HiFi.log_activity st ticks) <= List.length ticks)%nat
  /\ (forall tk,
         HiFi.write_ok tk = false ->
         HiFi.log_activity st (tk :: ticks) = HiFi.log_activity st ticks).
Proof.
  split; [|split].
  - rewrite log_activity_logged. apply subseq_map, logged_subseq.
  - rewrite log_activity_logged, length_map.
    apply subseq_length, logged_subseq.
  - intros tk Hw. cbn [HiFi.log_activity].
    destruct (step_cases st tk)
      as [(_ & _ & Hok & _) | [(_ & _ & Hok & _) | (-> & _)]];
      [congruence | congruence | reflexivity].
Qed.

Lemma hifi_log_is_subsequence_witness :
  let tk := HiFi.mkTick (mkProbe 0 false "Code.exe" "main.py") 0 2500 false true in
  let tk' := HiFi.mkTick (mkProbe 0 false "Code.exe" "main.py") 5 7500 true true in
  HiFi.log_activity HiFi.init [tk; tk'] = HiFi.log_activity HiFi.init [tk'].
Proof.
  intros tk tk'.
  apply (proj2 (proj2 (hifi_log_is_subsequence HiFi.init [tk']))).
  reflexivity.
Defined.

Lemma final_state_cons st tk rest :
  final_state st (tk :: rest) = final_state (fst (HiFi.step st tk)) rest.
Proof. reflexivity. Qed.

(** After a pass whose append and report both succeed, the loop
    variables hold the window the pass saw, whether the pass wrote or
    not. *)
Lemma step_tracks_window st tk :
  HiFi.write_ok tk = true -> HiFi.print_ok tk = true ->
  state_window (fst (HiFi.step st tk)) = window_of (HiFi.candidate tk).
Proof.
  intros Hok Hpr.
  destruct (step_cases st tk)
    as [(-> & _) | [(_ & _ & _ & _ & Hno) | (-> & [Hno | Hw])]].
  - reflexivity.
  - congruence.
  - rewrite should_log_changed in Hno. apply orb_false_iff in Hno.
    destruct Hno as [Hno _]. apply changed_spec in Hno.
    cbn [fst]. symmetry. exact Hno.
  - congruence.
Qed.

(** As long as no report on the console fails, the loop variables are
    the window of the last row appended. *)
Lemma final_state_last_row st ticks :
  Forall (fun t => HiFi.print_ok t = true) ticks ->
  state_window (final_state st ticks)
  = match rev (HiFi.log_activity st ticks) with
    | [] => state_window st
    | r :: _ => window_of r
    end.
Proof.
  intros Hall. revert st.
  induction Hall as [|tk rest Hpr _ IH]; intros st; [reflexivity|].
  rewrite final_state_cons, IH. cbn [HiFi.log_activity].
  destruct (step_cases st tk)
    as [(-> & _) | [(_ & _ & _ & _ & Hno) | (-> & _)]]; cbn [fst].
  - cbn [rev]. destruct (rev (HiFi.log_activity _ rest)); reflexivity.
  - congruence.
  - reflexivity.
Qed.

(** When every append succeeds and every report of a change reaches
    the console, the last row of the log shows the window of the last
    pass: no change of window is missed. The log is empty only if the
    last pass saw an app and a title that are both the empty string. *)
Theorem hifi_last_row_is_current_window
        (ticks : list HiFi.Tick) (tk : HiFi.Tick) :
  Forall (fun t => HiFi.write_ok t = true /\ HiFi.print_ok t = true)
         (ticks ++ [tk]) ->
  match rev (HiFi.log_activity HiFi.init (ticks ++ [tk])) with
  | r :: _ => window_of r = window_of (HiFi.candidate tk)
  | [] => window_of (HiFi.candidate tk) = ("", "")
  end.
Proof.
  intros Hall.
  assert (Forall (fun t => HiFi.print_ok t = true) (ticks ++ [tk])) as Hpr.
  { rewrite Forall_forall in *. intros t Ht. apply (Hall t Ht). }
  pose proof (final_state_last_row HiFi.init (ticks ++ [tk]) Hpr) as Hlast.
  assert (state_window (final_state HiFi.init (ticks ++ [tk]))
          = window_of (HiFi.candidate tk)) as Hcur.
  { unfold final_state. rewrite fold_left_app. cbn [fold_left].
    rewrite Forall_forall in Hall.
    destruct (Hall tk) as [Hw Hp]; [apply in_or_app; right; left; reflexivity|].
    apply step_tracks_window; assumption. }
  rewrite Hcur in Hlast.
  destruct (rev (HiFi.log_activity HiFi.init (ticks ++ [tk])));
    [exact Hlast | symmetry; exact Hlast].
Qed.

Lemma hifi_last_row_is_current_window_witness :
  let a := HiFi.mkTick (mkProbe 0 false "Code.exe" "main.py") 0 2500 true true in
  let b := HiFi.mkTick (mkProbe 0 false "chrome.exe" "News") 5 7500 true true in
  match rev (HiFi.log_activity HiFi.init ([a; b] ++ [a])) with
  | r :: _ => window_of r = ("Code.exe", "main.py")
  | [] => False
  end.
Proof.
  intros a b.
  pose proof (hifi_last_row_is_current_window [a; b] a) as H.
  assert (Forall (fun t => HiFi.write_ok t = true /\ HiFi.print_ok t = true)
                 ([a; b] ++ [a])) as Hall
    by (repeat constructor).
  specialize (H Hall).
  destruct (rev (HiFi.log_activity HiFi.init ([a; b] ++ [a]))).
  - discriminate H.
  - exact H.
Defined.

Lemma logged_first st ticks t l :
  logged st ticks = t :: l ->
  HiFi.should_log st t = true
  /\ exists ticks', l = logged (fst (HiFi.step st t)) ticks'.
Proof.
  induction ticks as [|tk rest IH]; [discriminate|].
  cbn [logged].
  destruct (step_cases st tk)
    as [(E & Hs & _) | [(E & Hs & _) | (-> & _)]].
  - rewrite E. intros [= <- <-]. split; [exact Hs|]. exists rest.
    rewrite E. reflexivity.
  - rewrite E. intros [= <- <-]. split; [exact Hs|]. exists rest.
    rewrite E. reflexivity.
  - exact IH.
Qed.

Lemma logged_step_writes st ticks t l :
  logged st ticks = t :: l -> HiFi.write_ok t = true.
Proof.
  induction ticks as [|tk rest IH]; [discriminate|].
  cbn [logged].
  destruct (step_cases st tk)
    as [(-> & _ & Hw & _) | [(-> & _ & Hw & _) | (-> & _)]].
  - intros [= <- _]. exact Hw.
  - intros [= <- _]. exact Hw.
  - exact IH.
Qed.

Lemma should_log_same_window st t :
  HiFi.should_log st t = true ->
  window_of (HiFi.candidate t) = state_window st ->
  HiFi.heartbeat t = true.
Proof.
  rewrite should_log_changed. intros H Hsame.
  apply changed_spec in Hsame. rewrite Hsame in H. exact H.
Qed.

(** The log repeats a window only on a heartbeat, as long as the
    console takes the reports: when two rows that follow each other in
    the log have the same app and the same title and the pass of the
    first one could print, the pass that wrote the second one took place
    in the first second of a half minute of the wall clock. *)
Theorem hifi_repeats_only_on_heartbeat
        (st : HiFi.State) (ticks l1 l2 : list HiFi.Tick) (t1 t2 : HiFi.Tick) :
  logged st ticks = (l1 ++ t1 :: t2 :: l2)%list ->
  HiFi.print_ok t1 = true ->
  window_of (HiFi.candidate t1) = window_of (HiFi.candidate t2) ->
  HiFi.log_activity st ticks
  = map HiFi.candidate (l1 ++ t1 :: t2 :: l2)%list
  /\ HiFi.clock_ms t2 mod 30000 < 1000.
Proof.
  intros Hlog Hpr Hsame.
  split; [rewrite log_activity_logged, Hlog; reflexivity|].
  apply Z.ltb_lt. change (HiFi.heartbeat t2 = true).
  revert st ticks Hlog. induction l1 as [|x l1 IH]; intros st ticks Hlog.
  - cbn [app] in Hlog.
    pose proof (logged_step_writes _ _ _ _ Hlog) as Hw.
    apply logged_first in Hlog.
    destruct Hlog as [_ [ticks' Hrest]]. symmetry in Hrest.
    apply logged_first in Hrest. destruct Hrest as [Hs _].
    apply (should_log_same_window _ _ Hs).
    rewrite (step_tracks_window st t1 Hw Hpr). symmetry. exact Hsame.
  - cbn [app] in Hlog. apply logged_first in Hlog.
    destruct Hlog as [_ [ticks' Hrest]]. symmetry in Hrest.
    apply (IH _ _ Hrest).
Qed.

Lemma hifi_repeats_only_on_heartbeat_witness :
  let a := HiFi.mkTick (mkProbe 0 false "Code.exe" "main.py") 0 25500 true true in
  let b := HiFi.mkTick (mkProbe 0 false "Code.exe" "main.py") 5 30800 true true in
  HiFi.clock_ms b mod 30000 < 1000.
Proof.
  intros a b.
  apply (hifi_repeats_only_on_heartbeat HiFi.init [a; b] [] [] a b).
  - reflexivity.
  - reflexivity.
  - reflexivity.
Defined.

(** A report that the console refuses costs the update of the loop
    variables: as long as the passes see windows other than the one the
    variables hold, append their row and fail to print, every pass writes
    a row, heartbeat or not, and the variables stay as they were. A
    window that was reported before such a pass is then taken for
    unchanged when it comes back, and is not written. *)
Theorem hifi_failed_print_repeats_rows
        (st : HiFi.State) (ticks : list HiFi.Tick) :
  Forall (fun t => HiFi.write_ok t = true /\ HiFi.print_ok t = false
                   /\ window_of (HiFi.candidate t) <> state_window st) ticks ->
  HiFi.log_activity st ticks = map HiFi.candidate ticks
  /\ final_state st ticks = st
  /\ (forall back,
         window_of (HiFi.candidate back) = state_window st ->
         HiFi.heartbeat back = false ->
         HiFi.log_activity st (ticks ++ [back]) = map HiFi.candidate ticks).
Proof.
  intros Hall.
  assert (forall t,
             HiFi.write_ok t = true /\ HiFi.print_ok t = false
             /\ window_of (HiFi.candidate t) <> state_window st ->
             HiFi.step st t = (st, Some (HiFi.candidate t))) as Hstep.
  { intros t (Hw & Hp & Hne).
    assert (HiFi.changed st t = true) as Hch.
    { destruct (HiFi.changed st t) eqn:E; [reflexivity|].
      apply changed_spec in E. contradiction. }
    unfold HiFi.step. rewrite should_log_changed, Hch, Hw, Hp. reflexivity. }
  assert (forall back,
             window_of (HiFi.candidate back) = state_window st ->
             HiFi.heartbeat back = false ->
             HiFi.log_activity st [back] = []) as Hback.
  { intros back Hsame Hhb. cbn [HiFi.log_activity]. unfold HiFi.step.
    apply changed_spec in Hsame.
    rewrite should_log_changed, Hsame, Hhb. reflexivity. }
  induction Hall as [|t rest Ht _ IH].
  - split; [reflexivity | split; [reflexivity|]].
    intros back Hsame Hhb. cbn [app map]. apply Hback; assumption.
  - destruct IH as (IH1 & IH2 & IH3).
    split; [|split].
    + cbn [HiFi.log_activity map]. rewrite (Hstep t Ht), IH1. reflexivity.
    + rewrite final_state_cons, (Hstep t Ht). exact IH2.
    + intros back Hsame Hhb. cbn [app HiFi.log_activity map].
      rewrite (Hstep t Ht), (IH3 back Hsame Hhb). reflexivity.
Qed.

Lemma hifi_failed_print_repeats_rows_witness :
  let a := HiFi.mkTick (mkProbe 0 false "Code.exe" "main.py") 0 2500 true true in
  let b k := HiFi.mkTick (mkProbe 0 false "chrome.exe" (String "233"%char "t"))
                         (5 * k) (2500 + 5000 * k) true false in
  let a' := HiFi.mkTick (mkProbe 0 false "Code.exe" "main.py") 20 22500 true true in
  final_state HiFi.init [a] = HiFi.mkState "Code.exe" "main.py"
  /\ List.length (HiFi.log_activity (HiFi.mkState "Code.exe" "main.py")
                                    [b 1; b 2; b 3]) = 3%nat
  /\ HiFi.log_activity (HiFi.mkState "Code.exe" "main.py")
                       ([b 1; b 2; b 3] ++ [a'])
     = map HiFi.candidate [b 1; b 2; b 3].
Proof.
  intros a b a'.
  assert (Forall (fun t => HiFi.write_ok t = true /\ HiFi.print_ok t = false
                           /\ window_of (HiFi.candidate t)
                              <> state_window (HiFi.mkState "Code.exe" "main.py"))
                 [b 1; b 2; b 3]) as Hall
    by (repeat constructor; discriminate).
  pose proof (hifi_failed_print_repeats_rows
                (HiFi.mkState "Code.exe" "main.py") [b 1; b 2; b 3] Hall)
    as (H1 & _ & H3).
  split; [reflexivity | split].
  - rewrite H1. reflexivity.
  - apply H3; reflexivity.
Defined.

(** ** The log file of the low-fidelity sampler *)

Module TrackerFile.

(** A line of the log file: the header line or one row. How the CSV
    writer spells a line is not part of the model. *)
Inductive Line : Type :=
| Header
| Record (r : Row).

(** [setup_logging] of [screentime_tracker.py]: [file] is the content of
    [LOG_FILE], [None] when it does not exist. The header is written
    when the file does not exist, and only then. *)
Definition setup_logging (file : option (list Line)) : list Line :=
  match file with
  | None => [Header]
  | Some lines => lines
  end.

(** [log_activity]: [setup_logging()], then one append on every pass of
    the loop. *)
Definition log_activity (file : option (list Line))
           (ticks : list (Probe * Z)) : list Line :=
  fold_left (fun lines t =>
               (lines ++ [Record (Tracker.tick (fst t) (snd t))])%list)
            ticks (setup_logging file).

End TrackerFile.

Lemma fold_append_rows lines ticks :
  fold_left (fun f t =>
               (f ++ [TrackerFile.Record (Tracker.tick (fst t) (snd t))])%list)
            ticks lines
  = (lines
     ++ map (fun t => TrackerFile.Record (Tracker.tick (fst t) (snd t))) ticks)%list.
Proof.
  revert lines. induction ticks as [|t ticks IH]; intros lines; cbn [fold_left map].
  - rewrite app_nil_r. reflexivity.
  - rewrite IH, <- app_assoc. reflexivity.
Qed.

(** The sampler only appends. Whatever the file held stays as it was, at
    the front; one row follows for every pass, in the order of the
    passes. The header is written exactly when the file did not exist, so
    a file that exists and is empty gets rows and no header. [setup_logging]
    changes nothing when run again. *)
Theorem tracker_appends_only (file : option (list TrackerFile.Line))
        (ticks : list (Probe * Z)) :
  TrackerFile.log_activity file ticks
  = (TrackerFile.setup_logging file
     ++ map (fun t => TrackerFile.Record (Tracker.tick (fst t) (snd t))) ticks)%list
  /\ (forall lines, file = Some lines ->
        TrackerFile.log_activity file ticks
        = (lines
           ++ map (fun t => TrackerFile.Record (Tracker.tick (fst t) (snd t)))
                  ticks)%list)
  /\ (file = None ->
      exists rows, TrackerFile.log_activity file ticks = TrackerFile.Header :: rows
                   /\ ~ In TrackerFile.Header rows)
  /\ (file = Some [] ->
      ~ In TrackerFile.Header (TrackerFile.log_activity file ticks))
  /\ TrackerFile.setup_logging (Some (TrackerFile.setup_logging file))
     = TrackerFile.setup_logging file
  /\ (forall more,
        TrackerFile.log_activity
          (Some (TrackerFile.log_activity file ticks)) more
        = TrackerFile.log_activity file (ticks ++ more)).
Proof.
  unfold TrackerFile.log_activity.
  assert (forall ts,
             ~ In TrackerFile.Header
                  (map (fun t => TrackerFile.Record (Tracker.tick (fst t) (snd t)))
                       ts)) as Hrows.
  { intros ts H. apply in_map_iff in H. destruct H as [t [H _]]. discriminate H. }
  repeat split.
  - apply fold_append_rows.
  - intros lines ->. apply fold_append_rows.
  - intros ->. rewrite fold_append_rows. eexists. split; [reflexivity|].
    apply Hrows.
  - intros ->. rewrite fold_append_rows. apply Hrows.
  - intros more. cbn [TrackerFile.setup_logging].
    rewrite fold_left_app. reflexivity.
Qed.

Lemma tracker_appends_only_witness :
  TrackerFile.log_activity (Some []) [(mkProbe 10 false "Code.exe" "main.py", 7)]
  = [TrackerFile.Record (mkRow 7 10 "Code.exe" "main.py")].
Proof.
  refine (eq_trans
            (proj1 (proj2 (tracker_appends_only
                             (Some [])
                             [(mkProbe 10 false "Code.exe" "main.py", 7)]))
                   [] eq_refl)
            _).
  reflexivity.
Defined.

(** ** [get_idle_time] of [screentime_tracker.py] *)

Module WinProbe.

(** What [ctypes] hands back for a C [int] return value whose 32 bits
    are those of [n]: a foreign function without a declared [restype]
    returns C [int], so [windll.kernel32.GetTickCount()] arrives signed. *)
Definition c_int (n : Z) : Z := (n + 2 ^ 31) mod 2 ^ 32 - 2 ^ 31.

(** [(windll.kernel32.GetTickCount() - info.dwTime) // 1000]. [tick_count]
    is the 32-bit millisecond counter of the system at the call and
    [dwTime] its value at the last input; [dwTime] is a [c_uint] field,
    read as it is. The difference is taken on Python integers. *)
Definition get_idle_time (tick_count dwTime : Z) : Z :=
  (c_int tick_count - dwTime) / 1000.

End WinProbe.

(** While the counter is below [2^31] (the first 24.8 days after the
    start of the system) the result is the idle time in whole seconds, not
    negative. From [2^31] on the counter arrives as a negative number, the
    result is negative, and the sampler, for which only [idle < 300]
    matters, records the foreground window as long as the screen saver is
    off, however long the user has really been away. *)
Theorem idle_time_tick_counter (tick_count dwTime : Z) :
  0 <= dwTime <= tick_count -> tick_count < 2 ^ 32 ->
  (tick_count < 2 ^ 31 ->
   WinProbe.get_idle_time tick_count dwTime = (tick_count - dwTime) / 1000
   /\ 0 <= WinProbe.get_idle_time tick_count dwTime)
  /\ (2 ^ 31 <= tick_count ->
      WinProbe.get_idle_time tick_count dwTime < 0
      /\ forall app title now,
          Tracker.tick (mkProbe (WinProbe.get_idle_time tick_count dwTime)
                                false app title) now
          = mkRow now (WinProbe.get_idle_time tick_count dwTime)
                  app (Text.ascii_ignore title)).
Proof.
  intros Hd Ht. unfold WinProbe.get_idle_time, WinProbe.c_int.
  change (2 ^ 31) with 2147483648 in *. change (2 ^ 32) with 4294967296 in *.
  split.
  - intros Hlo.
    assert ((tick_count + 2147483648) mod 4294967296 = tick_count + 2147483648)
      as -> by (apply Z.mod_small; lia).
    replace (tick_count + 2147483648 - 2147483648 - dwTime)
      with (tick_count - dwTime) by lia.
    split; [reflexivity|]. apply Z.div_pos; lia.
  - intros Hhi.
    assert ((tick_count + 2147483648) mod 4294967296 = tick_count - 2147483648)
      as ->.
    { symmetry. apply (Z.mod_unique _ _ 1); lia. }
    assert ((tick_count - 2147483648 - 2147483648 - dwTime) / 1000 < 0) as Hneg.
    { apply Z.div_lt_upper_bound; lia. }
    split; [exact Hneg|].
    intros app title now. unfold Tracker.tick, IDLE_THRESHOLD. cbn [idle_time locked fg_app fg_title].
    assert (((tick_count - 2147483648 - 2147483648 - dwTime) / 1000 <? 300) = true)
      as -> by (apply Z.ltb_lt; lia).
    reflexivity.
Qed.

Lemma idle_time_tick_counter_witness :
  WinProbe.get_idle_time 3000000000 0 < 0
  /\ WinProbe.get_idle_time 900000 0 = 900.
Proof.
  split.
  - apply (idle_time_tick_counter 3000000000 0); [lia | reflexivity | discriminate].
  - refine (eq_trans (proj1 (proj1 (idle_time_tick_counter 900000 0 _ _) _)) _);
      [lia | reflexivity | reflexivity | reflexivity].
Defined.

(** ** Window titles *)

Definition all_ascii (s : string) : Prop :=
  Forall (fun c => Text.is_ascii c = true) (list_ascii_of_string s).

Lemma ascii_ignore_all_ascii s : all_ascii (Text.ascii_ignore s).
Proof.
  unfold all_ascii. induction s as [|c s IH]; cbn [Text.ascii_ignore].
  - constructor.
  - destruct (Text.is_ascii c) eqn:E; [|exact IH].
    cbn [list_ascii_of_string]. constructor; assumption.
Qed.

Lemma ascii_ignore_fixes_ascii s : all_ascii s -> Text.ascii_ignore s = s.
Proof.
  unfold all_ascii. induction s as [|c s IH]; [reflexivity|].
  cbn [list_ascii_of_string Text.ascii_ignore]. intros H.
  inversion H as [|? ? Hc Hs]; subst. rewrite Hc, (IH Hs). reflexivity.
Qed.

(** Every title the low-fidelity sampler writes is plain ASCII, a title
    that is plain ASCII is written as it is, and cleaning a title twice
    changes nothing more. A row whose app name is not "Idle" is a row of
    an active pass, and the aggregator counts it as active. *)
Theorem tracker_rows_are_clean (p : Probe) (now : Z) :
  all_ascii (window_title (Tracker.tick p now))
  /\ Text.ascii_ignore (window_title (Tracker.tick p now))
     = window_title (Tracker.tick p now)
  /\ (all_ascii (fg_title p) -> idle_time p < 300 -> locked p = false ->
      window_title (Tracker.tick p now) = fg_title p)
  /\ (app_name (Tracker.tick p now) <> "Idle" ->
      Cli.active (Tracker.tick p now) = true
      /\ app_name (Tracker.tick p now) = fg_app p
      /\ locked p = false).
Proof.
  assert (all_ascii (window_title (Tracker.tick p now))) as Hclean.
  { unfold Tracker.tick.
    destruct (_ && _)%bool; cbn [window_title]; apply ascii_ignore_all_ascii. }
  split; [exact Hclean|]. split; [apply ascii_ignore_fixes_ascii, Hclean|].
  unfold Tracker.tick, Cli.active, IDLE_THRESHOLD. split.
  - intros Ha Hi Hl. rewrite Hl.
    assert ((idle_time p <? 300) = true) as -> by (apply Z.ltb_lt; exact Hi).
    cbn. apply ascii_ignore_fixes_ascii, Ha.
  - destruct (idle_time p <? 300) eqn:Ei; destruct (locked p);
      cbn; intros H; try (exfalso; apply H; reflexivity).
    repeat split. exact Ei.
Qed.

Lemma tracker_rows_are_clean_witness :
  window_title (Tracker.tick (mkProbe 10 false "Code.exe" "main.py") 0) = "main.py"
  /\ Cli.active (Tracker.tick (mkProbe 10 false "Code.exe" "main.py") 0) = true.
Proof.
  split.
  - apply (tracker_rows_are_clean (mkProbe 10 false "Code.exe" "main.py") 0).
    + unfold all_ascii. cbn. repeat constructor.
    + reflexivity.
    + reflexivity.
  - apply (tracker_rows_are_clean (mkProbe 10 false "Code.exe" "main.py") 0).
    cbn. discriminate.
Defined.

(** ** The sampler of [Linux/screentime_tracker.py] *)

Module PyStr.

(** [c.isspace()] for a code point below 256. *)
Definition is_space (c : ascii) : bool :=
  let n := N_of_ascii c in
  ((9 <=? n) && (n <=? 13) || (28 <=? n) && (n <=? 32)
   || (n =? 133) || (n =? 160))%N.

Fixpoint lstrip (s : string) : string :=
  match s with
  | EmptyString => EmptyString
  | String c s' => if is_space c then lstrip s' else s
  end.

Fixpoint rstrip (s : string) : string :=
  match s with
  | EmptyString => EmptyString
  | String c s' =>
      let r := rstrip s' in
      if is_space c && String.eqb r "" then EmptyString else String c r
  end.

(** [s.strip()]. *)
Definition strip (s : string) : string := rstrip (lstrip s).

(** The digits of [int(s)], after the sign: decimal digits, single
    underscores allowed between two digits. [acc] is the value so far,
    [after_digit] tells whether the last character was a digit. *)
Fixpoint int_digits (s : string) (acc : Z) (after_digit : bool) : option Z :=
  match s with
  | EmptyString => if after_digit then Some acc else None
  | String c s' =>
      match Cli.digit c with
      | Some d => int_digits s' (acc * 10 + d) true
      | None =>
          if Ascii.eqb c "_" && after_digit
          then match s' with
               | EmptyString => None
               | String c' _ =>
                   match Cli.digit c' with
                   | Some _ => int_digits s' acc false
                   | None => None
                   end
               end
          else None
      end
  end.

(** The white space that [int] ignores around the number: the ASCII
    white space of C and, above 127, what [isspace] accepts. The
    separators 28 to 31 are not ignored, unlike in [strip]. *)
Definition is_int_space (c : ascii) : bool :=
  let n := N_of_ascii c in
  ((9 <=? n) && (n <=? 13) || (n =? 32) || (n =? 133) || (n =? 160))%N.

Fixpoint int_lstrip (s : string) : string :=
  match s with
  | EmptyString => EmptyString
  | String c s' => if is_int_space c then int_lstrip s' else s
  end.

Fixpoint int_rstrip (s : string) : string :=
  match s with
  | EmptyString => EmptyString
  | String c s' =>
      let r := int_rstrip s' in
      if is_int_space c && String.eqb r "" then EmptyString else String c r
  end.

Fixpoint count_digits (s : string) : nat :=
  match s with
  | EmptyString => O
  | String c s' =>
      match Cli.digit c with
      | Some _ => S (count_digits s')
      | None => count_digits s'
      end
  end.

(** [sys.get_int_max_str_digits()], by default. *)
Definition int_max_str_digits : nat := 4300.

(** [int(s)] for a string: white space around the number is ignored, a
    sign may precede the digits, and a number of more than 4300 digits
    is refused; [None] stands for [ValueError]. *)
Definition int (s : string) : option Z :=
  let t := int_rstrip (int_lstrip s) in
  if (int_max_str_digits <? count_digits t)%nat then None
  else
    match t with
    | String c s' =>
        if Ascii.eqb c "-" then option_map Z.opp (int_digits s' 0 false)
        else if Ascii.eqb c "+" then int_digits s' 0 false
        else int_digits (String c s') 0 false
    | EmptyString => None
    end.

End PyStr.

Example py_int_examples :
  PyStr.int "12345" = Some 12345
  /\ PyStr.int " 42
" = Some 42
  /\ PyStr.int "-7" = Some (-7)
  /\ PyStr.int "+007" = Some 7
  /\ PyStr.int "1_000" = Some 1000
  /\ PyStr.int "1__0" = None
  /\ PyStr.int "_1" = None
  /\ PyStr.int "1_" = None
  /\ PyStr.int "" = None
  /\ PyStr.int "- 1" = None
  /\ PyStr.int "12a" = None
  /\ PyStr.int (String (ascii_of_nat 31) "3") = None
  /\ PyStr.strip (String (ascii_of_nat 31) "3") = "3"
  /\ PyStr.strip "  a b  " = "a b".
Proof. vm_compute. repeat split. Qed.

Module LinuxTracker.

Inductive Display : Type := x11 | wayland | unknown.

(** A value of [os.environ.get(name)] is true when the variable is set
    to a string that is not empty. *)
Definition truthy (v : option string) : bool :=
  match v with
  | Some s => negb (String.eqb s "")
  | None => false
  end.

(** [get_display_server], from the values of [WAYLAND_DISPLAY] and
    [DISPLAY]. *)
Definition get_display_server (WAYLAND_DISPLAY DISPLAY : option string) : Display :=
  if truthy WAYLAND_DISPLAY then wayland
  else if truthy DISPLAY then x11
  else unknown.

(** How a [subprocess.run(..., timeout=5)] ends, as far as the code
    tells the cases apart. *)
Inductive Run : Type :=
| Completed (returncode : Z) (stdout : string)
| TimeoutExpired
| FileNotFoundError.

(** [get_idle_time], given how [xprintidle] and [xssstate -i] would end.
    [None] stands for the [ValueError] of [int], which no handler of the
    function catches. The fallback to [xssstate] is in the exception
    handler: it is not tried when [xprintidle] runs and fails. *)
Definition get_idle_time (display : Display) (xprintidle xssstate : Run) : option Z :=
  match display with
  | x11 =>
      match xprintidle with
      | Completed rc out =>
          if rc =? 0 then option_map (fun n => n / 1000) (PyStr.int (PyStr.strip out))
          else Some 0
      | _ =>
          match xssstate with
          | Completed rc out =>
              if rc =? 0 then PyStr.int (PyStr.strip out) else Some 0
          | _ => Some 0
          end
      end
  | _ => Some 0
  end.

(** The test of one of the lock commands. *)
Definition says_locked (r : Run) : bool :=
  match r with
  | Completed _ out =>
      Text.contains "locked" (Text.lower out)
      || Text.contains "active" (Text.lower out)
  | _ => false
  end.

(** [is_screensaver_active], given how [xssstate -s],
    [gnome-screensaver-command -q] and [xscreensaver-command -version]
    would end. *)
Definition is_screensaver_active (display : Display)
           (xssstate gnome xscreensaver : Run) : bool :=
  match display with
  | x11 => existsb says_locked [xssstate; gnome; xscreensaver]
  | _ => false
  end.

(** The body of the loop of [log_activity]. *)
Definition tick (p : Probe) (now : Z) : Row :=
  let active := (idle_time p <? IDLE_THRESHOLD) && negb (locked p) in
  let '(name, title) :=
    if active then (fg_app p, fg_title p) else ("Idle", "System Idle") in
  let title := Text.ascii_ignore title in
  let title :=
    if String.eqb (PyStr.strip title) "" then "Unknown Window" else title in
  mkRow now (idle_time p) name title.

(** A node of the tree that [swaymsg -t get_tree] prints: its
    ['focused'] flag and its two lists of children. [tag] stands for the
    other entries of the node. *)
Inductive Node : Type :=
| mkNode (tag : string) (focused : bool) (nodes floating_nodes : list Node).

Definition is_focused (n : Node) : bool :=
  match n with mkNode _ f _ _ => f end.

(** [find_focused_window]: the node itself when it is focused, else the
    first answer among its children, those of ['nodes'] before those of
    ['floating_nodes']. *)
Fixpoint find_focused_window (node : Node) : option Node :=
  match node with
  | mkNode _ f ns fs =>
      if f then Some node
      else
        let first :=
          fix first (children : list Node) : option Node :=
            match children with
            | [] => None
            | child :: rest =>
                match find_focused_window child with
                | Some result => Some result
                | None => first rest
                end
            end in
        match first ns with
        | Some result => Some result
        | None => first fs
        end
  end.

(** The entry of a process in [psutil.process_iter(['pid', 'name',
    'cpu_percent'])]; a value the process did not let read is [None].
    [cpu_percent] is counted in tenths of a percent, the precision
    psutil reports. *)
Record Proc : Type := mkProc {
  proc_name : option string;
  cpu_percent : option Z
}.

Definition gui_apps : list string :=
  ["firefox"; "chrome"; "chromium"; "code"; "gedit"; "nautilus";
   "terminal"; "konsole"; "gnome-terminal"; "kate"; "libreoffice"].

(** The first loop: the processes with [cpu_percent > 0], in the order
    of the iteration. [None] stands for the [TypeError] of comparing
    [None] with 0. *)
Fixpoint busy (procs : list Proc) : option (list Proc) :=
  match procs with
  | [] => Some []
  | p :: rest =>
      match cpu_percent p with
      | None => None
      | Some c =>
          option_map (fun l => if 0 <? c then p :: l else l) (busy rest)
      end
  end.

Definition cpu_key (p : Proc) : nat :=
  match cpu_percent p with
  | Some c => Z.to_nat c
  | None => 0%nat
  end.

Definition is_gui (name : string) : bool :=
  existsb (fun gui_app => Text.contains gui_app (Text.lower name)) gui_apps.

Inductive Search : Type := Found (name : string) | NotFound | Raised.

(** The second loop. A process without a name raises on [.lower()]. *)
Fixpoint first_gui (procs : list Proc) : Search :=
  match procs with
  | [] => NotFound
  | p :: rest =>
      match proc_name p with
      | None => Raised
      | Some name => if is_gui name then Found name else first_gui rest
      end
  end.

(** [get_active_process_fallback]: the name it returns (twice); any
    exception is answered by "Unknown". *)
Definition get_active_process_fallback (procs : list Proc) : option string :=
  match busy procs with
  | None => Some "Unknown"
  | Some processes =>
      let processes := Pandas.sorted_desc cpu_key processes in
      match first_gui processes with
      | Found name => Some name
      | Raised => Some "Unknown"
      | NotFound =>
          match processes with
          | p :: _ => proc_name p
          | [] => Some "Unknown"
          end
      end
  end.

End LinuxTracker.

Lemma prefix_spec sub s :
  String.prefix sub s = true <-> exists q, s = sub ++ q.
Proof.
  revert sub. induction s as [|c s IH]; intros [|a sub]; cbn.
  - split; [exists ""; reflexivity | reflexivity].
  - split; [discriminate | intros [q H]; discriminate H].
  - split; [exists (String c s); reflexivity | reflexivity].
  - destruct (Ascii.ascii_dec a c) as [->|Hne].
    + rewrite IH. split; intros [q H]; exists q; congruence.
    + split; [discriminate | intros [q H]; congruence].
Qed.

(** [sub in s] holds exactly when [s] is [sub] with something before
    and something after. *)
Lemma contains_spec sub s :
  Text.contains sub s = true <-> exists p q, s = p ++ sub ++ q.
Proof.
  induction s as [|c s IH]; cbn [Text.contains]; rewrite orb_true_iff, prefix_spec.
  - split.
    + intros [[q H] | H]; [exists "", q; exact H | discriminate].
    + intros [[|a p] [q H]]; [left; exists q; exact H | discriminate H].
  - rewrite IH. split.
    + intros [[q H] | [p [q H]]].
      * exists "", q. exact H.
      * exists (String c p), q. cbn. rewrite H. reflexivity.
    + intros [[|a p] [q H]].
      * left. exists q. exact H.
      * right. exists p, q. cbn in H. congruence.
Qed.

Lemma append_assoc (a b c : string) : (a ++ b) ++ c = a ++ b ++ c.
Proof. induction a as [|x a IH]; cbn; [reflexivity | rewrite IH; reflexivity]. Qed.

Lemma contains_suffix_of_sub a b s :
  Text.contains (a ++ b) s = true -> Text.contains b s = true.
Proof.
  rewrite !contains_spec. intros [p [q H]]. exists (p ++ a), q.
  rewrite H, !append_assoc. reflexivity.
Qed.

(** On a session that sets [WAYLAND_DISPLAY] (also when [DISPLAY] is set
    as well) the sampler has no idle detection: the idle time is 0, the
    screen saver is never seen, and every pass writes the foreground app
    with idle 0, which the aggregator counts as active. *)
Theorem wayland_is_never_idle
        (WAYLAND_DISPLAY DISPLAY : option string)
        (xprintidle xssstate_i xssstate_s gnome xscreensaver : LinuxTracker.Run)
        (app title : string) (now : Z) :
  LinuxTracker.truthy WAYLAND_DISPLAY = true ->
  let display := LinuxTracker.get_display_server WAYLAND_DISPLAY DISPLAY in
  let locked :=
    LinuxTracker.is_screensaver_active display xssstate_s gnome xscreensaver in
  display = LinuxTracker.wayland
  /\ LinuxTracker.get_idle_time display xprintidle xssstate_i = Some 0
  /\ locked = false
  /\ app_name (LinuxTracker.tick (mkProbe 0 locked app title) now) = app
  /\ Cli.active (LinuxTracker.tick (mkProbe 0 locked app title) now) = true.
Proof.
  intros Hw display locked. subst locked display.
  unfold LinuxTracker.get_display_server. rewrite Hw. repeat split.
Qed.

Lemma wayland_is_never_idle_witness :
  LinuxTracker.get_idle_time
    (LinuxTracker.get_display_server (Some "wayland-0") (Some ":0"))
    (LinuxTracker.Completed 0 "900000") LinuxTracker.FileNotFoundError
  = Some 0.
Proof.
  apply (wayland_is_never_idle (Some "wayland-0") (Some ":0")
           (LinuxTracker.Completed 0 "900000") LinuxTracker.FileNotFoundError
           LinuxTracker.FileNotFoundError LinuxTracker.FileNotFoundError
           LinuxTracker.FileNotFoundError "firefox" "News" 0).
  reflexivity.
Defined.

(** Under X11, a lock command whose output contains the word
    "inactive", in any letter case, makes [is_screensaver_active] answer
    True, since "active" occurs in "inactive"; the pass is then written
    as an "Idle" row, whatever the idle time. *)
Theorem inactive_counts_as_active
        (rc : Z) (out : string)
        (xssstate gnome xscreensaver : LinuxTracker.Run)
        (idle : Z) (app title : string) (now : Z) :
  Text.contains "inactive" (Text.lower out) = true ->
  In (LinuxTracker.Completed rc out) [xssstate; gnome; xscreensaver] ->
  LinuxTracker.is_screensaver_active LinuxTracker.x11
                                     xssstate gnome xscreensaver = true
  /\ LinuxTracker.tick
       (mkProbe idle
                (LinuxTracker.is_screensaver_active
                   LinuxTracker.x11 xssstate gnome xscreensaver)
                app title) now
     = mkRow now idle "Idle" "System Idle".
Proof.
  intros Hin Hrun.
  assert (LinuxTracker.is_screensaver_active
            LinuxTracker.x11 xssstate gnome xscreensaver = true) as Hact.
  { cbn [LinuxTracker.is_screensaver_active]. apply existsb_exists.
    exists (LinuxTracker.Completed rc out). split; [exact Hrun|].
    cbn [LinuxTracker.says_locked]. apply orb_true_iff. right.
    apply (contains_suffix_of_sub "in" "active"). exact Hin. }
  split; [exact Hact|]. rewrite Hact. unfold LinuxTracker.tick.
  cbn [idle_time locked negb]. rewrite andb_false_r. reflexivity.
Qed.

Lemma inactive_counts_as_active_witness :
  LinuxTracker.is_screensaver_active
    LinuxTracker.x11 LinuxTracker.FileNotFoundError
    (LinuxTracker.Completed 0 "The screensaver is inactive")
    LinuxTracker.FileNotFoundError = true.
Proof.
  apply (inactive_counts_as_active 0 "The screensaver is inactive"
           LinuxTracker.FileNotFoundError
           (LinuxTracker.Completed 0 "The screensaver is inactive")
           LinuxTracker.FileNotFoundError 0 "firefox" "News" 0).
  - reflexivity.
  - right. left. reflexivity.
Defined.

(** The title of a row of the Linux sampler is plain ASCII and is never
    empty or blank: a title of which nothing but white space is left
    after the characters outside ASCII are dropped is written as "Unknown
    Window". *)
Theorem linux_title_is_never_blank (p : Probe) (now : Z) :
  let title := window_title (LinuxTracker.tick p now) in
  all_ascii title
  /\ PyStr.strip title <> ""
  /\ (title = "Unknown Window"
      \/ title = "System Idle"
      \/ title = Text.ascii_ignore (fg_title p))
  /\ (PyStr.strip (Text.ascii_ignore (fg_title p)) = "" ->
      idle_time p < 300 -> locked p = false ->
      title = "Unknown Window").
Proof.
  unfold LinuxTracker.tick.
  destruct ((idle_time p <? IDLE_THRESHOLD) && negb (locked p))%bool eqn:Eact.
  - destruct (String.eqb (PyStr.strip (Text.ascii_ignore (fg_title p))) "") eqn:E;
      cbn [window_title].
    + repeat split; try (vm_compute; repeat constructor; fail); auto.
      vm_compute. discriminate.
    + apply String.eqb_neq in E. repeat split; auto.
      * apply ascii_ignore_all_ascii.
      * intros H. contradiction.
  - cbn. repeat split; try (vm_compute; repeat constructor; fail); auto.
    + vm_compute. discriminate.
    + intros _ Hi Hl. rewrite Hl in Eact. unfold IDLE_THRESHOLD in Eact.
      apply andb_false_iff in Eact. destruct Eact as [E|E]; [|discriminate].
      apply Z.ltb_ge in E. lia.
Qed.

Lemma linux_title_is_never_blank_witness :
  window_title (LinuxTracker.tick (mkProbe 10 false "firefox" "   ") 0)
  = "Unknown Window".
Proof.
  apply (linux_title_is_never_blank (mkProbe 10 false "firefox" "   ") 0).
  - reflexivity.
  - reflexivity.
  - reflexivity.
Defined.

(** The nodes of a tree, a node before its children, the children of
    ['nodes'] before those of ['floating_nodes']. *)
Fixpoint preorder (node : LinuxTracker.Node) : list LinuxTracker.Node :=
  match node with
  | LinuxTracker.mkNode _ _ ns fs =>
      node :: (flat_map preorder ns ++ flat_map preorder fs)
  end.

Fixpoint first_found (children : list LinuxTracker.Node) : option LinuxTracker.Node :=
  match children with
  | [] => None
  | child :: rest =>
      match LinuxTracker.find_focused_window child with
      | Some result => Some result
      | None => first_found rest
      end
  end.

Fixpoint Node_forall_ind (P : LinuxTracker.Node -> Prop)
         (step : forall tag f ns fs,
             Forall P ns -> Forall P fs -> P (LinuxTracker.mkNode tag f ns fs))
         (node : LinuxTracker.Node) : P node :=
  match node with
  | LinuxTracker.mkNode tag f ns fs =>
      let all :=
        fix all (l : list LinuxTracker.Node) : Forall P l :=
          match l with
          | [] => Forall_nil P
          | c :: r => Forall_cons c (Node_forall_ind P step c) (all r)
          end in
      step tag f ns fs (all ns) (all fs)
  end.

Lemma find_app {A} (f : A -> bool) l1 l2 :
  find f (l1 ++ l2) = match find f l1 with Some x => Some x | None => find f l2 end.
Proof.
  induction l1 as [|x l1 IH]; cbn; [reflexivity|].
  destruct (f x); [reflexivity | exact IH].
Qed.

Lemma first_found_preorder children :
  Forall (fun c => LinuxTracker.find_focused_window c
                   = find LinuxTracker.is_focused (preorder c)) children ->
  first_found children
  = find LinuxTracker.is_focused (flat_map preorder children).
Proof.
  induction 1 as [|c rest Hc _ IH]; [reflexivity|].
  cbn [first_found flat_map]. rewrite find_app, Hc, IH. reflexivity.
Qed.

(** [find_focused_window] returns the first focused node of the tree in
    the order "a node, then its children, then its floating children",
    and [None] exactly when no node of the tree is focused; the node it
    returns is a node of the tree and it is focused. *)
Theorem find_focused_is_first_in_preorder (node : LinuxTracker.Node) :
  LinuxTracker.find_focused_window node
  = find LinuxTracker.is_focused (preorder node)
  /\ (forall result,
         LinuxTracker.find_focused_window node = Some result ->
         In result (preorder node) /\ LinuxTracker.is_focused result = true)
  /\ (LinuxTracker.find_focused_window node = None <->
      forall n, In n (preorder node) -> LinuxTracker.is_focused n = false).
Proof.
  assert (LinuxTracker.find_focused_window node
          = find LinuxTracker.is_focused (preorder node)) as Heq.
  { induction node as [tag f ns fs Hns Hfs] using Node_forall_ind.
    cbn [preorder find LinuxTracker.is_focused].
    destruct f eqn:Ef; [cbn; reflexivity|].
    rewrite find_app, <- !first_found_preorder by assumption.
    cbn. reflexivity. }
  split; [exact Heq|]. rewrite Heq. split.
  - intros result H. apply find_some in H. exact H.
  - split.
    + intros H n Hn. apply (find_none _ _ H). exact Hn.
    + intros H. destruct (find LinuxTracker.is_focused (preorder node)) as [r|] eqn:E;
        [|reflexivity].
      apply find_some in E. destruct E as [Hin Hf].
      rewrite (H r Hin) in Hf. discriminate.
Qed.

Lemma find_focused_is_first_in_preorder_witness :
  let leaf := LinuxTracker.mkNode "firefox" true [] [] in
  let tree :=
    LinuxTracker.mkNode "root" false
      [LinuxTracker.mkNode "workspace" false
         [LinuxTracker.mkNode "term" false [] []] [leaf]]
      [LinuxTracker.mkNode "popup" true [] []] in
  LinuxTracker.is_focused leaf = true.
Proof.
  intros leaf tree.
  apply (proj1 (proj2 (find_focused_is_first_in_preorder tree)) leaf).
  reflexivity.
Defined.

(** ** [get_active_process_fallback] *)

Definition is_busy (p : LinuxTracker.Proc) : bool :=
  match LinuxTracker.cpu_percent p with
  | Some c => 0 <? c
  | None => false
  end.

Lemma busy_none procs :
  (exists p, In p procs /\ LinuxTracker.cpu_percent p = None) ->
  LinuxTracker.busy procs = None.
Proof.
  induction procs as [|q procs IH]; intros [p [Hin Hp]]; [destruct Hin|].
  cbn [LinuxTracker.busy]. destruct Hin as [->|Hin].
  - rewrite Hp. reflexivity.
  - destruct (LinuxTracker.cpu_percent q); [|reflexivity].
    rewrite IH; [reflexivity | exists p; auto].
Qed.

Lemma busy_filter procs :
  (forall p, In p procs -> LinuxTracker.cpu_percent p <> None) ->
  LinuxTracker.busy procs = Some (filter is_busy procs).
Proof.
  induction procs as [|q procs IH]; intros H; [reflexivity|].
  cbn [LinuxTracker.busy filter]. unfold is_busy at 1.
  destruct (LinuxTracker.cpu_percent q) as [c|] eqn:E.
  - rewrite IH by (intros p Hp; apply H; right; exact Hp). reflexivity.
  - exfalso. apply (H q); [left; reflexivity | exact E].
Qed.

Definition plain (q : LinuxTracker.Proc) : Prop :=
  exists n, LinuxTracker.proc_name q = Some n /\ LinuxTracker.is_gui n = false.

Lemma first_gui_cases procs :
  (forall p, In p procs -> LinuxTracker.proc_name p <> None) ->
  (LinuxTracker.first_gui procs = LinuxTracker.NotFound /\ Forall plain procs)
  \/ (exists l1 p l2 n,
         procs = (l1 ++ p :: l2)%list
         /\ LinuxTracker.first_gui procs = LinuxTracker.Found n
         /\ LinuxTracker.proc_name p = Some n
         /\ LinuxTracker.is_gui n = true
         /\ Forall plain l1).
Proof.
  induction procs as [|q procs IH]; intros Hnames.
  - left. split; [reflexivity | constructor].
  - cbn [LinuxTracker.first_gui].
    destruct (LinuxTracker.proc_name q) as [n|] eqn:En;
      [|exfalso; apply (Hnames q); [left; reflexivity | exact En]].
    destruct (LinuxTracker.is_gui n) eqn:Eg.
    + right. exists [], q, procs, n. repeat split; auto.
    + destruct IH as [[Hnf Hall] | (l1 & p & l2 & m & -> & Hf & Hp & Hg & Hall)].
      * intros p Hp. apply Hnames. right. exact Hp.
      * left. split; [exact Hnf|]. constructor; [exists n; auto | exact Hall].
      * right. exists (q :: l1), p, l2, m. repeat split; auto.
        constructor; [exists n; auto | exact Hall].
Qed.

Lemma sorted_after {A} (R : A -> A -> Prop) l1 p l2 :
  StronglySorted R (l1 ++ p :: l2) -> Forall (R p) l2.
Proof.
  induction l1 as [|x l1 IH]; cbn [app]; intros H; inversion H; subst; auto.
Qed.

(** [get_active_process_fallback] answers "Unknown" as soon as one
    process does not let its CPU share be read, and when no process uses
    any CPU. When every share and every name can be read and some process
    uses CPU, the answer is the name of a process that uses CPU: a GUI
    app if one of them is a GUI app, and then none of the GUI apps uses
    more; the busiest process of all otherwise. *)
Theorem fallback_prefers_busiest_gui (procs : list LinuxTracker.Proc) :
  let answer := LinuxTracker.get_active_process_fallback procs in
  ((exists p, In p procs /\ LinuxTracker.cpu_percent p = None) ->
   answer = Some "Unknown")
  /\ ((forall p, In p procs -> exists c,
          LinuxTracker.cpu_percent p = Some c /\ c <= 0) ->
      answer = Some "Unknown")
  /\ ((forall p, In p procs ->
          LinuxTracker.cpu_percent p <> None
          /\ LinuxTracker.proc_name p <> None) ->
      (exists p, In p procs /\ is_busy p = true) ->
      exists p n c,
        In p procs /\ LinuxTracker.proc_name p = Some n
        /\ LinuxTracker.cpu_percent p = Some c /\ 0 < c
        /\ answer = Some n
        /\ (forall q nq cq,
               In q procs -> LinuxTracker.proc_name q = Some nq ->
               LinuxTracker.cpu_percent q = Some cq -> 0 < cq ->
               LinuxTracker.is_gui nq = true ->
               LinuxTracker.is_gui n = true /\ cq <= c)
        /\ (LinuxTracker.is_gui n = false ->
            forall q cq,
              In q procs -> LinuxTracker.cpu_percent q = Some cq -> cq <= c)).
Proof.
  intros answer. subst answer. unfold LinuxTracker.get_active_process_fallback.
  split; [|split].
  - intros H. rewrite (busy_none _ H). reflexivity.
  - intros H. rewrite busy_filter.
    + assert (filter is_busy procs = []) as ->; [|reflexivity].
      apply filter_nil_iff. intros p Hp. destruct (H p Hp) as [c [Hc Hle]].
      unfold is_busy. rewrite Hc. apply Z.ltb_ge. exact Hle.
    + intros p Hp. destruct (H p Hp) as [c [Hc _]]. congruence.
  - intros Hread [b [Hb Hbusy]].
    rewrite busy_filter by (intros p Hp; apply (Hread p Hp)).
    set (processes := Pandas.sorted_desc LinuxTracker.cpu_key (filter is_busy procs)).
    pose proof (sorted_desc_perm LinuxTracker.cpu_key (filter is_busy procs)) as Hperm.
    pose proof (sorted_desc_sorted LinuxTracker.cpu_key (filter is_busy procs)) as Hsort.
    fold processes in Hperm, Hsort.
    assert (forall p, In p processes <-> In p procs /\ is_busy p = true) as Hin.
    { intros p. rewrite <- filter_In. split; apply Permutation_in;
        [exact Hperm | apply Permutation_sym; exact Hperm]. }
    assert (forall p, is_busy p = true ->
                      exists c, LinuxTracker.cpu_percent p = Some c /\ 0 < c
                                /\ LinuxTracker.cpu_key p = Z.to_nat c) as Hkey.
    { intros p Hp. unfold is_busy, LinuxTracker.cpu_key in *.
      destruct (LinuxTracker.cpu_percent p) as [c|]; [|discriminate].
      exists c. apply Z.ltb_lt in Hp. auto. }
    assert (forall p q c cq,
               desc LinuxTracker.cpu_key p q ->
               LinuxTracker.cpu_percent p = Some c -> 0 < c ->
               LinuxTracker.cpu_percent q = Some cq -> cq <= c) as Hle.
    { intros p q c cq Hd Hp Hc Hq. unfold desc, LinuxTracker.cpu_key in Hd.
      rewrite Hp, Hq in Hd. lia. }
    destruct (first_gui_cases processes) as [[Hnf Hall] | (l1 & p & l2 & n & Hsplit & Hf & Hp & Hg & Hall)].
    + intros p Hp. apply Hin in Hp. apply (Hread p), Hp.
    + rewrite Hnf.
      destruct processes as [|p rest] eqn:Eproc.
      { exfalso. apply (proj2 (Hin b) (conj Hb Hbusy)). }
      inversion Hall as [|? ? [n [Hn Hg]] Hrest]; subst.
      destruct (proj1 (Hin p) (or_introl eq_refl)) as [Hpin Hpb].
      destruct (Hkey p Hpb) as [c [Hc [Hpos _]]].
      inversion Hsort as [|? ? _ Hhead]; subst.
      exists p, n, c. repeat split; auto.
      * exfalso.
        assert (In q (p :: rest)) as Hq.
        { apply Hin. split; [assumption|]. unfold is_busy.
          rewrite H1. apply Z.ltb_lt. assumption. }
        rewrite Forall_forall in Hall. destruct (Hall q Hq) as [m [Hm Hgm]].
        congruence.
      * exfalso.
        assert (In q (p :: rest)) as Hq.
        { apply Hin. split; [assumption|]. unfold is_busy.
          rewrite H1. apply Z.ltb_lt. assumption. }
        rewrite Forall_forall in Hall. destruct (Hall q Hq) as [m [Hm Hgm]].
        congruence.
      * intros _ q cq Hq Hcq.
        destruct (Z_le_gt_dec cq 0) as [|Hbq]; [lia|].
        assert (In q (p :: rest)) as Hq'.
        { apply Hin. split; [assumption|]. unfold is_busy.
          rewrite Hcq. apply Z.ltb_lt. lia. }
        destruct Hq' as [<-|Hq']; [assert (cq = c) by congruence; lia|].
        rewrite Forall_forall in Hhead.
        apply (Hle p q c cq (Hhead q Hq') Hc Hpos Hcq).
    + rewrite Hf.
      assert (In p processes) as Hpin by (rewrite Hsplit; apply in_elt).
      destruct (proj1 (Hin p) Hpin) as [Hpp Hpb].
      destruct (Hkey p Hpb) as [c [Hc [Hpos _]]].
      exists p, n, c. repeat split; auto.
      * assert (In q processes) as Hq.
        { apply Hin. split; [assumption|]. unfold is_busy.
          rewrite H1. apply Z.ltb_lt. assumption. }
        rewrite Hsplit in Hq. apply in_app_or in Hq.
        destruct Hq as [Hq | [<- | Hq]].
        -- rewrite Forall_forall in Hall. destruct (Hall q Hq) as [m [Hm Hgm]].
           congruence.
        -- assert (cq = c) by congruence. lia.
        -- rewrite Hsplit in Hsort. apply sorted_after in Hsort.
           rewrite Forall_forall in Hsort.
           apply (Hle p q c cq (Hsort q Hq) Hc Hpos H1).
      * intros Hng. congruence.
Qed.

Lemma fallback_prefers_busiest_gui_witness :
  let procs := [LinuxTracker.mkProc (Some "python3") (Some 900);
                LinuxTracker.mkProc (Some "Firefox") (Some 12);
                LinuxTracker.mkProc (Some "idle-daemon") (Some 0)] in
  exists p n c,
    In p procs /\ LinuxTracker.proc_name p = Some n
    /\ LinuxTracker.cpu_percent p = Some c /\ 0 < c
    /\ LinuxTracker.get_active_process_fallback procs = Some n.
Proof.
  intros procs.
  destruct (proj2 (proj2 (fallback_prefers_busiest_gui procs)))
    as (p & n & c & H1 & H2 & H3 & H4 & H5 & _).
  - intros p [<-|[<-|[<-|[]]]]; split; discriminate.
  - exists (LinuxTracker.mkProc (Some "python3") (Some 900)).
    split; [left; reflexivity | reflexivity].
  - exists p, n, c. auto.
Defined.

Definition day_of (r : Row) : Z := Clock.date_of (timestamp r).

Lemma filter_length_le {A} (f : A -> bool) l :
  (List.length (filter f l) <= List.length l)%nat.
Proof.
  induction l as [|x l IH]; [apply Nat.le_refl|].
  cbn [filter]. destruct (f x); cbn [List.length]; lia.
Qed.

Lemma nunique_le_length col : (Pandas.nunique col <= List.length col)%nat.
Proof.
  unfold Pandas.nunique, Pandas.dropna.
  etransitivity; [|apply (filter_length_le Pandas.notna)].
  apply NoDup_incl_length; [apply NoDup_nodup|].
  intros x Hx. apply nodup_In in Hx. exact Hx.
Qed.

Lemma unique_apps_le_active (df : Pandas.Frame) :
  (Cli.unique_apps_of df <= Cli.active_sum df)%nat.
Proof.
  unfold Cli.unique_apps_of, Cli.active_sum.
  rewrite <- (length_map app_name (filter Cli.active df)).
  apply nunique_le_length.
Qed.

(** ** [weekly_report] *)

(** In the weekly report the days are listed in ascending order, each
    once; a day is listed exactly when the window holds a row of that day;
    the active minutes of the days add up to the total printed below
    them; and no day has more apps than active minutes. *)
Theorem weekly_days_add_up (df : Pandas.Frame) (now : Z) :
  let week_data := filter (Cli.after (now - Cli.seven_days)) df in
  let daily := Cli.daily_stats week_data in
  (week_data <> [] ->
   Cli.weekly_report ([], Some df) now
   = [Call_load_data;
      Print (WeeklyReport daily (Cli.active_sum week_data))])
  /\ list_sum (map (fun e => snd (fst e)) daily) = Cli.active_sum week_data
  /\ StronglySorted Z.lt (map (fun e => fst (fst e)) daily)
  /\ (forall day, In day (map (fun e => fst (fst e)) daily)
                  <-> exists r, In r week_data /\ day_of r = day)
  /\ (forall e, In e daily -> (snd e <= snd (fst e))%nat).
Proof.
  intros week_data daily. split; [|split; [|split; [|split]]].
  - intros Hne. unfold Cli.weekly_report. cbn [fst snd map app].
    fold week_data. destruct week_data; [contradiction | reflexivity].
  - unfold daily, Cli.daily_stats. rewrite map_map. cbn [fst snd].
    unfold Cli.active_sum.
    rewrite <- (group_sizes_add_up day_of Z.eqb
                  (Pandas.group_keys Z.compare (map day_of week_data))
                  (filter Cli.active week_data)).
    + f_equal. apply map_ext. intros day. f_equal. apply filter_comm.
    + apply Z.eqb_eq.
    + apply (group_keys_NoDup Z.compare z_compare_eq z_compare_antisym
                              z_compare_lt_trans).
    + intros r Hr. apply (group_keys_In Z.compare z_compare_eq).
      apply in_map. apply filter_In in Hr. tauto.
  - unfold daily, Cli.daily_stats. rewrite map_map. cbn [fst].
    rewrite map_id. apply day_keys_sorted.
  - intros day. unfold daily, Cli.daily_stats. rewrite map_map. cbn [fst].
    rewrite map_id, (group_keys_In Z.compare z_compare_eq), in_map_iff.
    split; intros [r [H1 H2]]; exists r; tauto.
  - intros e He. unfold daily, Cli.daily_stats in He. apply in_map_iff in He.
    destruct He as [day [<- _]]. cbn [fst snd].
    apply unique_apps_le_active.
Qed.

Lemma weekly_days_add_up_witness :
  let df := [mkRow (Clock.mk_datetime 2024 1 2 9 0 0 0) 0 "Code.exe" "a";
             mkRow (Clock.mk_datetime 2024 1 1 9 0 0 0) 0 "Code.exe" "a";
             mkRow (Clock.mk_datetime 2024 1 2 9 1 0 0) 400 "Idle" "System Idle"] in
  Cli.weekly_report ([], Some df) (Clock.mk_datetime 2024 1 3 0 0 0 0)
  = [Call_load_data;
     Print (WeeklyReport [(Clock.ymd2ord 2024 1 1, 1%nat, 1%nat);
                          (Clock.ymd2ord 2024 1 2, 1%nat, 1%nat)] 2)].
Proof.
  intros df.
  refine (eq_trans
            (proj1 (weekly_days_add_up df (Clock.mk_datetime 2024 1 3 0 0 0 0)) _)
            _).
  - vm_compute. discriminate.
  - vm_compute. reflexivity.
Defined.

(** ** [app_usage_stats] *)

Lemma fold_max_spec l a :
  a <= fold_left Z.max l a
  /\ (forall x, In x l -> x <= fold_left Z.max l a)
  /\ In (fold_left Z.max l a) (a :: l).
Proof.
  revert a. induction l as [|y l IH]; intros a; cbn [fold_left].
  - repeat split; [lia | intros x [] | left; reflexivity].
  - destruct (IH (Z.max a y)) as (H1 & H2 & H3). repeat split.
    + lia.
    + intros x [<-|Hx]; [lia | apply H2, Hx].
    + destruct H3 as [H3|H3]; [|right; right; exact H3].
      rewrite <- H3.
      destruct (Z.max_spec a y) as [[_ E]|[_ E]]; rewrite E;
        [right; left | left]; reflexivity.
Qed.

Lemma max_timestamp_spec g :
  g <> [] ->
  In (Cli.max_timestamp g) (map timestamp g)
  /\ forall r, In r g -> timestamp r <= Cli.max_timestamp g.
Proof.
  destruct g as [|r0 g]; [contradiction|]. intros _. unfold Cli.max_timestamp.
  destruct (fold_max_spec (map timestamp g) (timestamp r0)) as (H1 & H2 & H3).
  split; [exact H3|]. intros r [<-|Hr]; [exact H1|].
  apply H2, in_map, Hr.
Qed.

(** In the table of [app_usage_stats], the last_used value of an app is
    the timestamp of one of its active rows in the window and no active
    row of the app in the window is later. The usage_minutes of all apps
    add up to the number of active rows of the window that have an app
    name: to the number of all active rows when no name is missing, to
    less otherwise. [sort_values] may be any function that permutes the
    rows. *)
Theorem app_table_last_used_and_total
        (sort_values_desc : forall A : Type, (A -> nat) -> list A -> list A)
        (df : Pandas.Frame) (now : Z) :
  (forall A key l, Permutation (sort_values_desc A key l) l) ->
  let window := filter (Cli.after (now - Cli.seven_days)) df in
  let app_stats :=
    sort_values_desc _ usage_minutes (Cli.agg_app_stats (filter Cli.active window)) in
  let missing := filter (fun r => negb (named r)) (filter Cli.active window) in
  (list_sum (map usage_minutes app_stats) + List.length missing
   = Cli.active_sum window)%nat
  /\ NoDup (map stat_app app_stats)
  /\ forall st,
      In st app_stats ->
      (exists r, In r window /\ Cli.active r = true
                 /\ app_name r = stat_app st /\ timestamp r = last_used st)
      /\ (forall r, In r window -> Cli.active r = true ->
                    app_name r = stat_app st -> timestamp r <= last_used st).
Proof.
  intros Hperm window app_stats missing.
  set (act := filter Cli.active window).
  assert (Permutation app_stats (Cli.agg_app_stats act)) as Hp by apply Hperm.
  split; [|split].
  - rewrite (list_sum_perm _ _ (Permutation_map usage_minutes Hp)).
    unfold Cli.agg_app_stats. rewrite map_map. cbn [usage_minutes].
    unfold Cli.active_sum at 2. fold act.
    rewrite <- (filter_split_length named act). f_equal.
    rewrite <- (group_counts_add_up act).
    f_equal. apply map_ext. intros a. unfold Cli.active_sum, Cli.count_app, act.
    rewrite filter_active_idem. reflexivity.
  - apply (Permutation_NoDup (Permutation_sym (Permutation_map stat_app Hp))).
    unfold Cli.agg_app_stats. rewrite map_map. cbn [stat_app]. rewrite map_id.
    apply app_keys_NoDup.
  - intros st Hst. apply (Permutation_in _ Hp) in Hst.
    unfold Cli.agg_app_stats in Hst. apply in_map_iff in Hst.
    destruct Hst as [a [<- Ha]]. cbn [stat_app last_used].
    set (g := filter (fun r => String.eqb (app_name r) a) act).
    apply app_keys_In in Ha. destruct Ha as [[r0 [Hin0 Hr0]] _].
    assert (In r0 g) as Hg0.
    { apply filter_In. split; [exact Hin0 | apply String.eqb_eq; exact Hr0]. }
    assert (g <> []) as Hne by (intros E; rewrite E in Hg0; destruct Hg0).
    destruct (max_timestamp_spec g Hne) as [Hmax Hub]. split.
    + apply in_map_iff in Hmax. destruct Hmax as [r [Hts Hr]].
      exists r. unfold g, act in Hr. rewrite !filter_In in Hr.
      destruct Hr as [[Hw Hact] Ha]. apply String.eqb_eq in Ha.
      repeat split; auto.
    + intros r Hr Hact Ha. apply Hub. unfold g, act. rewrite !filter_In.
      repeat split; auto. apply String.eqb_eq. exact Ha.
Qed.

Lemma app_table_last_used_and_total_witness :
  let df := [mkRow (Clock.mk_datetime 2024 1 1 9 0 0 0) 0 "Editor" "a.txt";
             mkRow (Clock.mk_datetime 2024 1 1 9 1 0 0) 0 "" "";
             mkRow (Clock.mk_datetime 2024 1 1 9 2 0 0) 0 "Editor" "a.txt"] in
  let now := Clock.mk_datetime 2024 1 1 10 0 0 0 in
  let window := filter (Cli.after (now - Cli.seven_days)) df in
  (list_sum (map usage_minutes
                 (Pandas.sorted_desc usage_minutes
                    (Cli.agg_app_stats (filter Cli.active window))))
   + 1 = Cli.active_sum window)%nat.
Proof.
  intros df now window.
  refine (eq_trans _
            (proj1 (app_table_last_used_and_total (@Pandas.sorted_desc) df now _))).
  - vm_compute. reflexivity.
  - intros A key l. apply sorted_desc_perm.
Defined.

(** ** [today_summary] *)

Lemma any_active_iff (d : Pandas.Frame) :
  Cli.any_active d = true <-> (0 < Cli.active_sum d)%nat.
Proof.
  unfold Cli.any_active, Cli.active_sum. rewrite existsb_exists. split.
  - intros [x [Hin Hx]].
    assert (In x (filter Cli.active d)) as H by (apply filter_In; auto).
    destruct (filter Cli.active d); [destruct H | cbn; lia].
  - intros H. destruct (filter Cli.active d) as [|x l] eqn:E; [cbn in H; lia|].
    assert (In x (filter Cli.active d)) as Hx by (rewrite E; left; reflexivity).
    apply filter_In in Hx. exists x. exact Hx.
Qed.

(** In today's summary, "Apps Used" is the number of groups of the
    ranking and every group counts at least one row. The counts of the
    groups add up to the active rows that have an app name: to the
    active minutes when no name is missing, to less otherwise, so "Apps
    Used" never exceeds the active minutes. The "Most Used Apps" list is
    printed exactly when the active time is not zero; it has as many
    entries as there are apps, five at most, and when [sort_values]
    sorts, no app left out of it has more rows than an app in it.
    [sort_values] may be any function that permutes its input. *)
Theorem today_numbers_agree
        (sort_values_desc : forall A : Type, (A -> nat) -> list A -> list A)
        (df : Pandas.Frame) (today : Z) :
  (forall A key l, Permutation (sort_values_desc A key l) l) ->
  let today_data := filter (Cli.on_day today) df in
  let act := filter Cli.active today_data in
  let groups := Cli.groupby_size act in
  let missing := filter (fun r => negb (named r)) act in
  let top := Cli.top_apps sort_values_desc 5 today_data in
  (today_data <> [] ->
   Cli.today_summary sort_values_desc ([], Some df) today
   = Call_load_data
     :: Print (TodaySummary today (Cli.active_sum today_data)
                            (Cli.unique_apps_of today_data))
     :: (if (0 <? Cli.active_sum today_data)%nat
         then [Print (MostUsedApps top)]
         else []))
  /\ Cli.unique_apps_of today_data = List.length groups
  /\ (list_sum (map snd groups) + List.length missing
      = Cli.active_sum today_data)%nat
  /\ (forall e, In e groups -> (0 < snd e)%nat)
  /\ List.length top = Nat.min 5 (Cli.unique_apps_of today_data)
  /\ (Cli.unique_apps_of today_data <= Cli.active_sum today_data)%nat
  /\ ((forall A key l, StronglySorted (desc key) (sort_values_desc A key l)) ->
      forall r, In r act -> Pandas.isna (app_name r) = false ->
                ~ In (app_name r) (map fst top) ->
                forall a c, In (a, c) top ->
                            (Cli.count_app (app_name r) act <= c)%nat).
Proof.
  intros Hperm today_data act groups missing top.
  assert (Cli.unique_apps_of today_data = List.length groups) as Hu
      by apply unique_apps_groups.
  assert (forall e, In e groups -> (0 < snd e)%nat) as Hpos.
  { intros [a c] He. apply groupby_size_In in He. destruct He as [Ha ->].
    apply app_keys_In in Ha. destruct Ha as [[r [Hr <-]] _].
    cbn [snd]. apply count_app_pos, Hr. }
  split; [|split; [exact Hu | split; [|split; [exact Hpos | split; [|split]]]]].
  - intros Hne. unfold Cli.today_summary. cbn [fst snd map app].
    fold today_data. fold top.
    destruct today_data as [|r rest] eqn:E; [contradiction|].
    cbn [Pandas.empty]. do 2 f_equal.
    destruct (Cli.any_active (r :: rest)) eqn:Ea.
    + apply any_active_iff in Ea. apply Nat.ltb_lt in Ea. rewrite Ea. reflexivity.
    + destruct (0 <? Cli.active_sum (r :: rest))%nat eqn:El; [|reflexivity].
      apply Nat.ltb_lt, any_active_iff in El. congruence.
  - unfold groups. rewrite groupby_size_sum.
    unfold Cli.active_sum. fold act. apply filter_split_length.
  - unfold top, Cli.top_apps. rewrite length_firstn.
    rewrite (Permutation_length (Hperm _ _ _)). fold act. fold groups.
    rewrite Hu. reflexivity.
  - apply unique_apps_le_active.
  - intros Hsorted.
    apply (top_apps_spec sort_values_desc 5 today_data Hperm Hsorted).
Qed.

Lemma today_numbers_agree_witness :
  let df := [mkRow (Clock.mk_datetime 2024 1 1 9 0 0 0) 0 "Code.exe" "a";
             mkRow (Clock.mk_datetime 2024 1 1 9 1 0 0) 0 "" "";
             mkRow (Clock.mk_datetime 2024 1 1 9 2 0 0) 400 "Idle" "System Idle"] in
  Cli.today_summary (@Pandas.sorted_desc) ([], Some df) (Clock.ymd2ord 2024 1 1)
  = [Call_load_data; Print (TodaySummary (Clock.ymd2ord 2024 1 1) 2 1);
     Print (MostUsedApps [("Code.exe", 1%nat)])].
Proof.
  intros df.
  refine (eq_trans
            (proj1 (today_numbers_agree (@Pandas.sorted_desc) df
                                        (Clock.ymd2ord 2024 1 1) _) _)
            _).
  - intros A key l. apply sorted_desc_perm.
  - vm_compute. discriminate.
  - vm_compute. reflexivity.
Defined.

(** ** The day count of [custom_date_range] *)

Lemma delta_days_midnights d1 d2 :
  Clock.delta_days (Clock.midnight (d2 + 1)) (Clock.midnight d1) = d2 - d1 + 1.
Proof.
  unfold Clock.delta_days, Clock.midnight.
  replace ((d2 + 1) * Clock.us_per_day - d1 * Clock.us_per_day)
    with ((d2 - d1 + 1) * Clock.us_per_day) by lia.
  apply Z.div_mul. pose proof Clock.us_per_day_pos. lia.
Qed.

(** Whenever [custom_date_range] prints its analysis, the start date is
    not after the end date and "Days Analyzed" is the number of days from
    the one to the other, both counted: it is at least 1, so the daily
    average is never replaced by 0. The number of apps is at most the
    number of active minutes. *)
Theorem custom_range_counts_both_days
        (sort_values_desc : forall A : Type, (A -> nat) -> list A -> list A)
        start_date end_date (df : Pandas.Frame)
        (total_minutes unique_apps : nat) (days_span : Z) :
  In (Print (Analysis start_date end_date total_minutes unique_apps days_span))
     (Cli.custom_date_range sort_values_desc start_date end_date ([], Some df)) ->
  exists d1 d2,
    Cli.strptime_ymd start_date = Some d1
    /\ Cli.strptime_ymd end_date = Some d2
    /\ d1 <= d2
    /\ days_span = d2 - d1 + 1
    /\ 1 <= days_span
    /\ (unique_apps <= total_minutes)%nat.
Proof.
  unfold Cli.custom_date_range.
  destruct (Cli.strptime_ymd start_date) as [d1|];
    [|intros [H|[]]; discriminate H].
  destruct (Cli.strptime_ymd end_date) as [d2|];
    [|intros [H|[]]; discriminate H].
  destruct (Cli.MAXORDINAL <=? d2); [intros [H|[]]; discriminate H|].
  cbn [fst snd map app]. rewrite add_day_midnight.
  set (filtered := filter _ df). unfold Cli.range_report.
  intros [H|H]; [discriminate H|].
  destruct filtered as [|r rest] eqn:E; cbn [Pandas.empty] in H.
  - destruct H as [H|[]]. discriminate H.
  - assert (d1 <= d2) as Hle.
    { assert (In r filtered) as Hr by (rewrite E; left; reflexivity).
      unfold filtered in Hr. apply filter_In in Hr. destruct Hr as [_ Hr].
      apply in_range_spec, between_midnights in Hr. lia. }
    destruct H as [H|H].
    + injection H as <- <- <-. exists d1, d2.
      rewrite delta_days_midnights. repeat split; try lia.
      apply unique_apps_le_active.
    + destruct (Cli.any_active (r :: rest)); [|destruct H].
      destruct H as [H|[]]. discriminate H.
Qed.

Lemma custom_range_counts_both_days_witness :
  exists d1 d2,
    Cli.strptime_ymd "2024-01-01" = Some d1
    /\ Cli.strptime_ymd "2024-01-03" = Some d2
    /\ d1 <= d2 /\ 3 = d2 - d1 + 1 /\ 1 <= 3 /\ (1 <= 2)%nat.
Proof.
  apply (custom_range_counts_both_days
           (@Pandas.sorted_desc) "2024-01-01" "2024-01-03"
           [mkRow (Clock.mk_datetime 2024 1 1 9 0 0 0) 0 "Code.exe" "a";
            mkRow (Clock.mk_datetime 2024 1 3 9 0 0 0) 0 "Code.exe" "a"]
           2 1 3).
  vm_compute. right. left. reflexivity.
Defined.

(** ** What [load_data] reports *)

(** [load_data] never fails in silence and never complains when it
    succeeds: it prints one message exactly when it returns [None], and
    none otherwise. A missing file gives "No data found". A data set that
    is returned is what the parser made of the bytes read as UTF-8, or as
    latin-1 when the bytes are not UTF-8: cp1252 and utf-8-sig are never
    used. *)
Theorem load_data_message_or_data
        (parse_frame : Codec.Encoding -> list N -> option Pandas.Frame)
        (file : option (list byte)) :
  let msgs := fst (Loader.load_data parse_frame file) in
  let df := snd (Loader.load_data parse_frame file) in
  (df = None <-> msgs <> [])
  /\ (List.length msgs <= 1)%nat
  /\ (file = None -> msgs = [NoDataFound])
  /\ (forall frame,
         df = Some frame ->
         exists bs,
           file = Some bs
           /\ ((exists text, Codec.decode Codec.utf_8 bs = Some text
                             /\ parse_frame Codec.utf_8 text = Some frame)
               \/ (exists text, Codec.decode Codec.utf_8 bs = None
                                /\ Codec.decode Codec.latin_1 bs = Some text
                                /\ parse_frame Codec.latin_1 text = Some frame))).
Proof.
  intros msgs df. subst msgs df. destruct file as [bs|]; cbn [Loader.load_data].
  - rewrite try_encodings_first_two.
    destruct (latin_1_total bs) as [tl Hl]. rewrite Hl.
    destruct (Codec.decode Codec.utf_8 bs) as [t|] eqn:Hu.
    + destruct (parse_frame Codec.utf_8 t) as [f|] eqn:Hp; cbn.
      * repeat split; try discriminate; try lia; try congruence.
        intros frame [= <-]. exists bs. split; [reflexivity|].
        left. exists t. auto.
      * repeat split; try discriminate; try lia; try congruence.
    + destruct (parse_frame Codec.latin_1 tl) as [f|] eqn:Hp; cbn.
      * repeat split; try discriminate; try lia; try congruence.
        intros frame [= <-]. exists bs. split; [reflexivity|].
        right. exists tl. auto.
      * repeat split; try discriminate; try lia; try congruence.
  - cbn. repeat split; try discriminate; try lia; try congruence.
Qed.

Lemma load_data_message_or_data_witness :
  fst (Loader.load_data (fun _ _ => Some []) None) = [NoDataFound].
Proof.
  apply (load_data_message_or_data (fun _ _ => Some []) None).
  reflexivity.
Defined.

(** ** Writing and reading UTF-8 *)

Module Utf8Writer.

(** The byte of value [n], for [n] below 256. *)
Definition byte_of (n : N) : byte :=
  match Byte.of_N n with
  | Some b => b
  | None => x00
  end.

(** The UTF-8 form of one code point, as [open(..., encoding='utf-8')]
    writes it; [None] stands for [UnicodeEncodeError] (a surrogate, or
    no code point at all). *)
Definition encode_char (cp : N) : option (list byte) :=
  if (cp <? 128)%N then Some [byte_of cp]
  else if (cp <? 2048)%N then
    Some [byte_of (192 + cp / 64); byte_of (128 + cp mod 64)]
  else if (cp <? 65536)%N then
    if ((55296 <=? cp) && (cp <=? 57343))%N then None
    else Some [byte_of (224 + cp / 4096);
               byte_of (128 + (cp / 64) mod 64);
               byte_of (128 + cp mod 64)]
  else if (cp <=? 1114111)%N then
    Some [byte_of (240 + cp / 262144);
          byte_of (128 + (cp / 4096) mod 64);
          byte_of (128 + (cp / 64) mod 64);
          byte_of (128 + cp mod 64)]
  else None.

Fixpoint encode (text : list N) : option (list byte) :=
  match text with
  | [] => Some []
  | cp :: rest =>
      match encode_char cp, encode rest with
      | Some bs, Some more => Some (bs ++ more)%list
      | _, _ => None
      end
  end.

End Utf8Writer.

Lemma to_N_byte_of n : (n < 256)%N -> Byte.to_N (Utf8Writer.byte_of n) = n.
Proof.
  intros H. unfold Utf8Writer.byte_of.
  pose proof (Byte.to_of_N_option_map n) as E.
  assert ((n <=? 255)%N = true) as Hle by (apply N.leb_le; lia).
  rewrite Hle in E. destruct (Byte.of_N n); cbn in E; congruence.
Qed.

Lemma utf8_decode_cons b0 r0 :
  Codec.utf8_decode (b0 :: r0)
  = let n0 := Byte.to_N b0 in
    if (n0 <? 128)%N then option_map (cons n0) (Codec.utf8_decode r0)
    else if ((194 <=? n0) && (n0 <? 224))%N then
      match r0 with
      | b1 :: r1 =>
          match Codec.continuation b1 with
          | Some c1 =>
              option_map (cons ((n0 - 192) * 64 + c1)%N) (Codec.utf8_decode r1)
          | None => None
          end
      | _ => None
      end
    else if ((224 <=? n0) && (n0 <? 240))%N then
      match r0 with
      | b1 :: b2 :: r2 =>
          match Codec.continuation b1, Codec.continuation b2 with
          | Some c1, Some c2 =>
              let cp := (((n0 - 224) * 64 + c1) * 64 + c2)%N in
              if ((2048 <=? cp) && negb ((55296 <=? cp) && (cp <=? 57343)))%N
              then option_map (cons cp) (Codec.utf8_decode r2)
              else None
          | _, _ => None
          end
      | _ => None
      end
    else if ((240 <=? n0) && (n0 <? 245))%N then
      match r0 with
      | b1 :: b2 :: b3 :: r3 =>
          match Codec.continuation b1, Codec.continuation b2,
                Codec.continuation b3 with
          | Some c1, Some c2, Some c3 =>
              let cp := ((((n0 - 240) * 64 + c1) * 64 + c2) * 64 + c3)%N in
              if ((65536 <=? cp) && (cp <=? 1114111))%N
              then option_map (cons cp) (Codec.utf8_decode r3)
              else None
          | _, _, _ => None
          end
      | _ => None
      end
    else None.
Proof. reflexivity. Qed.

Lemma continuation_byte_of x :
  (x < 64)%N -> Codec.continuation (Utf8Writer.byte_of (128 + x)) = Some x.
Proof.
  intros H. unfold Codec.continuation. rewrite to_N_byte_of by lia.
  assert (((128 <=? 128 + x) && (128 + x <? 192))%N = true) as ->.
  { apply andb_true_iff. split; [apply N.leb_le | apply N.ltb_lt]; lia. }
  f_equal. lia.
Qed.

Ltac decide_tests :=
  repeat match goal with
         | |- context [(?a <? ?b)%N] =>
             first [ assert ((a <? b)%N = true) as -> by (apply N.ltb_lt; lia)
                   | assert ((a <? b)%N = false) as -> by (apply N.ltb_ge; lia) ]
         | |- context [(?a <=? ?b)%N] =>
             first [ assert ((a <=? b)%N = true) as -> by (apply N.leb_le; lia)
                   | assert ((a <=? b)%N = false) as -> by (apply N.leb_gt; lia) ]
         end.

Lemma some_inj {A : Type} (a b : A) : Some a = Some b -> a = b.
Proof. congruence. Qed.

Lemma decode_encode_char cp bs rest :
  Utf8Writer.encode_char cp = Some bs ->
  Codec.utf8_decode (bs ++ rest)
  = option_map (cons cp) (Codec.utf8_decode rest).
Proof.
  unfold Utf8Writer.encode_char.
  pose proof (N.div_mod cp 64 ltac:(lia)) as D64.
  pose proof (N.mod_lt cp 64 ltac:(lia)) as M64.
  pose proof (N.div_mod (cp / 64) 64 ltac:(lia)) as D4096.
  pose proof (N.mod_lt (cp / 64) 64 ltac:(lia)) as M4096.
  pose proof (N.div_mod (cp / 64 / 64) 64 ltac:(lia)) as D262144.
  pose proof (N.mod_lt (cp / 64 / 64) 64 ltac:(lia)) as M262144.
  assert (cp / 4096 = cp / 64 / 64)%N as E4096
      by (rewrite N.Div0.div_div; reflexivity).
  assert (cp / 262144 = cp / 64 / 64 / 64)%N as E262144
      by (rewrite !N.Div0.div_div; reflexivity).
  rewrite E4096, E262144. clear E4096 E262144.
  set (q1 := (cp / 64)%N) in *. set (r1 := (cp mod 64)%N) in *.
  set (q2 := (q1 / 64)%N) in *. set (r2 := (q1 mod 64)%N) in *.
  set (q3 := (q2 / 64)%N) in *. set (r3 := (q2 mod 64)%N) in *.
  clearbody q3 r3. clearbody q2 r2. clearbody q1 r1.
  destruct (cp <? 128)%N eqn:T1.
  { intros E. apply some_inj in E. subst bs. apply N.ltb_lt in T1. cbn [app].
    rewrite utf8_decode_cons. cbv zeta. rewrite to_N_byte_of by lia.
    decide_tests. reflexivity. }
  apply N.ltb_ge in T1.
  destruct (cp <? 2048)%N eqn:T2.
  { intros E. apply some_inj in E. subst bs. apply N.ltb_lt in T2. cbn [app].
    rewrite utf8_decode_cons. cbv zeta. rewrite to_N_byte_of by lia.
    rewrite continuation_byte_of by lia.
    decide_tests. cbn [andb]. do 2 f_equal. lia. }
  apply N.ltb_ge in T2.
  destruct (cp <? 65536)%N eqn:T3.
  { apply N.ltb_lt in T3.
    destruct ((55296 <=? cp) && (cp <=? 57343))%N eqn:Ts; [discriminate|].
    intros E. apply some_inj in E. subst bs. cbn [app].
    rewrite utf8_decode_cons. cbv zeta. rewrite to_N_byte_of by lia.
    rewrite !continuation_byte_of by lia.
    assert ((((224 + q2 - 224) * 64 + r2) * 64 + r1)%N = cp) as -> by lia.
    rewrite Ts. decide_tests. reflexivity. }
  apply N.ltb_ge in T3.
  destruct (cp <=? 1114111)%N eqn:T4; [|discriminate].
  apply N.leb_le in T4. intros E. apply some_inj in E. subst bs. cbn [app].
  rewrite utf8_decode_cons. cbv zeta. rewrite to_N_byte_of by lia.
  rewrite !continuation_byte_of by lia.
  assert (((((240 + q3 - 240) * 64 + r3) * 64 + r2) * 64 + r1)%N = cp)
    as -> by lia.
  decide_tests. reflexivity.
Qed.

(** The log written by a tracker as UTF-8 is read back by [load_data]
    at its first attempt, as the text that was written: the frame is
    the one the parser makes of that text under utf-8, and an objection
    of the parser ends the loading with the error message. No other
    encoding is tried. *)
Theorem written_utf8_is_read_back
        (parse_frame : Codec.Encoding -> list N -> option Pandas.Frame)
        (text : list N) (bs : list byte) :
  Utf8Writer.encode text = Some bs ->
  Codec.decode Codec.utf_8 bs = Some text
  /\ Loader.load_data parse_frame (Some bs)
     = match parse_frame Codec.utf_8 text with
       | Some df => ([], Some df)
       | None => ([ErrorLoadingData], None)
       end.
Proof.
  intros Henc.
  assert (Codec.utf8_decode bs = Some text) as Hdec.
  { revert bs Henc. induction text as [|cp text IH]; intros bs Henc.
    - cbn in Henc. apply some_inj in Henc. subst bs. reflexivity.
    - cbn [Utf8Writer.encode] in Henc.
      destruct (Utf8Writer.encode_char cp) as [cs|] eqn:Ec; [|discriminate].
      destruct (Utf8Writer.encode text) as [more|]; [|discriminate].
      apply some_inj in Henc. subst bs.
      rewrite (decode_encode_char cp cs more Ec), (IH more eq_refl).
      reflexivity. }
  split; [exact Hdec|].
  unfold Loader.load_data. rewrite try_encodings_first_two.
  cbn [Codec.decode]. rewrite Hdec.
  destruct (parse_frame Codec.utf_8 text); reflexivity.
Qed.

Lemma written_utf8_is_read_back_witness :
  let text := [65; 233; 8364; 128512; 10]%N in
  exists bs,
    Utf8Writer.encode text = Some bs
    /\ List.length bs = 11%nat
    /\ Codec.decode Codec.utf_8 bs = Some text
    /\ Loader.load_data (fun _ _ => Some []) (Some bs) = ([], Some []).
Proof.
  intros text.
  destruct (Utf8Writer.encode text) as [bs|] eqn:E; [|discriminate].
  exists bs. split; [reflexivity|].
  split; [vm_compute in E; apply some_inj in E; subst bs; reflexivity|].
  exact (written_utf8_is_read_back (fun _ _ => Some []) text bs E).
Defined.

(** ** The loader without pandas of [screentime_standalone.py] *)

Module SimpleLoader.

Definition expect_colon (s : string) : option string :=
  match s with
  | String c rest => if Cli.is_char c ":" then Some rest else None
  | EmptyString => None
  end.

(** [\s+]: white space, at least one character, as much as there is. *)
Definition match_spaces (s : string) : option string :=
  match s with
  | String c rest => if PyStr.is_space c then Some (PyStr.lstrip rest) else None
  | EmptyString => None
  end.

(** [2[0-3]|[0-1]\d|\d] *)
Definition match_hour (s : string) : option (Z * string) :=
  match s with
  | EmptyString => None
  | String a r1 =>
      let two :=
        match r1 with
        | EmptyString => None
        | String b r2 =>
            if Cli.is_char a "2" then
              option_map (fun y => (20 + y, r2)) (Cli.digit_between 0 3 b)
            else
              match Cli.digit_between 0 1 a with
              | Some x => option_map (fun y => (x * 10 + y, r2)) (Cli.digit b)
              | None => None
              end
        end in
      match two with
      | Some res => Some res
      | None => option_map (fun x => (x, r1)) (Cli.digit a)
      end
  end.

(** [[0-5]\d|\d] *)
Definition match_minute (s : string) : option (Z * string) :=
  match s with
  | EmptyString => None
  | String a r1 =>
      let two :=
        match r1 with
        | EmptyString => None
        | String b r2 =>
            match Cli.digit_between 0 5 a with
            | Some x => option_map (fun y => (x * 10 + y, r2)) (Cli.digit b)
            | None => None
            end
        end in
      match two with
      | Some res => Some res
      | None => option_map (fun x => (x, r1)) (Cli.digit a)
      end
  end.

(** [6[0-1]|[0-5]\d|\d] *)
Definition match_second (s : string) : option (Z * string) :=
  match s with
  | EmptyString => None
  | String a r1 =>
      let two :=
        match r1 with
        | EmptyString => None
        | String b r2 =>
            if Cli.is_char a "6" then
              option_map (fun y => (60 + y, r2)) (Cli.digit_between 0 1 b)
            else
              match Cli.digit_between 0 5 a with
              | Some x => option_map (fun y => (x * 10 + y, r2)) (Cli.digit b)
              | None => None
              end
        end in
      match two with
      | Some res => Some res
      | None => option_map (fun x => (x, r1)) (Cli.digit a)
      end
  end.

(** [datetime.strptime(s, "%Y-%m-%d %H:%M:%S")]: the pattern has to
    match at the start of [s], nothing may remain, the date must exist
    and the second must be below 60. [None] stands for [ValueError]. *)
Definition strptime (s : string) : option Z :=
  match Cli.match_year s with
  | None => None
  | Some (y, s1) =>
  match Cli.expect_dash s1 with
  | None => None
  | Some s2 =>
  match Cli.match_month s2 with
  | None => None
  | Some (m, s3) =>
  match Cli.expect_dash s3 with
  | None => None
  | Some s4 =>
  match Cli.match_day s4 with
  | None => None
  | Some (d, s5) =>
  match match_spaces s5 with
  | None => None
  | Some s6 =>
  match match_hour s6 with
  | None => None
  | Some (h, s7) =>
  match expect_colon s7 with
  | None => None
  | Some s8 =>
  match match_minute s8 with
  | None => None
  | Some (mi, s9) =>
  match expect_colon s9 with
  | None => None
  | Some s10 =>
  match match_second s10 with
  | None => None
  | Some (sec, s11) =>
      if String.eqb s11 "" && (1 <=? y) && (d <=? Clock.days_in_month y m)
         && (sec <=? 59)
      then Some (Clock.mk_datetime y m d h mi sec 0)
      else None
  end end end end end end end end end end end.

(** A row as [csv.DictReader] yields it: a field is [None] when the
    line is too short or the header has no such column. *)
Record RawRow : Type := mkRawRow {
  raw_timestamp : option string;
  raw_idle_seconds : option string;
  raw_app_name : option string;
  raw_window_title : option string
}.

(** A row of the list that [load_data_simple] returns. *)
Record Entry : Type := mkEntry {
  entry_timestamp : Z;
  entry_idle_seconds : Z;
  entry_app_name : option string;
  entry_window_title : option string
}.

(** The two conversions of the loop body; [None] when one raises. *)
Definition convert (r : RawRow) : option Entry :=
  match raw_timestamp r with
  | None => None
  | Some ts =>
      match strptime ts with
      | None => None
      | Some t =>
          match raw_idle_seconds r with
          | None => None
          | Some i =>
              match PyStr.int i with
              | None => None
              | Some n =>
                  Some (mkEntry t n (raw_app_name r) (raw_window_title r))
              end
          end
      end
  end.

(** What iterating over the reader gives: a row, or an exception
    ([open] failing, bytes that are not UTF-8, [csv.Error]). *)
Inductive Item : Type :=
| Yield (r : RawRow)
| Raise.

(** The loop: the rows converted so far, and whether the handler
    printed ["Error loading data: ..."]. *)
Fixpoint read_rows (items : list Item) : list Entry * bool :=
  match items with
  | [] => ([], false)
  | Raise :: _ => ([], true)
  | Yield r :: rest =>
      match convert r with
      | None => ([], true)
      | Some e => let (data, failed) := read_rows rest in (e :: data, failed)
      end
  end.

(** [file] is [None] when the log does not exist. *)
Definition load_data_simple (file : option (list Item)) : list Entry * bool :=
  match file with
  | None => ([], false)
  | Some items => read_rows items
  end.

(** *** What the tracker writes *)

Definition digit_char (d : Z) : ascii := ascii_of_N (48 + Z.to_N d).

Definition two_digits (n : Z) : string :=
  String (digit_char (n / 10)) (String (digit_char (n mod 10)) "").

Definition four_digits (n : Z) : string :=
  String (digit_char (n / 1000))
    (String (digit_char (n / 100 mod 10)) (two_digits (n mod 100))).

(** [datetime(y, m, d, h, mi, s, us).strftime("%Y-%m-%d %H:%M:%S")] for
    a year of four digits. *)
Definition strftime (y m d h mi s : Z) : string :=
  four_digits y ++ "-" ++ two_digits m ++ "-" ++ two_digits d ++ " "
  ++ two_digits h ++ ":" ++ two_digits mi ++ ":" ++ two_digits s.

Fixpoint digits_of (fuel : nat) (n : Z) (acc : string) : string :=
  match fuel with
  | O => acc
  | S fuel' =>
      let acc' := String (digit_char (n mod 10)) acc in
      if n <? 10 then acc' else digits_of fuel' (n / 10) acc'
  end.

(** [str(n)] of an [int], as [csv.writer] writes the field. *)
Definition str (n : Z) : string :=
  if n <? 0
  then String "-" (digits_of (S (Z.to_nat (Z.log2 (- n)))) (- n) "")
  else digits_of (S (Z.to_nat (Z.log2 n))) n "".

End SimpleLoader.

Lemma read_rows_good rows entries rest :
  map SimpleLoader.convert rows = map Some entries ->
  SimpleLoader.read_rows (map SimpleLoader.Yield rows ++ rest)%list
  = ((entries ++ fst (SimpleLoader.read_rows rest))%list,
     snd (SimpleLoader.read_rows rest)).
Proof.
  revert entries. induction rows as [|r rows IH]; intros entries H.
  - destruct entries; [|discriminate]. cbn [map app].
    destruct (SimpleLoader.read_rows rest); reflexivity.
  - destruct entries as [|e entries]; [discriminate|].
    cbn [map] in H. injection H as He Hrest.
    cbn [map app SimpleLoader.read_rows]. rewrite He, (IH entries Hrest).
    reflexivity.
Qed.

(** [load_data_simple] returns the rows that precede the first row it
    cannot convert (or the first exception of the reader), converted and
    in order, and prints the error message; whatever follows that row in
    the log is not loaded, good or not. When every row converts, all of
    them are returned and nothing is printed. *)
Theorem simple_loader_stops_at_first_bad_row
        (good : list SimpleLoader.RawRow) (entries : list SimpleLoader.Entry)
        (bad : SimpleLoader.RawRow) (rest : list SimpleLoader.Item) :
  map SimpleLoader.convert good = map Some entries ->
  SimpleLoader.convert bad = None ->
  SimpleLoader.load_data_simple
    (Some (map SimpleLoader.Yield good ++ SimpleLoader.Yield bad :: rest)%list)
  = (entries, true)
  /\ SimpleLoader.load_data_simple
       (Some (map SimpleLoader.Yield good ++ SimpleLoader.Raise :: rest)%list)
     = (entries, true)
  /\ SimpleLoader.load_data_simple (Some (map SimpleLoader.Yield good))
     = (entries, false).
Proof.
  intros Hgood Hbad. unfold SimpleLoader.load_data_simple.
  split; [|split].
  - rewrite (read_rows_good good entries _ Hgood).
    cbn [SimpleLoader.read_rows]. rewrite Hbad. cbn [fst snd].
    rewrite app_nil_r. reflexivity.
  - rewrite (read_rows_good good entries _ Hgood).
    cbn [SimpleLoader.read_rows fst snd]. rewrite app_nil_r. reflexivity.
  - rewrite <- (app_nil_r (map SimpleLoader.Yield good)).
    rewrite (read_rows_good good entries _ Hgood).
    cbn [SimpleLoader.read_rows fst snd]. rewrite app_nil_r. reflexivity.
Qed.

Lemma simple_loader_stops_at_first_bad_row_witness :
  let row ts idle app :=
    SimpleLoader.mkRawRow (Some ts) (Some idle) (Some app) (Some "w") in
  let good := [row "2024-01-05 07:05:09" "12" "Code.exe"] in
  let bad := row "2024-01-05 07:05:14" "12.5" "Code.exe" in
  let later := [SimpleLoader.Yield (row "2024-01-05 07:05:19" "3" "chrome.exe")] in
  SimpleLoader.convert bad = None
  /\ SimpleLoader.load_data_simple
       (Some (map SimpleLoader.Yield good ++ SimpleLoader.Yield bad :: later)%list)
     = ([SimpleLoader.mkEntry
           (Clock.mk_datetime 2024 1 5 7 5 9 0) 12 (Some "Code.exe") (Some "w")],
        true).
Proof.
  intros row good bad later.
  split; [reflexivity|].
  refine (proj1 (simple_loader_stops_at_first_bad_row good _ bad later _ _));
    reflexivity.
Defined.

(** *** Reading back what the tracker wrote *)

Lemma below_cases (P : Z -> Prop) (k : nat) :
  (forall i, (i < k)%nat -> P (Z.of_nat i)) ->
  forall n, 0 <= n < Z.of_nat k -> P n.
Proof.
  intros H n Hn. rewrite <- (Z2Nat.id n) by lia. apply H. lia.
Qed.

Ltac below_step i :=
  destruct i as [|i];
  [first [reflexivity | intros; lia | intros; reflexivity | split; reflexivity]|].

Tactic Notation "each_below" integer(k) :=
  let i := fresh "i" in
  let Hi := fresh "Hi" in
  intros i Hi; do k (below_step i); exfalso; lia.

Lemma digit_of_char k :
  0 <= k < 10 -> Cli.digit (SimpleLoader.digit_char k) = Some k.
Proof.
  revert k. apply (below_cases _ 10). each_below 10.
Qed.

Lemma match_year_written y rest :
  1000 <= y <= 9999 ->
  Cli.match_year (SimpleLoader.four_digits y ++ rest) = Some (y, rest).
Proof.
  intros Hy. unfold SimpleLoader.four_digits, SimpleLoader.two_digits.
  cbn [append]. unfold Cli.match_year.
  rewrite !digit_of_char by (Z.to_euclidean_division_equations; lia).
  do 2 f_equal. Z.to_euclidean_division_equations; lia.
Qed.

Lemma match_month_written m rest :
  1 <= m <= 12 ->
  Cli.match_month (SimpleLoader.two_digits m ++ rest) = Some (m, rest).
Proof.
  intros Hm. assert (0 <= m < 13) as Hr by lia. revert m Hr rest Hm.
  apply (below_cases (fun m => forall rest, 1 <= m <= 12 -> _) 13).
  each_below 13.
Qed.

Lemma match_day_written d rest :
  1 <= d <= 31 ->
  Cli.match_day (SimpleLoader.two_digits d ++ rest) = Some (d, rest).
Proof.
  intros Hd. assert (0 <= d < 32) as Hr by lia. revert d Hr rest Hd.
  apply (below_cases (fun d => forall rest, 1 <= d <= 31 -> _) 32).
  each_below 32.
Qed.

Lemma match_spaces_written h rest :
  0 <= h < 24 ->
  SimpleLoader.match_spaces (" " ++ SimpleLoader.two_digits h ++ rest)
  = Some (SimpleLoader.two_digits h ++ rest).
Proof.
  intros Hh. revert h Hh rest.
  apply (below_cases (fun h => forall rest, _) 24). each_below 24.
Qed.

Lemma match_hour_written h rest :
  0 <= h < 24 ->
  SimpleLoader.match_hour (SimpleLoader.two_digits h ++ rest) = Some (h, rest).
Proof.
  intros Hh. revert h Hh rest.
  apply (below_cases (fun h => forall rest, _) 24). each_below 24.
Qed.

Lemma match_minute_written n rest :
  0 <= n < 60 ->
  SimpleLoader.match_minute (SimpleLoader.two_digits n ++ rest) = Some (n, rest).
Proof.
  intros Hn. revert n Hn rest.
  apply (below_cases (fun n => forall rest, _) 60). each_below 60.
Qed.

Lemma match_second_written n rest :
  0 <= n < 60 ->
  SimpleLoader.match_second (SimpleLoader.two_digits n ++ rest) = Some (n, rest).
Proof.
  intros Hn. revert n Hn rest.
  apply (below_cases (fun n => forall rest, _) 60). each_below 60.
Qed.

Lemma append_empty (s : string) : s ++ "" = s.
Proof. induction s as [|c s IH]; [reflexivity | cbn [append]; rewrite IH; reflexivity]. Qed.

Lemma expect_dash_written rest : Cli.expect_dash ("-" ++ rest) = Some rest.
Proof. reflexivity. Qed.

Lemma expect_colon_written rest :
  SimpleLoader.expect_colon (":" ++ rest) = Some rest.
Proof. reflexivity. Qed.

Lemma strptime_strftime y m d h mi s :
  1000 <= y <= 9999 -> 1 <= m <= 12 -> 1 <= d <= Clock.days_in_month y m ->
  0 <= h < 24 -> 0 <= mi < 60 -> 0 <= s < 60 ->
  SimpleLoader.strptime (SimpleLoader.strftime y m d h mi s)
  = Some (Clock.mk_datetime y m d h mi s 0).
Proof.
  intros Hy Hm Hd Hh Hmi Hs.
  assert (Clock.days_in_month y m <= 31) as Hdim.
  { unfold Clock.days_in_month.
    repeat match goal with |- context [if ?c then _ else _] => destruct c end;
      lia. }
  unfold SimpleLoader.strptime, SimpleLoader.strftime.
  rewrite match_year_written by exact Hy.
  rewrite expect_dash_written.
  rewrite match_month_written by exact Hm.
  rewrite expect_dash_written.
  rewrite match_day_written by lia.
  rewrite match_spaces_written by exact Hh.
  rewrite match_hour_written by exact Hh.
  rewrite expect_colon_written.
  rewrite match_minute_written by exact Hmi.
  rewrite expect_colon_written.
  rewrite <- (append_empty (SimpleLoader.two_digits s)).
  rewrite match_second_written by exact Hs.
  assert ((1 <=? y) = true) as -> by (apply Z.leb_le; lia).
  assert ((d <=? Clock.days_in_month y m) = true) as -> by (apply Z.leb_le; lia).
  assert ((s <=? 59) = true) as -> by (apply Z.leb_le; lia).
  reflexivity.
Qed.

(** The value [int_digits] has reached after reading the digits of [n]
    behind the value [a]. *)
Fixpoint shift (fuel : nat) (a n : Z) : Z :=
  match fuel with
  | O => a
  | S fuel' =>
      if n <? 10 then a * 10 + n else shift fuel' a (n / 10) * 10 + n mod 10
  end.

Lemma int_digits_char k s a b :
  0 <= k < 10 ->
  PyStr.int_digits (String (SimpleLoader.digit_char k) s) a b
  = PyStr.int_digits s (a * 10 + k) true.
Proof.
  intros Hk. cbn [PyStr.int_digits]. rewrite (digit_of_char k Hk). reflexivity.
Qed.

Lemma int_digits_of fuel : forall n acc a b,
  0 <= n ->
  PyStr.int_digits (SimpleLoader.digits_of (S fuel) n acc) a b
  = PyStr.int_digits acc (shift (S fuel) a n) true.
Proof.
  induction fuel as [|fuel IH]; intros n acc a b Hn.
  - cbn [SimpleLoader.digits_of shift].
    destruct (n <? 10) eqn:E.
    + apply Z.ltb_lt in E. rewrite Z.mod_small by lia.
      apply int_digits_char. lia.
    + rewrite int_digits_char by (Z.to_euclidean_division_equations; lia).
      reflexivity.
  - change (SimpleLoader.digits_of (S (S fuel)) n acc)
      with (let acc' := String (SimpleLoader.digit_char (n mod 10)) acc in
            if n <? 10 then acc'
            else SimpleLoader.digits_of (S fuel) (n / 10) acc').
    change (shift (S (S fuel)) a n)
      with (if n <? 10 then a * 10 + n
            else shift (S fuel) a (n / 10) * 10 + n mod 10).
    cbv zeta. destruct (n <? 10) eqn:E.
    + apply Z.ltb_lt in E. rewrite Z.mod_small by lia.
      apply int_digits_char. lia.
    + rewrite IH by (Z.to_euclidean_division_equations; lia).
      apply int_digits_char. Z.to_euclidean_division_equations; lia.
Qed.

Lemma shift_value fuel : forall n,
  0 <= n < 2 ^ Z.of_nat (S fuel) -> shift (S fuel) 0 n = n.
Proof.
  induction fuel as [|fuel IH]; intros n Hn.
  - change (2 ^ Z.of_nat 1) with 2 in Hn. cbn [shift].
    assert ((n <? 10) = true) as -> by (apply Z.ltb_lt; lia). lia.
  - change (shift (S (S fuel)) 0 n)
      with (if n <? 10 then 0 * 10 + n
            else shift (S fuel) 0 (n / 10) * 10 + n mod 10).
    destruct (n <? 10) eqn:E; [lia|]. apply Z.ltb_ge in E.
    rewrite IH.
    + Z.to_euclidean_division_equations; lia.
    + rewrite (Nat2Z.inj_succ (S fuel)), Z.pow_succ_r in Hn by lia.
      Z.to_euclidean_division_equations; lia.
Qed.

Lemma digits_of_head fuel : forall n acc,
  0 <= n ->
  exists k r, 0 <= k < 10
              /\ SimpleLoader.digits_of (S fuel) n acc
                 = String (SimpleLoader.digit_char k) r.
Proof.
  induction fuel as [|fuel IH]; intros n acc Hn.
  - exists (n mod 10), acc. split; [Z.to_euclidean_division_equations; lia|].
    cbn [SimpleLoader.digits_of]. destruct (n <? 10); reflexivity.
  - change (SimpleLoader.digits_of (S (S fuel)) n acc)
      with (let acc' := String (SimpleLoader.digit_char (n mod 10)) acc in
            if n <? 10 then acc'
            else SimpleLoader.digits_of (S fuel) (n / 10) acc').
    cbv zeta. destruct (n <? 10).
    + exists (n mod 10), acc. split; [Z.to_euclidean_division_equations; lia|].
      reflexivity.
    + apply IH. Z.to_euclidean_division_equations; lia.
Qed.

(** Strings made of decimal digits only. *)
Fixpoint all_digits (s : string) : bool :=
  match s with
  | EmptyString => true
  | String c s' =>
      match Cli.digit c with
      | Some _ => all_digits s'
      | None => false
      end
  end.

Lemma digits_of_all_digits fuel : forall n acc,
  0 <= n -> all_digits acc = true ->
  all_digits (SimpleLoader.digits_of fuel n acc) = true.
Proof.
  induction fuel as [|fuel IH]; intros n acc Hn Hacc; [exact Hacc|].
  cbn [SimpleLoader.digits_of].
  assert (all_digits (String (SimpleLoader.digit_char (n mod 10)) acc) = true)
    as Hacc'.
  { cbn [all_digits].
    rewrite digit_of_char by (Z.to_euclidean_division_equations; lia).
    exact Hacc. }
  destruct (n <? 10); [exact Hacc'|].
  apply IH; [Z.to_euclidean_division_equations; lia | exact Hacc'].
Qed.

Lemma digit_not_space c x :
  Cli.digit c = Some x -> PyStr.is_int_space c = false.
Proof.
  unfold Cli.digit, Cli.digit_between, PyStr.is_int_space. cbv zeta.
  destruct ((48 + 0 <=? N_of_ascii c) && (N_of_ascii c <=? 48 + 9))%N eqn:E;
    [|discriminate].
  intros _. apply andb_true_iff in E. destruct E as [E1 E2].
  apply N.leb_le in E1, E2.
  repeat (apply orb_false_iff; split);
    first [ apply andb_false_iff; right; apply N.leb_gt; lia
          | apply N.eqb_neq; lia ].
Qed.

Lemma int_rstrip_digits s : all_digits s = true -> PyStr.int_rstrip s = s.
Proof.
  induction s as [|c s IH]; intros H; [reflexivity|].
  cbn [all_digits] in H. destruct (Cli.digit c) eqn:E; [|discriminate].
  cbn [PyStr.int_rstrip]. rewrite (digit_not_space c z E), (IH H).
  reflexivity.
Qed.

Lemma int_lstrip_digits s : all_digits s = true -> PyStr.int_lstrip s = s.
Proof.
  destruct s as [|c s]; intros H; [reflexivity|].
  cbn [all_digits] in H. destruct (Cli.digit c) eqn:E; [|discriminate].
  cbn [PyStr.int_lstrip]. rewrite (digit_not_space c z E). reflexivity.
Qed.

Lemma count_digits_length s : (PyStr.count_digits s <= String.length s)%nat.
Proof.
  induction s as [|c s IH]; [apply Nat.le_refl|].
  cbn [PyStr.count_digits String.length]. destruct (Cli.digit c); lia.
Qed.

Lemma digits_of_length fuel : forall n k acc,
  0 <= n < 10 ^ Z.of_nat (S k) ->
  (String.length (SimpleLoader.digits_of fuel n acc)
   <= S k + String.length acc)%nat.
Proof.
  induction fuel as [|fuel IH]; intros n k acc Hn.
  - cbn [SimpleLoader.digits_of]. lia.
  - cbn [SimpleLoader.digits_of]. destruct (n <? 10) eqn:E.
    + cbn [String.length]. lia.
    + apply Z.ltb_ge in E. destruct k as [|k].
      * change (10 ^ Z.of_nat 1) with 10 in Hn. lia.
      * rewrite (Nat2Z.inj_succ (S k)), Z.pow_succ_r in Hn by lia.
        specialize (IH (n / 10) k
                       (String (SimpleLoader.digit_char (n mod 10)) acc)).
        cbn [String.length] in IH.
        assert (0 <= n / 10 < 10 ^ Z.of_nat (S k)) as Hq
            by (Z.to_euclidean_division_equations; lia).
        specialize (IH Hq). lia.
Qed.

Lemma log2_fuel n : 0 <= n -> 0 <= n < 2 ^ Z.of_nat (S (Z.to_nat (Z.log2 n))).
Proof.
  intros Hn. split; [exact Hn|].
  rewrite Nat2Z.inj_succ, Z2Nat.id by apply Z.log2_nonneg.
  destruct (Z.eq_dec n 0) as [->|Hne]; [reflexivity|].
  apply Z.log2_spec. lia.
Qed.

Lemma int_of_digits n :
  0 <= n < 10 ^ 4300 ->
  let s := SimpleLoader.digits_of (S (Z.to_nat (Z.log2 n))) n "" in
  all_digits s = true
  /\ (PyStr.count_digits s <= 4300)%nat
  /\ PyStr.int_digits s 0 false = Some n.
Proof.
  intros Hn s. split; [|split].
  - apply digits_of_all_digits; [lia | reflexivity].
  - pose proof (count_digits_length s) as H1.
    pose proof (digits_of_length (S (Z.to_nat (Z.log2 n))) n 4299 "") as H2.
    change (Z.of_nat 4300) with 4300 in H2. specialize (H2 Hn).
    fold s in H2. cbn [String.length] in H2. lia.
  - unfold s. rewrite int_digits_of by lia.
    rewrite shift_value by (apply log2_fuel; lia). reflexivity.
Qed.

Lemma digit_char_not_sign k :
  0 <= k < 10 ->
  Ascii.eqb (SimpleLoader.digit_char k) "-" = false
  /\ Ascii.eqb (SimpleLoader.digit_char k) "+" = false.
Proof.
  revert k. apply (below_cases _ 10). each_below 10.
Qed.

Lemma int_str n : Z.abs n < 10 ^ 4300 -> PyStr.int (SimpleLoader.str n) = Some n.
Proof.
  intros Hn. unfold SimpleLoader.str. destruct (n <? 0) eqn:E.
  - apply Z.ltb_lt in E.
    destruct (int_of_digits (- n) ltac:(lia)) as [Hall [Hcount Hval]].
    cbv zeta in Hall, Hcount, Hval.
    set (s := SimpleLoader.digits_of _ _ _) in *.
    unfold PyStr.int. cbv zeta.
    assert (PyStr.int_rstrip (PyStr.int_lstrip (String "-" s)) = String "-" s)
      as ->.
    { change (PyStr.int_lstrip (String "-" s)) with (String "-" s).
      cbn [PyStr.int_rstrip]. rewrite (int_rstrip_digits s Hall). reflexivity. }
    change (PyStr.count_digits (String "-" s)) with (PyStr.count_digits s).
    assert ((PyStr.int_max_str_digits <? PyStr.count_digits s)%nat = false)
      as -> by (apply Nat.ltb_ge; exact Hcount).
    change (Ascii.eqb "-" "-") with true. cbv iota. rewrite Hval.
    cbn [option_map]. f_equal. lia.
  - apply Z.ltb_ge in E.
    destruct (int_of_digits n ltac:(lia)) as [Hall [Hcount Hval]].
    cbv zeta in Hall, Hcount, Hval.
    destruct (digits_of_head (Z.to_nat (Z.log2 n)) n "" E)
      as [k [r [Hk Hhead]]].
    set (s := SimpleLoader.digits_of _ _ _) in *.
    unfold PyStr.int. cbv zeta.
    rewrite (int_lstrip_digits s Hall), (int_rstrip_digits s Hall).
    assert ((PyStr.int_max_str_digits <? PyStr.count_digits s)%nat = false)
      as -> by (apply Nat.ltb_ge; exact Hcount).
    rewrite Hhead.
    assert (Ascii.eqb (SimpleLoader.digit_char k) "-" = false
            /\ Ascii.eqb (SimpleLoader.digit_char k) "+" = false) as [-> ->].
    { apply digit_char_not_sign. exact Hk. }
    rewrite <- Hhead. exact Hval.
Qed.



(** ** The pandas summaries of [screentime_standalone.py] *)

Module StandaloneReports.
Import Pandas.

(** [_today_summary_pandas]: [len(active_data)], the rows of today with
    less than 300 idle seconds. *)
Definition active_minutes (today : Z) (df : Frame) : nat :=
  List.length (filter Cli.active (filter (Cli.on_day today) df)).

(** [weekly_summary]: [df[df['timestamp'].dt.date >= week_start]] with
    [week_start = today - timedelta(days=6)]. *)
Definition in_week (today : Z) (r : Row) : bool :=
  today - 6 <=? Clock.date_of (timestamp r).

Definition week_data (today : Z) (df : Frame) : Frame :=
  filter (in_week today) df.

(** [week_data.groupby(week_data['timestamp'].dt.date).size()]. *)
Definition daily_stats (week : Frame) : list (Z * nat) :=
  map (fun day => (day, List.length (filter (Cli.on_day day) week)))
      (group_keys Z.compare (map (fun r => Clock.date_of (timestamp r)) week)).

(** [daily_stats.sum()], printed as "Total Active Time". *)
Definition total_time (week : Frame) : nat :=
  list_sum (map snd (daily_stats week)).

End StandaloneReports.

(** ** [generate_report] of [screentime_report.py] *)

Module Report.
Import Pandas.

Definition REPORT_DAYS : Z := 7.

(** [df['timestamp'].dt.hour]. *)
Definition hour_of (r : Row) : Z :=
  (timestamp r mod Clock.us_per_day) / (3600 * Clock.us_per_second).

Definition in_hour (h : Z) (r : Row) : bool := hour_of r =? h.

(** [df[df['timestamp'] > cutoff]] with
    [cutoff = datetime.now() - timedelta(days=REPORT_DAYS)]. *)
Definition recent (now : Z) (df : Frame) : Frame :=
  filter (Cli.after (now - REPORT_DAYS * Clock.us_per_day)) df.

(** [df.groupby('date').agg(active_minutes=('active', 'sum'),
    unique_apps=('app_name', pd.Series.nunique))]: day, active minutes,
    apps. *)
Definition daily_stats (df : Frame) : list (Z * nat * nat) :=
  map (fun day =>
         let g := filter (Cli.on_day day) df in
         (day, Cli.active_sum g, nunique (map app_name g)))
      (group_keys Z.compare (map (fun r => Clock.date_of (timestamp r)) df)).

(** [df[df['active']].groupby('hour')['active'].sum()]. *)
Definition hourly_usage (df : Frame) : list (Z * nat) :=
  let act := filter Cli.active df in
  map (fun h => (h, Cli.active_sum (filter (in_hour h) act)))
      (group_keys Z.compare (map hour_of act)).

(** [df['active'].sum()]. *)
Definition total_minutes (df : Frame) : nat := Cli.active_sum df.

End Report.

Lemma on_day_day_of day r : Cli.on_day day r = (day_of r =? day).
Proof. reflexivity. Qed.

Lemma daily_sizes_add_up (rows : Pandas.Frame) :
  list_sum (map (fun day => List.length (filter (Cli.on_day day) rows))
                (Pandas.group_keys Z.compare (map day_of rows)))
  = List.length rows.
Proof.
  apply (group_sizes_add_up day_of Z.eqb).
  - apply Z.eqb_eq.
  - apply (group_keys_NoDup Z.compare z_compare_eq z_compare_antisym
                            z_compare_lt_trans).
  - intros r Hr. apply (group_keys_In Z.compare z_compare_eq).
    apply in_map. exact Hr.
Qed.

Lemma filter_length_incl {A} (f g : A -> bool) l :
  (forall x, f x = true -> g x = true) ->
  (List.length (filter f l) <= List.length (filter g l))%nat.
Proof.
  intros H. induction l as [|x l IH]; [apply Nat.le_refl|].
  cbn [filter]. destruct (f x) eqn:E.
  - rewrite (H x E). cbn [List.length]. lia.
  - destruct (g x); cbn [List.length]; lia.
Qed.

(** The "Total Active Time" of the standalone weekly summary is the
    number of all rows dated six days before today or later: rows with
    300 idle seconds or more are counted like the others, so the total
    is the active rows plus the idle rows of the window, and it is never
    below the active minutes that today's summary reports for the same
    log. *)
Theorem standalone_week_counts_idle_rows (df : Pandas.Frame) (today : Z) :
  let week := StandaloneReports.week_data today df in
  StandaloneReports.total_time week = List.length week
  /\ StandaloneReports.total_time week
     = (List.length (filter Cli.active week)
        + List.length (filter (fun r => negb (Cli.active r)) week))%nat
  /\ (StandaloneReports.active_minutes today df
      <= StandaloneReports.total_time week)%nat
  /\ StronglySorted Z.lt (map fst (StandaloneReports.daily_stats week))
  /\ (forall e, In e (StandaloneReports.daily_stats week) ->
                today - 6 <= fst e /\ (0 < snd e)%nat).
Proof.
  intros week.
  assert (StandaloneReports.total_time week = List.length week) as Htotal.
  { unfold StandaloneReports.total_time, StandaloneReports.daily_stats.
    rewrite map_map. cbn [snd]. apply daily_sizes_add_up. }
  split; [exact Htotal|]. split; [|split; [|split]].
  - rewrite Htotal. symmetry. apply filter_split_length.
  - rewrite Htotal. unfold StandaloneReports.active_minutes, week,
      StandaloneReports.week_data.
    rewrite filter_filter.
    etransitivity; [|apply (filter_length_incl
                             (fun r => Cli.on_day today r && Cli.active r))].
    + apply Nat.le_refl.
    + intros r Hr. apply andb_true_iff in Hr. destruct Hr as [Hr _].
      unfold Cli.on_day in Hr. apply Z.eqb_eq in Hr.
      unfold StandaloneReports.in_week. apply Z.leb_le. lia.
  - unfold StandaloneReports.daily_stats. rewrite map_map. cbn [fst].
    rewrite map_id. apply day_keys_sorted.
  - intros e He. unfold StandaloneReports.daily_stats in He.
    apply in_map_iff in He. destruct He as [day [<- Hday]]. cbn [fst snd].
    apply (proj1 (group_keys_In Z.compare z_compare_eq _ _)) in Hday.
    apply in_map_iff in Hday. destruct Hday as [r [Hr Hin]].
    split.
    + unfold week, StandaloneReports.week_data in Hin.
      apply filter_In in Hin. destruct Hin as [_ Hw].
      unfold StandaloneReports.in_week in Hw. apply Z.leb_le in Hw. lia.
    + assert (In r (filter (Cli.on_day day) week)) as Hg.
      { apply filter_In. split; [exact Hin|].
        unfold Cli.on_day. apply Z.eqb_eq. exact Hr. }
      destruct (filter (Cli.on_day day) week); [destruct Hg | cbn; lia].
Qed.

Lemma hour_of_range r : 0 <= Report.hour_of r < 24.
Proof.
  unfold Report.hour_of, Clock.us_per_day, Clock.us_per_second.
  Z.to_euclidean_division_equations; lia.
Qed.

Lemma nunique_pos col :
  (0 < Pandas.nunique col)%nat <-> exists x, In x col /\ Pandas.isna x = false.
Proof.
  unfold Pandas.nunique, Pandas.dropna. split.
  - intros H.
    destruct (nodup string_dec (filter Pandas.notna col)) as [|x l] eqn:E;
      [cbn in H; lia|].
    assert (In x (nodup string_dec (filter Pandas.notna col))) as Hin
        by (rewrite E; left; reflexivity).
    apply nodup_In, filter_In in Hin. destruct Hin as [Hin Hn].
    exists x. split; [exact Hin|].
    unfold Pandas.notna in Hn. apply negb_true_iff in Hn. exact Hn.
  - intros [x [Hin Hn]].
    assert (In x (nodup string_dec (filter Pandas.notna col))) as H.
    { apply nodup_In, filter_In. split; [exact Hin|].
      unfold Pandas.notna. rewrite Hn. reflexivity. }
    destruct (nodup string_dec (filter Pandas.notna col));
      [destruct H | cbn; lia].
Qed.

(** In the report of [screentime_report.py] the hourly figures and the
    daily active minutes each add up to the total active time. The hours
    are listed in ascending order, each between 0 and 23 and with at
    least one active minute. The apps of a day are counted over all its
    rows, idle ones included: a listed day has at least one app as soon
    as one of its rows, active or not, has an app name, and at least as
    many apps as it has apps with active rows. *)
Theorem report_totals_add_up (df : Pandas.Frame) (now : Z) :
  let d := Report.recent now df in
  list_sum (map snd (Report.hourly_usage d)) = Report.total_minutes d
  /\ list_sum (map (fun e => snd (fst e)) (Report.daily_stats d))
     = Report.total_minutes d
  /\ StronglySorted Z.lt (map fst (Report.hourly_usage d))
  /\ (forall e, In e (Report.hourly_usage d) ->
                0 <= fst e < 24 /\ (0 < snd e)%nat)
  /\ (forall e, In e (Report.daily_stats d) ->
                ((0 < snd e)%nat
                 <-> exists r, In r d /\ day_of r = fst (fst e)
                               /\ Pandas.isna (app_name r) = false)
                /\ (Cli.unique_apps_of (filter (Cli.on_day (fst (fst e))) d)
                    <= snd e)%nat).
Proof.
  intros d. split; [|split; [|split; [|split]]].
  - unfold Report.hourly_usage, Report.total_minutes. cbv zeta.
    rewrite map_map. cbn [snd]. unfold Cli.active_sum at 2.
    rewrite <- (group_sizes_add_up Report.hour_of Z.eqb
                  (Pandas.group_keys Z.compare
                     (map Report.hour_of (filter Cli.active d)))
                  (filter Cli.active d)).
    + f_equal. apply map_ext. intros h. unfold Cli.active_sum.
      rewrite filter_active_idem. reflexivity.
    + apply Z.eqb_eq.
    + apply (group_keys_NoDup Z.compare z_compare_eq z_compare_antisym
                              z_compare_lt_trans).
    + intros r Hr. apply (group_keys_In Z.compare z_compare_eq).
      apply in_map. exact Hr.
  - unfold Report.daily_stats, Report.total_minutes. rewrite map_map.
    cbn [fst snd]. unfold Cli.active_sum.
    rewrite <- (group_sizes_add_up day_of Z.eqb
                  (Pandas.group_keys Z.compare (map day_of d))
                  (filter Cli.active d)).
    + f_equal. apply map_ext. intros day. f_equal. apply filter_comm.
    + apply Z.eqb_eq.
    + apply (group_keys_NoDup Z.compare z_compare_eq z_compare_antisym
                              z_compare_lt_trans).
    + intros r Hr. apply (group_keys_In Z.compare z_compare_eq).
      apply in_map. apply filter_In in Hr. tauto.
  - unfold Report.hourly_usage. cbv zeta. rewrite map_map. cbn [fst].
    rewrite map_id. apply day_keys_sorted.
  - intros e He. unfold Report.hourly_usage in He. cbv zeta in He.
    apply in_map_iff in He. destruct He as [h [<- Hh]]. cbn [fst snd].
    apply (proj1 (group_keys_In Z.compare z_compare_eq _ _)) in Hh.
    apply in_map_iff in Hh. destruct Hh as [r [Hr Hin]].
    split; [rewrite <- Hr; apply hour_of_range|].
    unfold Cli.active_sum. rewrite filter_active_idem.
    assert (In r (filter (Report.in_hour h) (filter Cli.active d))) as Hg.
    { apply filter_In. split; [exact Hin|].
      unfold Report.in_hour. apply Z.eqb_eq. exact Hr. }
    destruct (filter (Report.in_hour h) (filter Cli.active d));
      [destruct Hg | cbn; lia].
  - intros e He. unfold Report.daily_stats in He.
    apply in_map_iff in He. destruct He as [day [<- Hday]]. cbn [fst snd].
    apply (proj1 (group_keys_In Z.compare z_compare_eq _ _)) in Hday.
    apply in_map_iff in Hday. destruct Hday as [r [Hr Hin]].
    split.
    + rewrite nunique_pos. split.
      * intros [a [Ha Hna]]. apply in_map_iff in Ha.
        destruct Ha as [x [<- Hx]]. apply filter_In in Hx.
        destruct Hx as [Hx Hd]. unfold Cli.on_day in Hd. apply Z.eqb_eq in Hd.
        exists x. auto.
      * intros [x [Hx [Hd Hna]]]. exists (app_name x). split; [|exact Hna].
        apply in_map, filter_In. split; [exact Hx|].
        unfold Cli.on_day. apply Z.eqb_eq. exact Hd.
    + unfold Cli.unique_apps_of, Pandas.nunique, Pandas.dropna.
      apply NoDup_incl_length; [apply NoDup_nodup|].
      intros a Ha. apply nodup_In in Ha. apply nodup_In.
      apply filter_In in Ha. destruct Ha as [Ha Hn].
      apply filter_In. split; [|exact Hn].
      apply in_map_iff in Ha. destruct Ha as [x [<- Hx]].
      apply in_map. apply filter_In in Hx. tauto.
Qed.

(** ** The order of the encodings *)

Lemma latin_1_decode bs :
  Codec.decode Codec.latin_1 bs = Some (map Byte.to_N bs).
Proof.
  cbn [Codec.decode]. induction bs as [|b bs IH]; [reflexivity|].
  cbn [Codec.charmap_decode map]. unfold Codec.latin_1_table at 1.
  rewrite IH. reflexivity.
Qed.

Lemma cp1252_low n : (n < 128)%N -> Codec.cp1252_table n = Some n.
Proof.
  intros Hn. unfold Codec.cp1252_table.
  destruct (find (fun e => (fst e =? n)%N) Codec.cp1252_high) as [[k cp]|] eqn:E;
    [|reflexivity].
  exfalso. apply find_some in E. destruct E as [Hin Hk]. cbn [fst] in Hk.
  apply N.eqb_eq in Hk. subst k.
  assert (Forall (fun e => (128 <= fst e)%N) Codec.cp1252_high) as Hall.
  { unfold Codec.cp1252_high.
    repeat (constructor; [cbn [fst]; lia|]). constructor. }
  rewrite Forall_forall in Hall. specialize (Hall _ Hin). cbn [fst] in Hall. lia.
Qed.

(** A log of ASCII bytes only is the same text under each of the four
    encodings that [load_data] lists, one character per byte: for such a
    log the order of the list makes no difference. *)
Theorem ascii_log_reads_the_same (bs : list byte) (e : Codec.Encoding) :
  Forall (fun b => (Byte.to_N b < 128)%N) bs ->
  Codec.decode e bs = Some (map Byte.to_N bs).
Proof.
  intros Hascii.
  assert (Codec.utf8_decode bs = Some (map Byte.to_N bs)) as Hutf.
  { induction Hascii as [|b bs Hb _ IH]; [reflexivity|].
    rewrite utf8_decode_cons. cbv zeta.
    assert ((Byte.to_N b <? 128)%N = true) as -> by (apply N.ltb_lt; exact Hb).
    rewrite IH. reflexivity. }
  destruct e.
  - exact Hutf.
  - apply latin_1_decode.
  - cbn [Codec.decode]. induction Hascii as [|b bs Hb Hbs IH]; [reflexivity|].
    cbn [Codec.charmap_decode map]. rewrite (cp1252_low _ Hb).
    rewrite IH; [reflexivity|].
    rewrite utf8_decode_cons in Hutf. cbv zeta in Hutf.
    assert ((Byte.to_N b <? 128)%N = true) as Hlt by (apply N.ltb_lt; exact Hb).
    rewrite Hlt in Hutf.
    destruct (Codec.utf8_decode bs) as [t|]; [|discriminate].
    cbn [option_map map] in Hutf. congruence.
  - cbn [Codec.decode].
    assert (Codec.strip_bom bs = bs) as ->; [|exact Hutf].
    destruct Hascii as [|b0 bs Hb0 Hbs]; [reflexivity|].
    unfold Codec.strip_bom. destruct bs as [|b1 [|b2 rest]]; try reflexivity.
    assert ((Byte.to_N b0 =? 239)%N = false) as -> by (apply N.eqb_neq; lia).
    reflexivity.
Qed.

Lemma ascii_log_reads_the_same_witness :
  Codec.decode Codec.cp1252 [x61; x2c; x31; x0a] = Some [97; 44; 49; 10]%N.
Proof.
  apply (ascii_log_reads_the_same [x61; x2c; x31; x0a] Codec.cp1252).
  repeat constructor.
Defined.

(** A log that is not valid UTF-8 is always read as Latin-1, one
    character per byte with the number of the byte: [load_data] returns
    what the parser makes of that text, and the two encodings listed
    after latin-1 are never used. *)
Theorem non_utf8_log_is_read_as_latin_1
        (parse_frame : Codec.Encoding -> list N -> option Pandas.Frame)
        (bs : list byte) :
  Codec.decode Codec.utf_8 bs = None ->
  Loader.load_data parse_frame (Some bs)
  = match parse_frame Codec.latin_1 (map Byte.to_N bs) with
    | Some df => ([], Some df)
    | None => ([ErrorLoadingData], None)
    end.
Proof.
  intros H. unfold Loader.load_data. rewrite try_encodings_first_two.
  rewrite H, latin_1_decode.
  destruct (parse_frame Codec.latin_1 (map Byte.to_N bs)); reflexivity.
Qed.

Lemma non_utf8_log_is_read_as_latin_1_witness :
  Codec.decode Codec.cp1252 [x80] = Some [8364%N]
  /\ Loader.load_data
       (fun e text => match e with
                      | Codec.latin_1 => Some []
                      | _ => None
                      end)
       (Some [x80])
     = ([], Some []).
Proof.
  split; [reflexivity|].
  exact (non_utf8_log_is_read_as_latin_1
           (fun e text => match e with
                          | Codec.latin_1 => Some []
                          | _ => None
                          end)
           [x80] eq_refl).
Defined.
